(** * Golden-ratio mass quantization: a shallow embedding

    The Python scripts of the repository repeat one numeric core:

    - the exponent quantizer [n = log(mass/m_e) / log(phi)],
      [n_quantized = round(n * 4) / 4], [q = 4 * n_quantized]
      (quantum_number_analysis.py, model_builder_clean.py,
      n_value_analysis.py, a5_casimir_ratio.py);
    - the brute-force search for coefficients of the basis 8, 15, 24
      (q_pattern_analysis.py);
    - the loaders that read the [particles] table
      (q_pattern_analysis.py, a5_casimir_ratio.py,
      definitive_a5_model_fixed.py);
    - the enumeration of predicted states (model_builder_clean.py,
      definitive_a5_model_fixed.py).

    The numeric core is embedded twice.  The top-level definitions read
    Python floats as real numbers ([math.log] is [ln], [math.sqrt] is
    [sqrt], [**] on a positive base is [Rpower]): they carry the facts
    about the values the formulas denote, such as the code of the muon,
    the error bounds, and everything that is integer arithmetic.  The
    module [Double] reads the same code on IEEE-754 binary64 values with
    Python's exceptions: it carries the statements about what the
    quantizer, the loaders and the predictions return and raise.  Python
    integers are [Z].  Exceptions are values of an error monad. *)

From Stdlib Require Import Reals Lra Lia ZArith List String Bool.
From Stdlib Require Import Permutation Sorted.
From Stdlib Require Floats.
Import ListNotations.

Local Open Scope string_scope.
Local Open Scope R_scope.

(** ** Python exceptions as an error monad *)

Inductive PyExc : Set :=
| ZeroDivisionError   (* float division by zero *)
| ValueError          (* math domain error *)
| TypeError           (* None used as a number, or [None[0]] *)
| KeyError            (* missing dictionary key *)
| OverflowError.      (* float result too large, or [round] of an infinity *)

Inductive result (A : Type) : Type :=
| Ok (a : A)
| Raise (e : PyExc).

Arguments Ok {A} a.
Arguments Raise {A} e.

Definition bind {A B : Type} (m : result A) (k : A -> result B) : result B :=
  match m with
  | Ok a => k a
  | Raise e => Raise e
  end.

Notation "x <- m ;; k" := (bind m (fun x => k))
  (at level 61, m at next level, right associativity).

(** A [for] loop that appends one item per row: the first row whose body
    raises aborts the whole loop. *)
Fixpoint mapM {A B : Type} (f : A -> result B) (l : list A) : result (list B) :=
  match l with
  | [] => Ok []
  | x :: t => y <- f x ;; ys <- mapM f t ;; Ok (y :: ys)
  end.

(** ** Python numeric primitives *)

(** [x / y] on floats. *)
Definition py_div (x y : R) : result R :=
  if Req_EM_T y 0 then Raise ZeroDivisionError else Ok (x / y).

(** [math.log(x)]. *)
Definition py_log (x : R) : result R :=
  if Rlt_dec 0 x then Ok (ln x) else Raise ValueError.

(** Built-in [round(x)] with one argument: nearest integer, halves go to
    the even neighbour; the result is an [int]. *)
Definition py_round (x : R) : Z :=
  let f := Int_part x in
  let r := x - IZR f in
  if Rlt_dec r (1 / 2) then f
  else if Rlt_dec (1 / 2) r then (f + 1)%Z
  else if Z.even f then f else (f + 1)%Z.

(** [phi = (1 + sqrt(5)) / 2], the module-level constant of every script. *)
Definition phi : R := (1 + sqrt 5) / 2.

(** ** The exponent quantizer *)

(** [log(mass/m_e) / log(phi)]: the expression shared by
    quantum_number_analysis.py:32, model_builder_clean.py:34,
    a5_casimir_ratio.py:62 and model_builder_clean.py:305, in exact
    arithmetic ([Double.exponent] is the same expression on doubles). *)
Definition exponent (mass m_e : R) : result R :=
  ratio <- py_div mass m_e ;;
  num <- py_log ratio ;;
  den <- py_log phi ;;
  py_div num den.

(** [round(n * 4) / 4]: an [int] divided by 4. *)
Definition quantize_quarter (n : R) : R := IZR (py_round (n * 4)) / 4.

(** Loop body of [analyze_quantum_numbers] (quantum_number_analysis.py:32-40):
    the stored ['n'] is [n_quantized], the stored ['q'] is [int(round(q))].
    In exact arithmetic [round] has nothing to raise on
    ([Double.quantum_number] is the body on doubles). *)
Definition quantum_number (mass m_e : R) : result (R * Z) :=
  n <- exponent mass m_e ;;
  let n_quantized := quantize_quarter n in
  let q := 4 * n_quantized in
  Ok (n_quantized, py_round q).

(** Loop body of [load_particle_data] (model_builder_clean.py:34-36):
    here ['q'] stays the float [n_quantized * 4]. *)
Definition quantum_number_float (mass m_e : R) : result (R * R) :=
  n <- exponent mass m_e ;;
  let n_quantized := quantize_quarter n in
  let q := n_quantized * 4 in
  Ok (n_quantized, q).


(** The muon mass over the electron mass, as populate_full_sm.py and
    n_value_analysis.py give them. *)
Definition muon_ratio : R := 0.1056583745 / 0.0005109989461.

(** ** The [particles] table

    The scripts read the SQLite table through [SELECT] statements; a column
    of a row can be [NULL], which Python sees as [None].  The columns are
    the ones the loaders select. *)

Record row : Type := {
  name : string;
  mass_gev : option R;
  category : string;
  generation : option Z;
  spin_half : option R;
  charge : option R
}.

Definition database := list row.

(** A Python value used as a float: [None] in arithmetic is a [TypeError]. *)
Definition as_float (v : option R) : result R :=
  match v with
  | Some x => Ok x
  | None => Raise TypeError
  end.

(** [SELECT mass_gev FROM particles WHERE name='electron'] followed by
    [cursor.fetchone()[0]]: with no such row [fetchone()] is [None] and the
    subscript raises. *)
Definition select_electron_mass (db : database) : result (option R) :=
  match find (fun r => String.eqb (name r) "electron") db with
  | Some r => Ok (mass_gev r)
  | None => Raise TypeError
  end.

(** [WHERE mass_gev > 0]: a [NULL] mass never satisfies the comparison.
    Each selected row comes with its (now certainly numeric) mass. *)
Fixpoint where_mass_positive (db : database) : list (R * row) :=
  match db with
  | [] => []
  | r :: t =>
      match mass_gev r with
      | Some m => if Rlt_dec 0 m then (m, r) :: where_mass_positive t
                  else where_mass_positive t
      | None => where_mass_positive t
      end
  end.

(** Stable insertion sort on a real key, for [ORDER BY mass_gev] and for
    [list.sort(key=...)]. *)
Fixpoint insert_by {A : Type} (key : A -> R) (x : A) (l : list A) : list A :=
  match l with
  | [] => [x]
  | y :: t => if Rle_dec (key x) (key y) then x :: y :: t
              else y :: insert_by key x t
  end.

Fixpoint sort_by {A : Type} (key : A -> R) (l : list A) : list A :=
  match l with
  | [] => []
  | x :: t => insert_by key x (sort_by key t)
  end.

(** The order that a sort on [key] establishes. *)
Definition le_key {A : Type} (key : A -> R) (x y : A) : Prop := key x <= key y.

Definition order_by_mass (rows : list (R * row)) : list (R * row) :=
  sort_by fst rows.

(** [range(lo, hi)]. *)
Definition range (lo hi : Z) : list Z :=
  map (fun i => (lo + Z.of_nat i)%Z) (seq 0 (Z.to_nat (hi - lo))).

(** [d.get(k)] on a dictionary literal. *)
Fixpoint dict_get {V : Type} (d : list (string * V)) (k : string) : option V :=
  match d with
  | [] => None
  | (k', v) :: t => if String.eqb k k' then Some v else dict_get t k
  end.

(** [d[k]]. *)
Definition dict_item {V : Type} (d : list (string * V)) (k : string) : result V :=
  match dict_get d k with
  | Some v => Ok v
  | None => Raise KeyError
  end.

(** The table of integer codes that q_pattern_analysis.py:18,
    a5_casimir_ratio.py:35 and definitive_a5_model_fixed.py:20 all repeat
    (the key order differs between the files, the bindings do not). *)
Definition exact_q : list (string * Z) :=
  [ ("electron_neutrino", (-224)%Z);
    ("muon_neutrino", (-180)%Z);
    ("tau_neutrino", (-162)%Z);
    ("electron", (0)%Z);
    ("up_quark", (12)%Z);
    ("down_quark", (18)%Z);
    ("strange_quark", (44)%Z);
    ("muon", (44)%Z);
    ("charm_quark", (65)%Z);
    ("tau", (68)%Z);
    ("bottom_quark", (75)%Z);
    ("top_quark", (106)%Z);
    ("W_boson", (100)%Z);
    ("Z_boson", (100)%Z);
    ("higgs_boson", (103)%Z) ].

(** The code the table holds for a name, 0 standing in for a missing key
    (used only where the key is known to be present). *)
Definition table_code (nm : string) : Z :=
  match dict_get exact_q nm with
  | Some k => k
  | None => 0%Z
  end.

(** Sample rows, with the masses of populate_full_sm.py and the name
    ['Higgs'] that add_particles.py inserts. *)
Definition electron_row : row :=
  {| name := "electron"; mass_gev := Some 0.0005109989461;
     category := "lepton"; generation := Some 1%Z;
     spin_half := Some 1; charge := Some (-1) |}.

Definition muon_row : row :=
  {| name := "muon"; mass_gev := Some 0.1056583745;
     category := "lepton"; generation := Some 2%Z;
     spin_half := Some 1; charge := Some (-1) |}.

Definition photon_row : row :=
  {| name := "photon"; mass_gev := Some 0.0;
     category := "gauge_boson"; generation := Some 0%Z;
     spin_half := Some 2; charge := Some 0 |}.

Definition Higgs_row : row :=
  {| name := "Higgs"; mass_gev := Some 125.25;
     category := "scalar"; generation := Some 0%Z;
     spin_half := Some 0; charge := Some 0 |}.

(** An electron row whose stored mass is zero. *)
Definition zero_electron_row : row :=
  {| name := "electron"; mass_gev := Some 0.0;
     category := "lepton"; generation := Some 1%Z;
     spin_half := Some 1; charge := Some (-1) |}.

(** A muon row whose [spin_half] column is [NULL]. *)
Definition spinless_muon_row : row :=
  {| name := "muon"; mass_gev := Some 0.1056583745;
     category := "lepton"; generation := Some 2%Z;
     spin_half := None; charge := Some (-1) |}.

(** ** More Python primitives *)

(** [x % y] on floats for a positive [y]: the remainder of floor
    division, so that [0 <= x % y < y]. *)
Definition py_mod (x y : R) : R := x - y * IZR (Int_part (x / y)).

(** [int(x)] on a float: truncation toward zero. *)
Definition py_int (x : R) : Z :=
  if Rle_dec 0 x then Int_part x else (- Int_part (- x))%Z.

(** [sub in s] on strings. *)
Fixpoint contains (sub s : string) : bool :=
  if String.prefix sub s then true
  else match s with
       | EmptyString => false
       | String _ t => contains sub t
       end.

(** [k in d] on a dictionary literal. *)
Definition dict_mem {V : Type} (d : list (string * V)) (k : string) : bool :=
  match dict_get d k with
  | Some _ => true
  | None => false
  end.

(** [sorted(l)] on a list of integers (stable insertion sort). *)
Fixpoint insert_Z (x : Z) (l : list Z) : list Z :=
  match l with
  | [] => [x]
  | y :: t => if (x <=? y)%Z then x :: y :: t else y :: insert_Z x t
  end.

Fixpoint sorted_Z (l : list Z) : list Z :=
  match l with
  | [] => []
  | x :: t => insert_Z x (sorted_Z t)
  end.

(** ** quantum_number_analysis.py *)

Module QuantumNumberAnalysis.

Record particle : Type := {
  p_name : string;
  p_mass : R;
  p_n : R;
  p_q : Z;
  p_category : string;
  p_generation : Z
}.

(** The loading loop of [analyze_quantum_numbers] (lines 18-43). *)
Definition analyze_quantum_numbers (db : database) : result (list particle) :=
  m_e <- select_electron_mass db ;;
  mapM (fun mr : R * row =>
          let (mass, r) := mr in
          me <- as_float m_e ;;
          nq <- quantum_number mass me ;;
          Ok {| p_name := name r;
                p_mass := mass;
                p_n := fst nq;
                p_q := snd nq;
                p_category := category r;
                p_generation := match generation r with
                                | Some g => g
                                | None => 0%Z
                                end |})
       (order_by_mass (where_mass_positive db)).

(** The entry the loop appends for a selected row when nothing raises. *)
Definition entry_of (m_e : R) (mr : R * row) : particle :=
  let (mass, r) := mr in
  let q := py_round (4 * (ln (mass / m_e) / ln phi)) in
  {| p_name := name r;
     p_mass := mass;
     p_n := IZR q / 4;
     p_q := q;
     p_category := category r;
     p_generation := match generation r with
                     | Some g => g
                     | None => 0%Z
                     end |}.

(** The search for [q = 3a + 4b] (lines 107-117) over arbitrary ranges:
    the inner loop stops at the first [b] that fits, and [found] then
    stops the outer loop. *)
Fixpoint find_3a_4b_in (As Bs : list Z) (q : Z) : option (Z * Z) :=
  match As with
  | [] => None
  | a :: t =>
      match find (fun b => (3 * a + 4 * b =? q)%Z) Bs with
      | Some b => Some (a, b)
      | None => find_3a_4b_in t Bs q
      end
  end.

(** The same with the ranges of the source: the line printed for a
    particle of code [q], if any. *)
Definition find_3a_4b (q : Z) : option (Z * Z) :=
  find_3a_4b_in (range (-10) 11) (range (-10) 11) q.

(** The divisibility report (lines 93-99): for each divisor the count of
    codes it divides and the percentage [divisible/len(all_q)*100]. *)
Definition divisors : list Z := [2; 3; 4; 5; 6; 8; 12]%Z.

Definition count_divisible (d : Z) (all_q : list Z) : Z :=
  Z.of_nat (List.length (filter (fun q => (q mod d =? 0)%Z) all_q)).

Definition divisibility_report (all_q : list Z) : result (list (Z * Z * R)) :=
  mapM (fun d =>
          let divisible := count_divisible d all_q in
          share <- py_div (IZR divisible) (INR (List.length all_q)) ;;
          Ok (d, divisible, share * 100))
       divisors.

(** [predict_new_particles] (lines 171-220): the gaps of the sorted codes.
    For neighbours more than 1 apart the printed [missing] list is
    [range(all_q[i]+1, all_q[i+1])]. *)
Fixpoint gaps (all_q : list Z) : list (Z * Z * list Z) :=
  match all_q with
  | x :: (y :: _) as t =>
      (if (y - x >? 1)%Z then [(x, y, range (x + 1) y)] else []) ++ gaps t
  | _ => []
  end.

(** [diffs] (line 196). *)
Fixpoint diffs (all_q : list Z) : list Z :=
  match all_q with
  | x :: (y :: _) as t => (y - x)%Z :: diffs t
  | _ => []
  end.

(** [all_q] (line 179) and the gaps printed for a list of particles. *)
Definition all_q_of (particles : list particle) : list Z :=
  sorted_Z (map p_q particles).

Definition printed_gaps (particles : list particle) : list (Z * Z * list Z) :=
  gaps (all_q_of particles).

End QuantumNumberAnalysis.

(** ** model_builder_clean.py *)

Module ModelBuilderClean.

Record particle : Type := {
  p_name : string;
  p_mass : R;
  p_n : R;
  p_q : R;
  p_category : string;
  p_spin : R
}.

(** [spin_half * 0.5 if spin_half else 0]: [None] and [0] are falsy. *)
Definition spin_of (s : option R) : R :=
  match s with
  | Some x => if Req_EM_T x 0 then 0 else x * 0.5
  | None => 0
  end.

(** [load_particle_data] (lines 15-48). *)
Definition load_particle_data (db : database)
  : result (list particle * option R) :=
  m_e <- select_electron_mass db ;;
  particles <-
    mapM (fun mr : R * row =>
            let (mass, r) := mr in
            me <- as_float m_e ;;
            nq <- quantum_number_float mass me ;;
            Ok {| p_name := name r;
                  p_mass := mass;
                  p_n := fst nq;
                  p_q := snd nq;
                  p_category := category r;
                  p_spin := spin_of (spin_half r) |})
         (order_by_mass (where_mass_positive db)) ;;
  Ok (particles, m_e).

(** The entry the loop appends for a selected row when nothing raises. *)
Definition entry_of (m_e : R) (mr : R * row) : particle :=
  let (mass, r) := mr in
  let q := py_round (4 * (ln (mass / m_e) / ln phi)) in
  {| p_name := name r;
     p_mass := mass;
     p_n := IZR q / 4;
     p_q := IZR q;
     p_category := category r;
     p_spin := spin_of (spin_half r) |}.

Record assignment : Type := {
  a_name : string;
  a_dim : Z;
  a_w : Z;
  a_weights : list Z;
  a_q : R;
  a_n : R
}.

(** Weight of a charged lepton from [int(q % 4)] (lines 88-92). *)
Definition lepton_weight (w_mod : Z) : Z :=
  if (w_mod =? 0)%Z then (-3)%Z
  else if (w_mod =? 1)%Z then (-1)%Z
  else if (w_mod =? 2)%Z then 1%Z
  else 3%Z.

(** Weight of a boson from [int(q % 5)] (lines 98-103). *)
Definition boson_weight (w_mod : Z) : Z :=
  if (w_mod =? 0)%Z then (-2)%Z
  else if (w_mod =? 1)%Z then (-1)%Z
  else if (w_mod =? 2)%Z then 0%Z
  else if (w_mod =? 3)%Z then 1%Z
  else 2%Z.

(** Loop body of [assign_a5_representations] (lines 61-112). *)
Definition assign_one (p : particle) : assignment :=
  let q := p_q p in
  let name := p_name p in
  let category := p_category p in
  let '(dim, weights, w) :=
    if String.eqb name "electron" then (1%Z, [0%Z], 0%Z)
    else if contains "neutrino" name then (1%Z, [0%Z], 0%Z)
    else if String.eqb category "quark" then
      (3%Z, [-1; 0; 1]%Z, (py_int (py_mod q 3) - 1)%Z)
    else if String.eqb category "lepton" && negb (String.eqb name "electron")
    then (4%Z, [-3; -1; 1; 3]%Z, lepton_weight (py_int (py_mod q 4)))
    else (5%Z, [-2; -1; 0; 1; 2]%Z, boson_weight (py_int (py_mod q 5)))
  in
  {| a_name := name; a_dim := dim; a_w := w; a_weights := weights;
     a_q := q; a_n := p_n p |}.

(** [assign_a5_representations] (lines 50-120). *)
Definition assign_a5_representations (particles : list particle)
  : list assignment :=
  map assign_one particles.

(** [possible_reps] (lines 188-193). *)
Definition possible_reps : list (Z * list Z) :=
  [ (1, [0]); (3, [-1; 0; 1]); (4, [-3; -1; 1; 3]);
    (5, [-2; -1; 0; 1; 2]) ]%Z.

(** The running best of the search: [best_error] (with [None] for
    [float('inf')]), [best_dim] and [best_w]. *)
Definition best_state : Type := option R * Z * Z.

(** Innermost body of the search (lines 209-215). *)
Definition try_state (alpha beta gamma n_actual : R) (st : best_state)
  (dim w : Z) : best_state :=
  let '(best_error, _, _) := st in
  let n_pred := alpha * IZR dim + beta * IZR w + gamma in
  let error := Rabs (n_pred - n_actual) in
  let better := match best_error with
                | None => true
                | Some e => if Rlt_dec error e then true else false
                end in
  if better then (Some error, dim, w) else st.

(** The two nested loops (lines 206-215) for one particle. *)
Definition best_assignment_in (reps : list (Z * list Z))
  (alpha beta gamma n_actual : R) : best_state :=
  fold_left
    (fun st rep =>
       fold_left (fun st w => try_state alpha beta gamma n_actual st (fst rep) w)
                 (snd rep) st)
    reps (None, 1%Z, 0%Z).

Record best_entry : Type := {
  b_name : string;
  b_dim : Z;
  b_w : Z;
  b_n_actual : R;
  b_error : option R
}.

(** [try_different_assignments] (lines 180-233). *)
Definition try_different_assignments (particles : list particle)
  (alpha beta gamma : R) : list best_entry :=
  map (fun p =>
         let '(best_error, best_dim, best_w) :=
           best_assignment_in possible_reps alpha beta gamma (p_n p) in
         {| b_name := p_name p; b_dim := best_dim; b_w := best_w;
            b_n_actual := p_n p; b_error := best_error |})
      particles.

(** The [(dim, w)] pairs of a list of representations, in loop order. *)
Definition states_of (reps : list (Z * list Z)) : list (Z * Z) :=
  flat_map (fun rep => map (fun w => (fst rep, w)) (snd rep)) reps.

(** The error of a state for a particle of exponent [n_actual]. *)
Definition state_error (alpha beta gamma n_actual : R) (s : Z * Z) : R :=
  Rabs (alpha * IZR (fst s) + beta * IZR (snd s) + gamma - n_actual).

(** One step of the search on a [(dim, w)] pair. *)
Definition try_pair (alpha beta gamma n_actual : R) (st : best_state)
  (s : Z * Z) : best_state :=
  try_state alpha beta gamma n_actual st (fst s) (snd s).

(** What the running best says about the pairs tried so far. *)
Definition best_so_far (alpha beta gamma n_actual : R) (l : list (Z * Z))
  (st : best_state) : Prop :=
  match st with
  | (None, dim, w) => l = [] /\ dim = 1%Z /\ w = 0%Z
  | (Some e, dim, w) =>
      In (dim, w) l /\
      e = state_error alpha beta gamma n_actual (dim, w) /\
      forall s, In s l -> e <= state_error alpha beta gamma n_actual s
  end.

End ModelBuilderClean.

(** ** a5_casimir_ratio.py *)

Module A5CasimirRatio.

Record particle : Type := {
  p_name : string;
  p_mass : R;
  p_n : R;
  p_q : Z;
  p_category : string;
  p_spin : R
}.

(** [spin * 0.5 if spin else 0]. *)
Definition spin_of (s : option R) : R :=
  match s with
  | Some x => if Req_EM_T x 0 then 0 else x * 0.5
  | None => 0
  end.

(** [exact_q_values.get(name, round(4 * n))] (line 63): the default is
    evaluated before the lookup; on a real number [round] cannot raise
    ([Double.A5CasimirRatio.load_row] is the body on doubles). *)
Definition q_of (nm : string) (n : R) : Z :=
  let default := py_round (4 * n) in
  match dict_get exact_q nm with
  | Some k => k
  | None => default
  end.

(** Loop body at lines 61-72. *)
Definition load_row (m_e : option R) (mr : R * row) : result particle :=
  let (mass, r) := mr in
  me <- as_float m_e ;;
  n <- exponent mass me ;;
  Ok {| p_name := name r;
        p_mass := mass;
        p_n := n;
        p_q := q_of (name r) n;
        p_category := category r;
        p_spin := spin_of (spin_half r) |}.

(** [load_data_with_exact_q] (lines 26-75). *)
Definition load_data_with_exact_q (db : database)
  : result (list particle * option R) :=
  m_e <- select_electron_mass db ;;
  particles <- mapM (load_row m_e) (order_by_mass (where_mass_positive db)) ;;
  Ok (particles, m_e).

(** The entry the loop appends for a selected row when nothing raises:
    the code comes from the table when the name is known, the exponent
    always comes from the mass. *)
Definition entry_of (m_e : R) (mr : R * row) : particle :=
  let (mass, r) := mr in
  let n := ln (mass / m_e) / ln phi in
  {| p_name := name r;
     p_mass := mass;
     p_n := n;
     p_q := match dict_get exact_q (name r) with
            | Some k => k
            | None => py_round (4 * n)
            end;
     p_category := category r;
     p_spin := spin_of (spin_half r) |}.

(** [casimir_normalized] (lines 13-24). *)
Definition casimir_normalized (dim : Z) : Z :=
  if (dim =? 1)%Z then 0%Z
  else if (dim =? 3)%Z then 8%Z
  else if (dim =? 4)%Z then 15%Z
  else if (dim =? 5)%Z then 24%Z
  else (dim ^ 2 - 1)%Z.

(** [possibilities] (lines 85-90): [(dim, C_norm, weight)]. *)
Definition possibilities : list (Z * Z * Z) :=
  [ (1, 0, 0);
    (3, 8, -1); (3, 8, 0); (3, 8, 1);
    (4, 15, -3); (4, 15, -1); (4, 15, 1); (4, 15, 3);
    (5, 24, -2); (5, 24, -1); (5, 24, 0); (5, 24, 1); (5, 24, 2) ]%Z.

Record assignment : Type := {
  a_name : string;
  a_q : Z;
  a_C : Z;
  a_w : Z;
  a_dim : Z
}.

Definition quark_weights : list (string * Z) :=
  [ ("up_quark", (-1)%Z); ("down_quark", 0%Z); ("strange_quark", 1%Z);
    ("charm_quark", (-1)%Z); ("bottom_quark", 0%Z); ("top_quark", 1%Z) ].

Definition lepton_weights : list (string * Z) :=
  [ ("muon", (-3)%Z); ("tau", (-1)%Z) ].

Definition boson_weights : list (string * Z) :=
  [ ("W_boson", (-2)%Z); ("Z_boson", (-1)%Z); ("higgs_boson", 0%Z) ].

(** One of the loops at lines 121-138: the particles whose name is a key
    of [weights] (and passes [extra]) get [C], the weight of their name
    and [dim]. *)
Definition assign_group (extra : string -> bool) (weights : list (string * Z))
  (C dim : Z) (particles : list particle) : list assignment :=
  flat_map
    (fun p =>
       if extra (p_name p) then
         match dict_get weights (p_name p) with
         | Some w => [ {| a_name := p_name p; a_q := p_q p;
                          a_C := C; a_w := w; a_dim := dim |} ]
         | None => []
         end
       else [])
    particles.

(** The list [assignments] of [find_best_assignments] as it stands before
    the fit (lines 106-138): five passes over the particles. *)
Definition assignments_of (particles : list particle) : list assignment :=
  flat_map
    (fun p =>
       if contains "neutrino" (p_name p) then
         [ {| a_name := p_name p; a_q := p_q p;
              a_C := 0; a_w := 0; a_dim := 1 |} ]
       else [])
    particles
  ++ flat_map
       (fun p =>
          if String.eqb (p_name p) "electron" then
            [ {| a_name := p_name p; a_q := p_q p;
                 a_C := 8; a_w := -1; a_dim := 3 |} ]
          else [])
       particles
  ++ assign_group (contains "quark") quark_weights 8 3 particles
  ++ assign_group (fun _ => true) lepton_weights 15 4 particles
  ++ assign_group (fun _ => true) boson_weights 24 5 particles.

(** The list [differences] of [check_integer_property] (lines 216-221)
    for fitted parameters [a] and [b]. *)
Definition integer_differences (assignments : list assignment) (a b : R)
  : list R :=
  map (fun assign =>
         let q_pred := a * IZR (a_C assign) + b * IZR (a_w assign) in
         let nearest_int := py_round q_pred in
         Rabs (q_pred - IZR nearest_int))
      assignments.

End A5CasimirRatio.

(** ** q_pattern_analysis.py *)

Module QPatternAnalysis.

Record particle : Type := {
  p_name : string;
  p_mass : R;
  p_category : string;
  p_q : Z;
  p_n : R
}.

(** Loop body at lines 28-33: [exact_q[name]] raises on an unknown name. *)
Definition load_row (mr : R * row) : result particle :=
  let (mass, r) := mr in
  k <- dict_item exact_q (name r) ;;
  let n := IZR k / 4 in
  Ok {| p_name := name r;
        p_mass := mass;
        p_category := category r;
        p_q := k;
        p_n := n |}.

(** [load_data] (lines 12-36); this query has no [ORDER BY]. *)
Definition load_data (db : database) : result (list particle * option R) :=
  m_e <- select_electron_mass db ;;
  particles <- mapM load_row (where_mass_positive db) ;;
  Ok (particles, m_e).

(** The entry the loop appends for a selected row of table code [k]. *)
Definition entry_of (k : Z) (mr : R * row) : particle :=
  let (mass, r) := mr in
  {| p_name := name r;
     p_mass := mass;
     p_category := category r;
     p_q := k;
     p_n := IZR k / 4 |}.

(** The dictionary [q_values] of [express_q_as_combination] (lines 41-57)
    has the bindings of [exact_q], in the same order. *)
Definition q_values : list (string * Z) := exact_q.

Local Open Scope Z_scope.

(** [best_error] starts as [float('inf')], written [None] here. *)
Definition below_best (error : Z) (best_error : option Z) : bool :=
  match best_error with
  | None => true
  | Some e => error <? e
  end.

Definition search_state : Type := option Z * (Z * Z * Z * Z).

(** Innermost body of the first search (lines 80-88). *)
Definition best_step (q : Z) (st : search_state) (a b c : Z) : search_state :=
  let calculated := a * 8 + b * 15 + c * 24 in
  let d := q - calculated in
  if Z.abs d <? 20 then
    let error := Z.abs d in
    if below_best error (fst st) then (Some error, (a, b, c, d)) else st
  else st.

(** The three nested [for] loops (lines 76-88) over arbitrary ranges. *)
Definition best_search (As Bs Cs : list Z) (q : Z) : search_state :=
  fold_left
    (fun st a =>
       fold_left
         (fun st b => fold_left (fun st c => best_step q st a b c) Cs st)
         Bs st)
    As (None, (0, 0, 0, 0)).

(** [best_coeffs] after the loops, with the ranges of the source. *)
Definition best_coeffs (q : Z) : Z * Z * Z * Z :=
  snd (best_search (range (-30) 31) (range (-20) 21) (range (-10) 11) q).

(** The row printed at lines 90-94: coefficients, [q_calc] and [error]. *)
Definition best_fit_row (q : Z) : Z * Z * Z * Z * Z * Z :=
  let '(a, b, c, d) := best_coeffs q in
  let q_calc := a * 8 + b * 15 + c * 24 + d in
  let error := Z.abs (q - q_calc) in
  (a, b, c, d, q_calc, error).

(** The second search (lines 107-113) over arbitrary ranges: every
    [(a, b, c, d)] with [|d| <= 10], appended in loop order. *)
Definition representations_in (As Bs Cs : list Z) (q : Z)
  : list (Z * Z * Z * Z) :=
  flat_map
    (fun a =>
       flat_map
         (fun b =>
            flat_map
              (fun c =>
                 let d := q - (a * 8 + b * 15 + c * 24) in
                 if Z.abs d <=? 10 then [(a, b, c, d)] else [])
              Cs)
         Bs)
    As.

(** [representations] with the ranges of the source. *)
Definition representations (q : Z) : list (Z * Z * Z * Z) :=
  representations_in (range (-10) 11) (range (-10) 11) (range (-10) 11) q.

(** [all_coeffs] (lines 104-115). *)
Definition all_coeffs : list (list (Z * Z * Z * Z)) :=
  map (fun nq : string * Z => representations (snd nq)) q_values.

(** The triples of a box in loop order. *)
Definition triples (As Bs Cs : list Z) : list (Z * Z * Z) :=
  flat_map (fun a => flat_map (fun b => map (fun c => (a, b, c)) Cs) Bs) As.

Definition combination (t : Z * Z * Z) : Z :=
  let '(a, b, c) := t in a * 8 + b * 15 + c * 24.

(** The residual [|q - (8a + 15b + 24c)|] of a triple. *)
Definition residual (q : Z) (t : Z * Z * Z) : Z :=
  Z.abs (q - combination t).

(** One iteration of the innermost loop, on a triple. *)
Definition step (q : Z) (st : search_state) (t : Z * Z * Z) : search_state :=
  let '(a, b, c) := t in best_step q st a b c.

(** What the search state says about the triples scanned so far: nothing
    within 20 yet, or the first triple of least residual. *)
Definition scanned (q : Z) (l : list (Z * Z * Z)) (st : search_state) : Prop :=
  match st with
  | (None, cs) =>
      cs = (0, 0, 0, 0) /\ forall t, In t l -> 20 <= residual q t
  | (Some e, (a, b, c, d)) =>
      d = q - combination (a, b, c) /\
      e = Z.abs d /\ e < 20 /\
      exists before after,
        l = (before ++ (a, b, c) :: after)%list /\
        (forall t, In t before -> e < residual q t) /\
        (forall t, In t after -> e <= residual q t)
  end.


(** A decision procedure for "some triple of the source's first box
    combines to [q]": for each [b] and [c] it solves for [a]. *)
Definition reachable (q : Z) : bool :=
  existsb
    (fun b =>
       existsb
         (fun c =>
            let r := q - b * 15 - c * 24 in
            (r mod 8 =? 0) && (-30 <=? r / 8) && (r / 8 <=? 30))
         (range (-10) 11))
    (range (-20) 21).
End QPatternAnalysis.

(** ** definitive_a5_model_fixed.py *)

Module DefinitiveA5.

Record particle : Type := {
  p_name : string;
  p_mass : R;
  p_category : string;
  p_q : Z;
  p_n : R;
  p_charge : option R;
  p_spin : R;
  p_isospin : R
}.

(** Loop body at lines 47-63, for a table with the columns [charge] and
    [spin_half] and without [isospin] and [isospin_z].  The dictionary
    display evaluates [exact_q[name]] before the spin, and
    [row_dict.get('spin_half', 0) * 0.5] has no guard against [None]. *)
Definition load_row (mr : R * row) : result particle :=
  let (mass, r) := mr in
  k <- dict_item exact_q (name r) ;;
  let n := IZR k / 4 in
  s <- as_float (spin_half r) ;;
  Ok {| p_name := name r;
        p_mass := mass;
        p_category := category r;
        p_q := k;
        p_n := n;
        p_charge := charge r;
        p_spin := s * 0.5;
        p_isospin := 0 |}.

(** [load_data] (lines 14-66); this query has no [ORDER BY]. *)
Definition load_data (db : database) : result (list particle * option R) :=
  m_e <- select_electron_mass db ;;
  particles <- mapM load_row (where_mass_positive db) ;;
  Ok (particles, m_e).

(** The entry the loop appends for a selected row of table code [k] and
    stored spin [s]. *)
Definition entry_of (k : Z) (s : R) (mr : R * row) : particle :=
  let (mass, r) := mr in
  {| p_name := name r;
     p_mass := mass;
     p_category := category r;
     p_q := k;
     p_n := IZR k / 4;
     p_charge := charge r;
     p_spin := s * 0.5;
     p_isospin := 0 |}.

(** The dictionary [coeffs] of [find_integer_coefficients] (lines 75-91). *)
Definition coeffs : list (string * (Z * Z * Z)) :=
  [ ("electron_neutrino", (-28, -16, 10)%Z);
    ("muon_neutrino", (-30, -12, 10)%Z);
    ("tau_neutrino", (-30, -6, 7)%Z);
    ("electron", (-30, 0, 10)%Z);
    ("up_quark", (-30, 4, 8)%Z);
    ("down_quark", (-30, 6, 7)%Z);
    ("strange_quark", (-29, 4, 9)%Z);
    ("muon", (-29, 4, 9)%Z);
    ("charm_quark", (-29, 7, 8)%Z);
    ("tau", (-29, 4, 10)%Z);
    ("bottom_quark", (-30, 5, 10)%Z);
    ("top_quark", (-28, 6, 10)%Z);
    ("W_boson", (-28, 12, 6)%Z);
    ("Z_boson", (-28, 12, 6)%Z);
    ("higgs_boson", (-28, 9, 8)%Z) ].

Record candidate : Type := {
  c_a : Z;
  c_b : Z;
  c_c : Z;
  c_q : Z;
  c_n : R;
  c_mass : R
}.

(** [any((a,b,c) == coeffs[name] for name in coeffs)] (line 290). *)
Definition known_triple (cs : list (string * (Z * Z * Z))) (a b c : Z) : bool :=
  existsb
    (fun e : string * (Z * Z * Z) =>
       let '(a', b', c') := snd e in
       ((a =? a') && (b =? b') && (c =? c'))%Z)
    cs.

(** [-300 < q < 300 and 1e-10 < mass < 1e10] (line 291). *)
Definition in_window (q : Z) (mass : R) : bool :=
  ((-300 <? q) && (q <? 300))%Z
  && (if Rlt_dec 1e-10 mass then
        if Rlt_dec mass 1e10 then true else false
      else false).

(** Body of the innermost loop (lines 285-292): zero or one appended tuple. *)
Definition candidate_of (cs : list (string * (Z * Z * Z))) (m_e : R)
  (a b c : Z) : list candidate :=
  let q := (8 * a + 15 * b + 24 * c)%Z in
  let n := IZR q / 4 in
  let mass := m_e * Rpower phi n in
  if negb (known_triple cs a b c) then
    if in_window q mass then
      [ {| c_a := a; c_b := b; c_c := c; c_q := q; c_n := n; c_mass := mass |} ]
    else []
  else [].

(** [new_predictions] after the loops and the sort (lines 281-295). *)
Definition new_predictions (cs : list (string * (Z * Z * Z))) (m_e : R)
  : list candidate :=
  sort_by c_mass
    (flat_map
       (fun a =>
          flat_map
            (fun b => flat_map (fun c => candidate_of cs m_e a b c) (range 5 15))
            (range (-20) 20))
       (range (-35) (-25))).

(** The rows printed by [predict_new_particles] (lines 297-298). *)
Definition predict_new_particles (cs : list (string * (Z * Z * Z))) (m_e : R)
  : list candidate :=
  firstn 10 (new_predictions cs m_e).

End DefinitiveA5.

(** ** n_value_analysis.py *)

Module NValueAnalysis.

(** The dictionary [masses] (lines 11-24). *)
Definition masses : list (string * R) :=
  [ ("e", 0.0005109989461);
    ("μ", 0.1056583745);
    ("τ", 1.77686);
    ("u", 0.00216);
    ("d", 0.00467);
    ("s", 0.093);
    ("c", 1.27);
    ("b", 4.18);
    ("t", 172.76);
    ("W", 80.377);
    ("Z", 91.1876);
    ("H", 125.25) ].

Record n_entry : Type := {
  e_name : string;
  e_n : R;
  e_n_rounded : R;
  e_mass_pred : R;
  e_error : R
}.

(** Body of the loop at lines 36-41 for one item of [masses].  [np.log]
    never raises; on the positive arguments of this table it is [ln]. *)
Definition n_value (m_e : R) (item : string * R) : result n_entry :=
  let (nm, mass) := item in
  ratio <- py_div mass m_e ;;
  let n := ln ratio / ln phi in
  let n_rounded := quantize_quarter n in
  let mass_pred := m_e * Rpower phi n_rounded in
  error1 <- py_div (Rabs (mass_pred - mass)) mass ;;
  Ok {| e_name := nm; e_n := n; e_n_rounded := n_rounded;
        e_mass_pred := mass_pred; e_error := error1 * 100 |}.

(** The loop at lines 33-41 over any table: the item named ['e'] is
    skipped, [masses['e']] is looked up in every other iteration. *)
Definition n_values_of (table : list (string * R)) : result (list n_entry) :=
  mapM (fun item : string * R =>
          m_e <- dict_item table "e" ;;
          n_value m_e item)
       (filter (fun item : string * R => negb (String.eqb (fst item) "e")) table).

Definition n_values : result (list n_entry) := n_values_of masses.

(** [sorted(n_values.items(), key=lambda x: x[1])] (line 44). *)
Definition sorted_n (es : list n_entry) : list (string * R) :=
  sort_by snd (map (fun e => (e_name e, e_n_rounded e)) es).

(** Differences of neighbours (line 62). *)
Fixpoint successive_diffs (l : list R) : list R :=
  match l with
  | x :: (y :: _) as t => (y - x) :: successive_diffs t
  | _ => []
  end.

Definition n_diffs (es : list n_entry) : list R :=
  successive_diffs (map snd (sorted_n es)).

(** The list [errors] for one divisor (lines 66-67). *)
Definition divisor_errors (divisor : R) (ds : list R) : list R :=
  map (fun d => Rabs (d - IZR (py_round (d / divisor)) * divisor)) ds.

End NValueAnalysis.

(** ** The numeric core over IEEE-754 binary64

    The definitions above read Python floats as real numbers.  The ones of
    this module read them as what they are, binary64 values with the
    processor's rounding, so that overflow, underflow and rounding of the
    quotient [mass/m_e] are those of the program.  [math.sqrt] and the
    four operations are the primitive ones; [math.log] and the [pow] behind
    [**] belong to the C library and are parameters [libm_log] and
    [libm_pow] of everything that calls them; the C library is taken to
    report an error by the value it returns (an infinity or a NaN), not by
    [errno] alone. *)

Set Warnings "-inexact-float".

Module Double.

Import FloatClass PrimFloat FloatOps SpecFloat.
Local Open Scope float_scope.

(** [phi = (1 + sqrt(5)) / 2]. *)
Definition phi : float := (1 + PrimFloat.sqrt 5) / 2.

(** [x / y] on floats: a zero divisor of either sign raises. *)
Definition py_div (x y : float) : result float :=
  if is_zero y then Raise ZeroDivisionError else Ok (x / y).

(** The integer nearest to [m * 2^e], halves going to the even one. *)
Definition round_half_even (m : positive) (e : Z) : Z :=
  match e with
  | Z0 => Zpos m
  | Zpos _ => (Zpos m * 2 ^ e)%Z
  | Zneg p =>
      let d := (2 ^ Zpos p)%Z in
      let q := (Zpos m / d)%Z in
      let r := (Zpos m mod d)%Z in
      match (2 * r ?= d)%Z with
      | Lt => q
      | Gt => (q + 1)%Z
      | Eq => if Z.even q then q else (q + 1)%Z
      end
  end.

(** Built-in [round(x)] on a float: an [int], [OverflowError] on an
    infinity and [ValueError] on a NaN. *)
Definition py_round (x : float) : result Z :=
  match Prim2SF x with
  | S754_nan => Raise ValueError
  | S754_infinity _ => Raise OverflowError
  | S754_zero _ => Ok 0%Z
  | S754_finite s m e =>
      Ok (if s then (- round_half_even m e)%Z else round_half_even m e)
  end.

(** An [int] used as a float (nearest, ties to even). *)
Definition int_to_float (k : Z) : float :=
  SF2Prim (binary_normalize prec emax k 0 false).

(** [k / 4] for an [int] [k] that [round] returned: such a [k] is exactly
    a float, and the correctly rounded quotient of the two integers is the
    float quotient. *)
Definition quarter (k : Z) : float := int_to_float k / 4.

(** A normal double: finite, not zero, with a full 53-bit mantissa. *)
Definition is_normal (x : float) : bool :=
  match classify x with
  | PNormal | NNormal => true
  | _ => false
  end.

(** The check that the two scalings by 4 are exact for an integer code
    and that [round] gives the code back. *)
Definition quarter_exact (k : Z) : bool :=
  Leibniz.eqb (4 * quarter k) (int_to_float k)
  && Leibniz.eqb (quarter k * 4) (int_to_float k)
  && match py_round (4 * quarter k) with
     | Ok k' => Z.eqb k' k
     | Raise _ => false
     end.

(** A check over the [n] consecutive integers from [k] on. *)
Fixpoint all_codes (P : Z -> bool) (n : nat) (k : Z) : bool :=
  match n with
  | O => true
  | S n' => P k && all_codes P n' (k + 1)
  end.

Section Libm.

Variable libm_log : float -> float.
Variable libm_pow : float -> float -> float.

(** [math.log(x)] with one argument (CPython's [m_log] under [math_1]):
    a NaN is returned as it is, an argument that is not positive raises,
    [inf] gives [inf], and a finite argument for which the C library gives
    an infinity or a NaN raises. *)
Definition py_log (x : float) : result float :=
  if is_nan x then Ok x
  else if x <=? 0 then Raise ValueError
  else if is_infinity x then Ok x
  else
    let r := libm_log x in
    if is_nan r || is_infinity r then Raise ValueError else Ok r.

(** [phi ** y] (CPython's [float_pow] for the base [phi], finite and
    greater than 1): the exponent 0 gives 1 without a call, a NaN or an
    infinite exponent is answered directly, and an infinite result of the C
    library on a finite exponent raises [OverflowError]. *)
Definition phi_pow (y : float) : result float :=
  if is_zero y then Ok 1
  else if is_nan y then Ok y
  else if is_infinity y then Ok (if 0 <? y then y else 0)
  else
    let r := libm_pow phi y in
    if is_infinity r then Raise OverflowError else Ok r.

(** [log(mass/m_e) / log(phi)]. *)
Definition exponent (mass m_e : float) : result float :=
  ratio <- py_div mass m_e ;;
  num <- py_log ratio ;;
  den <- py_log phi ;;
  py_div num den.

(** Loop body of [analyze_quantum_numbers]
    (quantum_number_analysis.py:32-40). *)
Definition quantum_number (mass m_e : float) : result (float * Z) :=
  n <- exponent mass m_e ;;
  k <- py_round (n * 4) ;;
  let n_quantized := quarter k in
  let q := 4 * n_quantized in
  k' <- py_round q ;;
  Ok (n_quantized, k').

(** Loop body of [load_particle_data] (model_builder_clean.py:34-36). *)
Definition quantum_number_float (mass m_e : float) : result (float * float) :=
  n <- exponent mass m_e ;;
  k <- py_round (n * 4) ;;
  let n_quantized := quarter k in
  let q := n_quantized * 4 in
  Ok (n_quantized, q).

End Libm.

(** *** The [particles] table with binary64 columns

    The columns [mass_gev], [category], [generation], [spin_half] and
    [charge] can be [NULL]; [name] is declared [NOT NULL]. *)

Record row : Type := {
  name : string;
  mass_gev : option float;
  category : option string;
  generation : option Z;
  spin_half : option float;
  charge : option float
}.

Definition database := list row.

(** A Python value used as a float: [None] in arithmetic is a [TypeError]. *)
Definition as_float (v : option float) : result float :=
  match v with
  | Some x => Ok x
  | None => Raise TypeError
  end.

(** [SELECT mass_gev FROM particles WHERE name='electron'] followed by
    [cursor.fetchone()[0]]. *)
Definition select_electron_mass (db : database) : result (option float) :=
  match find (fun r => String.eqb (name r) "electron") db with
  | Some r => Ok (mass_gev r)
  | None => Raise TypeError
  end.

(** The test of [WHERE mass_gev > 0] on one row. *)
Definition positive_mass (r : row) : bool :=
  match mass_gev r with
  | Some m => 0 <? m
  | None => false
  end.

(** [WHERE mass_gev > 0]. *)
Fixpoint where_mass_positive (db : database) : list (float * row) :=
  match db with
  | [] => []
  | r :: t =>
      match mass_gev r with
      | Some m => if 0 <? m then (m, r) :: where_mass_positive t
                  else where_mass_positive t
      | None => where_mass_positive t
      end
  end.

(** Stable insertion sort on a binary64 key, for [ORDER BY mass_gev] and
    for [list.sort(key=...)]: an item stays before a later one unless the
    later one is smaller.  On keys without NaN this is the one stable
    ascending arrangement. *)
Fixpoint insert_by {A : Type} (key : A -> float) (x : A) (l : list A)
  : list A :=
  match l with
  | [] => [x]
  | y :: t => if key y <? key x then y :: insert_by key x t
              else x :: y :: t
  end.

Fixpoint sort_by {A : Type} (key : A -> float) (l : list A) : list A :=
  match l with
  | [] => []
  | x :: t => insert_by key x (sort_by key t)
  end.

(** The order that a sort on [key] establishes. *)
Definition le_key {A : Type} (key : A -> float) (x y : A) : Prop :=
  (key x <=? key y) = true.

Definition order_by_mass (rows : list (float * row)) : list (float * row) :=
  sort_by fst rows.

Module QuantumNumberAnalysis.

Record particle : Type := {
  p_name : string;
  p_mass : float;
  p_n : float;
  p_q : Z;
  p_category : option string;
  p_generation : Z
}.

Section Libm.

Variable libm_log : float -> float.

(** Loop body of [analyze_quantum_numbers] (lines 31-43). *)
Definition load_row (m_e : option float) (mr : float * row)
  : result particle :=
  let (mass, r) := mr in
  me <- as_float m_e ;;
  nq <- quantum_number libm_log mass me ;;
  Ok {| p_name := name r;
        p_mass := mass;
        p_n := fst nq;
        p_q := snd nq;
        p_category := category r;
        p_generation := match generation r with
                        | Some g => g
                        | None => 0%Z
                        end |}.

End Libm.

(** What can raise between the loading loop and [return particles]: the
    format [{p['category']:10s}] of the printed table (line 55) on a
    [NULL] category, and [divisible/len(all_q)] (line 99) on an empty
    list. *)
Definition report (particles : list particle) : result unit :=
  _ <- mapM (fun p => match p_category p with
                      | Some _ => Ok tt
                      | None => Raise TypeError
                      end) particles ;;
  match particles with
  | [] => Raise ZeroDivisionError
  | _ :: _ => Ok tt
  end.

(** [analyze_quantum_numbers] (lines 12-169). *)
Definition analyze_quantum_numbers (libm_log : float -> float)
  (db : database) : result (list particle) :=
  m_e <- select_electron_mass db ;;
  particles <- mapM (load_row libm_log m_e)
                 (order_by_mass (where_mass_positive db)) ;;
  _ <- report particles ;;
  Ok particles.

End QuantumNumberAnalysis.

Module ModelBuilderClean.

Record particle : Type := {
  p_name : string;
  p_mass : float;
  p_n : float;
  p_q : float;
  p_category : option string;
  p_spin : float
}.

(** [spin_half * 0.5 if spin_half else 0]: [None] and a zero are falsy. *)
Definition spin_of (s : option float) : float :=
  match s with
  | Some x => if is_zero x then 0 else x * 0.5
  | None => 0
  end.

Record prediction : Type := {
  rep : string;
  dim : Z;
  w : Z;
  n : float;
  q : float;
  mass : float
}.

(** The thirteen states appended at lines 246-261. *)
Definition all_states : list (string * Z * Z) :=
  [("1D", 1%Z, 0%Z)]
  ++ map (fun w => ("3D", 3%Z, w)) [-1; 0; 1]%Z
  ++ map (fun w => ("4D", 4%Z, w)) [-3; -1; 1; 3]%Z
  ++ map (fun w => ("5D", 5%Z, w)) [-2; -1; 0; 1; 2]%Z.

(** The list [known] of lines 296-302. *)
Definition known : list (string * float) :=
  [ ("electron", 0.0005109989461);
    ("muon", 0.1056583745);
    ("tau", 1.77686);
    ("top quark", 173.0);
    ("higgs", 125.1) ].


Section Libm.

Variable libm_log : float -> float.
Variable libm_pow : float -> float -> float.

(** Loop body of [load_particle_data] (lines 33-45). *)
Definition load_row (m_e : option float) (mr : float * row)
  : result particle :=
  let (mass, r) := mr in
  me <- as_float m_e ;;
  nq <- quantum_number_float libm_log mass me ;;
  Ok {| p_name := name r;
        p_mass := mass;
        p_n := fst nq;
        p_q := snd nq;
        p_category := category r;
        p_spin := spin_of (spin_half r) |}.

(** [load_particle_data] (lines 15-48). *)
Definition load_particle_data (db : database)
  : result (list particle * option float) :=
  m_e <- select_electron_mass db ;;
  particles <- mapM (load_row m_e) (order_by_mass (where_mass_positive db)) ;;
  Ok (particles, m_e).

(** The predicted exponent [alpha * dim + beta * w + gamma] of a state
    (line 266), the integers being converted to floats. *)
Definition n_pred (alpha beta gamma : float) (dim w : Z) : float :=
  alpha * int_to_float dim + beta * int_to_float w + gamma.

(** Loop body at lines 265-277, the parameters being Python floats:
    [phi ** n_pred] can raise. *)
Definition predict_state (alpha beta gamma m_e : float) (s : string * Z * Z)
  : result prediction :=
  let '(rep_name, dim, w) := s in
  let n := n_pred alpha beta gamma dim w in
  p <- phi_pow libm_pow n ;;
  let mass := m_e * p in
  let q_pred := 4 * n in
  Ok {| rep := rep_name; dim := dim; w := w;
        n := n; q := q_pred; mass := mass |}.

(** The exponents [n_actual] that the comparison loop computes for the
    five known particles (lines 304-305), before anything is returned. *)
Definition known_exponents (m_e : float) : result (list float) :=
  mapM (fun km : string * float => exponent libm_log (snd km) m_e) known.

(** [predict_new_particles] (lines 235-319), called with Python floats:
    the predictions are computed and sorted, the comparison with the known
    particles runs, and the sorted list is returned. *)
Definition predict_new_particles (alpha beta gamma m_e : float)
  : result (list prediction) :=
  predictions <- mapM (predict_state alpha beta gamma m_e) all_states ;;
  let sorted := sort_by mass predictions in
  _ <- known_exponents m_e ;;
  Ok sorted.


End Libm.

End ModelBuilderClean.

Module A5CasimirRatio.

Record particle : Type := {
  p_name : string;
  p_mass : float;
  p_n : float;
  p_q : Z;
  p_category : option string;
  p_spin : float
}.

(** [spin * 0.5 if spin else 0]. *)
Definition spin_of (s : option float) : float :=
  match s with
  | Some x => if is_zero x then 0 else x * 0.5
  | None => 0
  end.

Section Libm.

Variable libm_log : float -> float.

(** Loop body at lines 61-72.  The default of
    [exact_q_values.get(name, round(4 * n))] is an argument of the call:
    [round(4 * n)] is evaluated, and can raise, whether the name is a key
    or not. *)
Definition load_row (m_e : option float) (mr : float * row)
  : result particle :=
  let (mass, r) := mr in
  me <- as_float m_e ;;
  n <- exponent libm_log mass me ;;
  default <- py_round (4 * n) ;;
  let q := match dict_get exact_q (name r) with
           | Some k => k
           | None => default
           end in
  Ok {| p_name := name r;
        p_mass := mass;
        p_n := n;
        p_q := q;
        p_category := category r;
        p_spin := spin_of (spin_half r) |}.

(** [load_data_with_exact_q] (lines 26-75). *)
Definition load_data_with_exact_q (db : database)
  : result (list particle * option float) :=
  m_e <- select_electron_mass db ;;
  particles <- mapM (load_row m_e) (order_by_mass (where_mass_positive db)) ;;
  Ok (particles, m_e).

End Libm.

End A5CasimirRatio.

Module QPatternAnalysis.

Record particle : Type := {
  p_name : string;
  p_mass : float;
  p_category : option string;
  p_q : Z;
  p_n : float
}.

(** Loop body at lines 28-33: [exact_q[name]] raises on an unknown name. *)
Definition load_row (mr : float * row) : result particle :=
  let (mass, r) := mr in
  k <- dict_item exact_q (name r) ;;
  let n := quarter k in
  Ok {| p_name := name r;
        p_mass := mass;
        p_category := category r;
        p_q := k;
        p_n := n |}.

(** [load_data] (lines 12-36); this query has no [ORDER BY]. *)
Definition load_data (db : database)
  : result (list particle * option float) :=
  m_e <- select_electron_mass db ;;
  particles <- mapM load_row (where_mass_positive db) ;;
  Ok (particles, m_e).

End QPatternAnalysis.

Module DefinitiveA5.

Record particle : Type := {
  p_name : string;
  p_mass : float;
  p_category : option string;
  p_q : Z;
  p_n : float;
  p_charge : option float;
  p_spin : float;
  p_isospin : float
}.

(** Loop body at lines 47-63, for a table with the columns [charge] and
    [spin_half] and without [isospin] and [isospin_z]:
    [row_dict.get('spin_half', 0) * 0.5] has no guard against [None]. *)
Definition load_row (mr : float * row) : result particle :=
  let (mass, r) := mr in
  k <- dict_item exact_q (name r) ;;
  let n := quarter k in
  s <- as_float (spin_half r) ;;
  Ok {| p_name := name r;
        p_mass := mass;
        p_category := category r;
        p_q := k;
        p_n := n;
        p_charge := charge r;
        p_spin := s * 0.5;
        p_isospin := 0 |}.

(** [load_data] (lines 14-66); this query has no [ORDER BY]. *)
Definition load_data (db : database)
  : result (list particle * option float) :=
  m_e <- select_electron_mass db ;;
  particles <- mapM load_row (where_mass_positive db) ;;
  Ok (particles, m_e).

Record candidate : Type := {
  c_a : Z;
  c_b : Z;
  c_c : Z;
  c_q : Z;
  c_n : float;
  c_mass : float
}.

(** [-300 < q < 300 and 1e-10 < mass < 1e10] (line 291). *)
Definition in_window (q : Z) (mass : float) : bool :=
  ((-300 <? q) && (q <? 300))%Z && ((1e-10 <? mass) && (mass <? 1e10)).

Section Libm.

Variable libm_pow : float -> float -> float.

(** Body of the innermost loop (lines 285-292): the mass is computed for
    every triple, then zero or one tuple is appended. *)
Definition candidate_of (cs : list (string * (Z * Z * Z))) (m_e : float)
  (t : Z * Z * Z) : result (list candidate) :=
  let '(a, b, c) := t in
  let q := (8 * a + 15 * b + 24 * c)%Z in
  let n := quarter q in
  p <- phi_pow libm_pow n ;;
  let mass := m_e * p in
  Ok (if negb (DefinitiveA5.known_triple cs a b c) then
        if in_window q mass then
          [ {| c_a := a; c_b := b; c_c := c;
               c_q := q; c_n := n; c_mass := mass |} ]
        else []
      else []).

(** [new_predictions] after the loops and the sort (lines 281-295);
    [min] and [max] of the coefficients (lines 268-270) raise on an empty
    dictionary. *)
Definition new_predictions (cs : list (string * (Z * Z * Z))) (m_e : float)
  : result (list candidate) :=
  match cs with
  | [] => Raise ValueError
  | _ =>
      found <- mapM (candidate_of cs m_e)
                 (QPatternAnalysis.triples
                    (range (-35) (-25)) (range (-20) 20) (range 5 15)) ;;
      Ok (sort_by c_mass (List.concat found))
  end.

(** The rows printed by [predict_new_particles] (lines 297-298). *)
Definition predict_new_particles (cs : list (string * (Z * Z * Z)))
  (m_e : float) : result (list candidate) :=
  found <- new_predictions cs m_e ;;
  Ok (firstn 10 found).

End Libm.

End DefinitiveA5.

(** *** Stand-ins for the C library

    The values that [math.log] and [pow] return on the sample inputs below
    with the GNU C library, and NaN elsewhere; the definitions of this
    module can be run on them. *)

Definition log_table : list (float * float) :=
  [ (1, 0);
    (phi, 0.48121182505960347);
    (206.76828260879265, 5.331598758573633);
    (3477.2283065575584, 8.153990791789962);
    (338552.55733960896, 12.73243462468709);
    (244814.59493170565, 12.408256447662176);
    (42058.28315370766, 10.646811629443727);
    (1.3508815652969026, 0.30075739066225227);
    (1.3508815652969024, 0.3007573906622521);
    (1e308, 709.1962086421661) ].


Fixpoint table_lookup (t : list (float * float)) (x : float) : float :=
  match t with
  | [] => nan
  | (a, v) :: t' => if Leibniz.eqb x a then v else table_lookup t' x
  end.

Definition libm_log_sample (x : float) : float := table_lookup log_table x.


(** Sample rows, with the masses of populate_full_sm.py. *)
Definition electron_row : row :=
  {| name := "electron"; mass_gev := Some 0.0005109989461;
     category := Some "lepton"; generation := Some 1%Z;
     spin_half := Some 1; charge := Some (-1) |}.

Definition muon_row : row :=
  {| name := "muon"; mass_gev := Some 0.1056583745;
     category := Some "lepton"; generation := Some 2%Z;
     spin_half := Some 1; charge := Some (-1) |}.

Definition photon_row : row :=
  {| name := "photon"; mass_gev := Some 0;
     category := Some "gauge_boson"; generation := Some 0%Z;
     spin_half := Some 2; charge := Some 0 |}.

Definition Higgs_row : row :=
  {| name := "Higgs"; mass_gev := Some 125.25;
     category := Some "scalar"; generation := Some 0%Z;
     spin_half := Some 0; charge := Some 0 |}.

(** A muon row whose stored mass is far too large. *)
Definition heavy_muon_row : row :=
  {| name := "muon"; mass_gev := Some 1e308;
     category := Some "lepton"; generation := Some 2%Z;
     spin_half := Some 1; charge := Some (-1) |}.

End Double.

(** * Theorems *)

(** ** Facts about rounding *)

Lemma Int_part_IZR (k : Z) : Int_part (IZR k) = k.
Proof.
  symmetry. apply Int_part_spec. lra.
Qed.

Lemma Int_part_shift (x : R) (k : Z) :
  IZR k <= x < IZR k + 1 -> Int_part x = k.
Proof.
  intros H. symmetry. apply Int_part_spec. lra.
Qed.

Lemma py_round_IZR (k : Z) : py_round (IZR k) = k.
Proof.
  unfold py_round. rewrite Int_part_IZR.
  destruct (Rlt_dec (IZR k - IZR k) (1 / 2)) as [_ | H]; [reflexivity | lra].
Qed.

(** Anything strictly closer than one half to an integer rounds to it. *)
Lemma py_round_near (x : R) (k : Z) :
  IZR k - 1 / 2 < x < IZR k + 1 / 2 -> py_round x = k.
Proof.
  intros [Hlo Hhi]. unfold py_round.
  destruct (Rle_lt_dec (IZR k) x) as [Hge | Hlt].
  - rewrite (Int_part_shift x k) by lra.
    destruct (Rlt_dec (x - IZR k) (1 / 2)); [reflexivity | lra].
  - assert (Hf : Int_part x = (k - 1)%Z).
    { apply Int_part_shift. rewrite minus_IZR. lra. }
    rewrite Hf, minus_IZR.
    destruct (Rlt_dec (x - (IZR k - 1)) (1 / 2)); [lra |].
    destruct (Rlt_dec (1 / 2) (x - (IZR k - 1))); [f_equal; lia | lra].
Qed.

(** A half goes to the even neighbour, as [round(0.5) = 0],
    [round(1.5) = 2] and [round(-0.5) = 0] do in Python. *)
Lemma py_round_half (k : Z) :
  py_round (IZR k + 1 / 2) = if Z.even k then k else (k + 1)%Z.
Proof.
  unfold py_round. rewrite (Int_part_shift (IZR k + 1 / 2) k) by lra.
  destruct (Rlt_dec (IZR k + 1 / 2 - IZR k) (1 / 2)); [lra |].
  destruct (Rlt_dec (1 / 2) (IZR k + 1 / 2 - IZR k)); [lra | reflexivity].
Qed.

Example py_round_examples :
  py_round 0.5 = 0%Z /\ py_round 1.5 = 2%Z /\ py_round (-0.5) = 0%Z /\
  py_round 2.5 = 2%Z /\ py_round 44.3181 = 44%Z.
Proof.
  assert (H : forall x k, x = IZR k + 1 / 2 ->
                          py_round x = if Z.even k then k else (k + 1)%Z)
    by (intros x k ->; apply py_round_half).
  split; [apply (H _ 0%Z); lra |].
  split; [apply (H _ 1%Z); lra |].
  split; [apply (H _ (-1)%Z); lra |].
  split; [apply (H _ 2%Z); lra |].
  apply py_round_near. lra.
Qed.

Lemma phi_gt_1 : 1 < phi.
Proof.
  unfold phi.
  assert (H : 1 < sqrt 5).
  { rewrite <- sqrt_1 at 1. apply sqrt_lt_1; lra. }
  lra.
Qed.

Lemma ln_phi_pos : 0 < ln phi.
Proof.
  rewrite <- ln_1. apply ln_increasing; [lra | apply phi_gt_1].
Qed.

Lemma py_log_phi : py_log phi = Ok (ln phi).
Proof.
  unfold py_log. pose proof phi_gt_1.
  destruct (Rlt_dec 0 phi); [reflexivity | lra].
Qed.

(** On positive inputs the exponent is defined and is the base-phi
    logarithm of the ratio. *)
Lemma exponent_pos (mass m_e : R) :
  0 < mass -> 0 < m_e -> exponent mass m_e = Ok (ln (mass / m_e) / ln phi).
Proof.
  intros Hm He. unfold exponent, py_div at 1.
  destruct (Req_EM_T m_e 0) as [E | _]; [lra |]. cbn.
  assert (Hr : 0 < mass / m_e) by (apply Rdiv_lt_0_compat; assumption).
  unfold py_log at 1. destruct (Rlt_dec 0 (mass / m_e)); [| contradiction]. cbn.
  rewrite py_log_phi. cbn. unfold py_div.
  pose proof ln_phi_pos.
  destruct (Req_EM_T (ln phi) 0); [lra | reflexivity].
Qed.

Lemma quantize_quarter_times_4 (n : R) :
  4 * quantize_quarter n = IZR (py_round (n * 4)).
Proof.
  unfold quantize_quarter. field.
Qed.

Lemma quantum_number_pos (mass m_e : R) :
  0 < mass -> 0 < m_e ->
  quantum_number mass m_e =
  Ok (IZR (py_round (4 * (ln (mass / m_e) / ln phi))) / 4,
      py_round (4 * (ln (mass / m_e) / ln phi))).
Proof.
  intros Hm He. unfold quantum_number.
  rewrite (exponent_pos mass m_e Hm He). cbn.
  rewrite quantize_quarter_times_4, py_round_IZR.
  unfold quantize_quarter.
  rewrite (Rmult_comm _ 4). reflexivity.
Qed.

(** ** Integrality of the code *)

(** C10: whatever the raw exponent, four times the quantized exponent is
    exactly the integer [round(4 * n)], in both loaders that compute it. *)
Theorem integer_code_exact (n : R) :
  4 * quantize_quarter n = IZR (py_round (n * 4)) /\
  quantize_quarter n * 4 = IZR (py_round (n * 4)) /\
  py_round (4 * quantize_quarter n) = py_round (n * 4) /\
  (forall mass m_e,
      quantum_number mass m_e =
      (x <- exponent mass m_e ;;
       Ok (IZR (py_round (x * 4)) / 4, py_round (x * 4)))) /\
  (forall mass m_e,
      quantum_number_float mass m_e =
      (x <- exponent mass m_e ;;
       Ok (IZR (py_round (x * 4)) / 4, IZR (py_round (x * 4))))).
Proof.
  assert (H4 : forall x, 4 * quantize_quarter x = IZR (py_round (x * 4)))
    by apply quantize_quarter_times_4.
  repeat split.
  - apply H4.
  - rewrite Rmult_comm. apply H4.
  - rewrite H4. apply py_round_IZR.
  - intros mass m_e. unfold quantum_number.
    destruct (exponent mass m_e) as [x | e]; cbn; [| reflexivity].
    rewrite H4, py_round_IZR. reflexivity.
  - intros mass m_e. unfold quantum_number_float.
    destruct (exponent mass m_e) as [x | e]; cbn; [| reflexivity].
    rewrite (Rmult_comm _ 4), H4. reflexivity.
Qed.

(** ** The muon against the electron *)

Lemma sqrt5_bounds : 2.236 < sqrt 5 < 2.2361.
Proof.
  split.
  - rewrite <- (sqrt_square 2.236) by lra. apply sqrt_lt_1; lra.
  - rewrite <- (sqrt_square 2.2361) by lra. apply sqrt_lt_1; lra.
Qed.

Lemma phi_bounds : 1.618 < phi < 1.6181.
Proof.
  unfold phi. pose proof sqrt5_bounds. lra.
Qed.

(** Comparing powers of two fractions by cross-multiplying in [Z]. *)
Lemma pow_frac_lt (a b c d : Z) (m k : nat) :
  (0 < b)%Z -> (0 < d)%Z ->
  (a ^ Z.of_nat m * d ^ Z.of_nat k < c ^ Z.of_nat k * b ^ Z.of_nat m)%Z ->
  (IZR a / IZR b) ^ m < (IZR c / IZR d) ^ k.
Proof.
  intros Hb Hd Hlt.
  assert (HbR : 0 < IZR b) by (apply IZR_lt; assumption).
  assert (HdR : 0 < IZR d) by (apply IZR_lt; assumption).
  assert (Hbm : 0 < IZR b ^ m) by (apply pow_lt; assumption).
  assert (Hdk : 0 < IZR d ^ k) by (apply pow_lt; assumption).
  unfold Rdiv. rewrite !Rpow_mult_distr, !pow_inv.
  apply IZR_lt in Hlt. rewrite !mult_IZR, <- !pow_IZR in Hlt.
  apply (Rmult_lt_reg_r (IZR b ^ m * IZR d ^ k)).
  - apply Rmult_lt_0_compat; assumption.
  - replace (IZR a ^ m * / IZR b ^ m * (IZR b ^ m * IZR d ^ k))
      with (IZR a ^ m * IZR d ^ k) by (field; lra).
    replace (IZR c ^ k * / IZR d ^ k * (IZR b ^ m * IZR d ^ k))
      with (IZR c ^ k * IZR b ^ m) by (field; lra).
    exact Hlt.
Qed.

(** [m * ln x < k * ln y] from [x ^ m < y ^ k]. *)
Lemma ln_pow_lt (x y : R) (m k : nat) :
  0 < x -> 0 < y -> x ^ m < y ^ k -> INR m * ln x < INR k * ln y.
Proof.
  intros Hx Hy Hlt.
  rewrite <- !ln_pow by assumption.
  apply ln_increasing; [apply pow_lt; assumption | exact Hlt].
Qed.

Lemma muon_ratio_frac : muon_ratio = IZR 1056583745000 / IZR 5109989461.
Proof.
  unfold muon_ratio. lra.
Qed.

(** The raw muon exponent lies strictly between 11.05 and 11.10. *)
Lemma muon_exponent_bounds :
  11.05 < ln muon_ratio / ln phi < 11.10.
Proof.
  pose proof phi_bounds as [Hlo Hhi].
  pose proof ln_phi_pos as Hln.
  assert (Hr : 0 < muon_ratio) by (unfold muon_ratio; lra).
  assert (Hphi : 0 < phi) by lra.
  assert (Hlow : INR 221 * ln phi < INR 20 * ln muon_ratio).
  { apply ln_pow_lt; try assumption.
    apply Rle_lt_trans with (1.6181 ^ 221).
    - apply pow_incr. lra.
    - replace 1.6181 with (IZR 16181 / IZR 10000) by lra.
      rewrite muon_ratio_frac.
      apply pow_frac_lt; [lia | lia | vm_compute; reflexivity]. }
  assert (Hupp : INR 10 * ln muon_ratio < INR 111 * ln phi).
  { apply ln_pow_lt; try assumption.
    apply Rlt_le_trans with (1.618 ^ 111).
    - replace 1.618 with (IZR 1618 / IZR 1000) by lra.
      rewrite muon_ratio_frac.
      apply pow_frac_lt; [lia | lia | vm_compute; reflexivity].
    - apply pow_incr. lra. }
  rewrite !INR_IZR_INZ in Hlow, Hupp. cbn in Hlow, Hupp.
  split.
  - apply (Rmult_lt_reg_r (ln phi)); [assumption |].
    unfold Rdiv. rewrite Rmult_assoc, Rinv_l by lra. lra.
  - apply (Rmult_lt_reg_r (ln phi)); [assumption |].
    unfold Rdiv. rewrite Rmult_assoc, Rinv_l by lra. lra.
Qed.

Lemma muon_exponent :
  exponent 0.1056583745 0.0005109989461 = Ok (ln muon_ratio / ln phi).
Proof.
  apply exponent_pos; lra.
Qed.

Lemma muon_code : py_round (4 * (ln muon_ratio / ln phi)) = 44%Z.
Proof.
  pose proof muon_exponent_bounds. apply py_round_near. lra.
Qed.

(** C5, as amended: the raw muon exponent is about 11.08, strictly between
    11.05 and 11.10, and the integer code of the muon is 44 (quantized
    exponent 11). *)
Theorem muon_quantization :
  exists n_raw,
    exponent 0.1056583745 0.0005109989461 = Ok n_raw /\
    11.05 < n_raw < 11.10 /\
    quantum_number 0.1056583745 0.0005109989461 = Ok (11, 44%Z).
Proof.
  exists (ln muon_ratio / ln phi). split; [apply muon_exponent |].
  split; [apply muon_exponent_bounds |].
  rewrite quantum_number_pos by lra.
  fold muon_ratio. rewrite muon_code.
  f_equal. f_equal. lra.
Qed.

(** C5, as stated, fails: the raw muon exponent is farther than 0.05 from
    11.0. *)
Lemma muon_exponent_not_within_005 :
  exists n_raw,
    exponent 0.1056583745 0.0005109989461 = Ok n_raw /\
    ~ Rabs (n_raw - 11.0) <= 0.05.
Proof.
  exists (ln muon_ratio / ln phi). split; [apply muon_exponent |].
  pose proof muon_exponent_bounds as [Hlo _].
  intros Habs. rewrite Rabs_right in Habs; lra.
Qed.

(** ** The coefficient searches of q_pattern_analysis.py *)

Local Open Scope Z_scope.
Local Open Scope list_scope.

Lemma In_range (lo hi x : Z) : In x (range lo hi) <-> lo <= x < hi.
Proof.
  unfold range. rewrite in_map_iff. split.
  - intros (i & <- & Hi). apply in_seq in Hi. lia.
  - intros H. exists (Z.to_nat (x - lo)). split; [lia |].
    apply in_seq. lia.
Qed.

Lemma In_representations_in (As Bs Cs : list Z) (q a b c d : Z) :
  In (a, b, c, d) (QPatternAnalysis.representations_in As Bs Cs q) <->
  In a As /\ In b Bs /\ In c Cs /\
  d = q - (a * 8 + b * 15 + c * 24) /\ Z.abs d <= 10.
Proof.
  unfold QPatternAnalysis.representations_in.
  rewrite in_flat_map. split.
  - intros (a' & Ha & H). apply in_flat_map in H as (b' & Hb & H).
    apply in_flat_map in H as (c' & Hc & H).
    destruct (Z.leb_spec (Z.abs (q - (a' * 8 + b' * 15 + c' * 24))) 10)
      as [Hle | Hgt]; cbn in H; [| contradiction].
    destruct H as [H | []]. inversion H; subst. auto.
  - intros (Ha & Hb & Hc & Hd & Hle). exists a. split; [assumption |].
    apply in_flat_map. exists b. split; [assumption |].
    apply in_flat_map. exists c. split; [assumption |].
    rewrite <- Hd. apply Z.leb_le in Hle. rewrite Hle. left. reflexivity.
Qed.

(** C2, as amended: for every target and every box the second search
    returns exactly the tuples [(a, b, c, d)] of the box with
    [d = q - (8a + 15b + 24c)] and [|d| <= 10]; its entries with [d = 0]
    are exactly the exact decompositions, so every triple of the box is
    found for its own combination; and an unreachable target such as
    999999 gives the empty list. *)
Theorem representations_sound_complete (As Bs Cs : list Z) (q : Z) :
  (forall a b c d,
      In (a, b, c, d) (QPatternAnalysis.representations_in As Bs Cs q) <->
      In a As /\ In b Bs /\ In c Cs /\
      d = q - (8 * a + 15 * b + 24 * c) /\ Z.abs d <= 10) /\
  (forall a b c,
      In (a, b, c, 0) (QPatternAnalysis.representations_in As Bs Cs q) <->
      In a As /\ In b Bs /\ In c Cs /\ 8 * a + 15 * b + 24 * c = q) /\
  (forall a b c,
      In a As -> In b Bs -> In c Cs ->
      In (a, b, c, 0)
         (QPatternAnalysis.representations_in As Bs Cs
            (8 * a + 15 * b + 24 * c))) /\
  QPatternAnalysis.representations_in
    (range (-5) 6) (range (-5) 6) (range (-5) 6) 999999 = [] /\
  QPatternAnalysis.representations 999999 = [].
Proof.
  split; [| split; [| split; [| split]]].
  - intros a b c d. rewrite In_representations_in.
    split; intros (Ha & Hb & Hc & Hd & Hle); repeat split; trivial; lia.
  - intros a b c. rewrite In_representations_in. split.
    + intros (Ha & Hb & Hc & Hd & Hle). repeat split; trivial; lia.
    + intros (Ha & Hb & Hc & Hq). repeat split; trivial; lia.
  - intros a b c Ha Hb Hc. apply In_representations_in.
    repeat split; trivial; lia.
  - vm_compute. reflexivity.
  - vm_compute. reflexivity.
Qed.

(** C2, as stated, fails: for the target 0 the search also returns the
    triple (1, 0, 0), whose combination is 8, with offset -8. *)
Lemma representations_not_exact :
  In (1, 0, 0, -8) (QPatternAnalysis.representations 0) /\
  8 * 1 + 15 * 0 + 24 * 0 <> 0.
Proof.
  split; [| lia].
  apply In_representations_in. rewrite !In_range. lia.
Qed.

(** *** The best-fit search keeps the first minimum *)

Section BestFit.

Variable q : Z.

Local Abbreviation residual := (QPatternAnalysis.residual q).
Local Abbreviation step := (QPatternAnalysis.step q).
Local Abbreviation scanned := (QPatternAnalysis.scanned q).

Lemma scanned_step (l : list (Z * Z * Z)) (st : QPatternAnalysis.search_state)
  (t : Z * Z * Z) :
  scanned l st -> scanned (l ++ [t]) (step st t).
Proof.
  destruct t as [[a b] c]. destruct st as [[e |] [[[a0 b0] c0] d0]];
    unfold QPatternAnalysis.step, QPatternAnalysis.best_step,
      QPatternAnalysis.scanned; cbn [fst].
  - intros (Hd & He & Hlt & before & after & Hl & Hb & Ha).
    destruct (Z.ltb_spec (Z.abs (q - (a * 8 + b * 15 + c * 24))) 20)
      as [H20 | H20].
    + cbn [QPatternAnalysis.below_best].
      destruct (Z.ltb_spec (Z.abs (q - (a * 8 + b * 15 + c * 24))) e)
        as [Hbetter | Hworse].
      * repeat split; trivial.
        exists l, []. split; [reflexivity |]. split; [| intros ? []].
        intros t Ht. subst l. apply in_app_or in Ht as [Ht | [<- | Ht]].
        -- specialize (Hb t Ht). eapply Z.lt_trans; eassumption.
        -- unfold QPatternAnalysis.residual, QPatternAnalysis.combination in *.
           lia.
        -- specialize (Ha t Ht). eapply Z.lt_le_trans; eassumption.
      * repeat split; trivial.
        exists before, (after ++ [(a, b, c)]). split.
        { subst l. rewrite <- app_assoc. reflexivity. }
        split; [assumption |].
        intros t Ht. apply in_app_or in Ht as [Ht | [<- | []]].
        -- apply Ha; assumption.
        -- unfold QPatternAnalysis.residual, QPatternAnalysis.combination. lia.
    + repeat split; trivial.
      exists before, (after ++ [(a, b, c)]). split.
      { subst l. rewrite <- app_assoc. reflexivity. }
      split; [assumption |].
      intros t Ht. apply in_app_or in Ht as [Ht | [<- | []]].
      * apply Ha; assumption.
      * unfold QPatternAnalysis.residual, QPatternAnalysis.combination. lia.
  - intros (Hcs & Hnone).
    destruct (Z.ltb_spec (Z.abs (q - (a * 8 + b * 15 + c * 24))) 20)
      as [H20 | H20].
    + cbn [QPatternAnalysis.below_best]. repeat split; trivial.
      exists l, []. split; [reflexivity |]. split; [| intros ? []].
      intros t Ht. specialize (Hnone t Ht).
      eapply Z.lt_le_trans; eassumption.
    + split; [assumption |].
      intros t Ht. apply in_app_or in Ht as [Ht | [<- | []]].
      * apply Hnone; assumption.
      * unfold QPatternAnalysis.residual, QPatternAnalysis.combination. lia.
Qed.

Lemma scanned_fold (l2 l1 : list (Z * Z * Z))
  (st : QPatternAnalysis.search_state) :
  scanned l1 st -> scanned (l1 ++ l2) (fold_left step l2 st).
Proof.
  revert l1 st. induction l2 as [| t l2 IH]; intros l1 st H.
  - rewrite app_nil_r. exact H.
  - cbn [fold_left].
    replace (l1 ++ t :: l2) with ((l1 ++ [t]) ++ l2)
      by (rewrite <- app_assoc; reflexivity).
    apply IH, scanned_step, H.
Qed.

Lemma fold_left_flat_map {A B S : Type} (f : S -> B -> S) (g : A -> list B)
  (l : list A) (s : S) :
  fold_left f (flat_map g l) s = fold_left (fun s x => fold_left f (g x) s) l s.
Proof.
  revert s. induction l as [| x l IH]; intros s; cbn; [reflexivity |].
  rewrite fold_left_app. apply IH.
Qed.

Lemma fold_left_map {A B S : Type} (f : S -> B -> S) (g : A -> B)
  (l : list A) (s : S) :
  fold_left f (map g l) s = fold_left (fun s x => f s (g x)) l s.
Proof.
  revert s. induction l as [| x l IH]; intros s; cbn; [reflexivity | apply IH].
Qed.

(** The nested loops are one scan of the triples in loop order. *)
Lemma best_search_scan (As Bs Cs : list Z) :
  QPatternAnalysis.best_search As Bs Cs q
  = fold_left step (QPatternAnalysis.triples As Bs Cs) (None, (0, 0, 0, 0)).
Proof.
  unfold QPatternAnalysis.best_search, QPatternAnalysis.triples.
  rewrite fold_left_flat_map. generalize (@None Z, (0, 0, 0, 0)).
  induction As as [| a As IH]; intros s; cbn [fold_left]; [reflexivity |].
  rewrite <- IH. f_equal.
  rewrite fold_left_flat_map. clear IH. revert s.
  induction Bs as [| b Bs IH]; intros s; cbn [fold_left]; [reflexivity |].
  rewrite <- IH. f_equal. rewrite fold_left_map. reflexivity.
Qed.

Lemma best_search_scanned (As Bs Cs : list Z) :
  scanned (QPatternAnalysis.triples As Bs Cs)
          (QPatternAnalysis.best_search As Bs Cs q).
Proof.
  rewrite best_search_scan.
  apply (scanned_fold (QPatternAnalysis.triples As Bs Cs) []).
  split; [reflexivity | intros ? []].
Qed.

End BestFit.

Lemma In_triples (As Bs Cs : list Z) (a b c : Z) :
  In (a, b, c) (QPatternAnalysis.triples As Bs Cs) <->
  In a As /\ In b Bs /\ In c Cs.
Proof.
  unfold QPatternAnalysis.triples. rewrite in_flat_map. split.
  - intros (a' & Ha & H). apply in_flat_map in H as (b' & Hb & H).
    apply in_map_iff in H as (c' & H & Hc). inversion H; subst. auto.
  - intros (Ha & Hb & Hc). exists a. split; [assumption |].
    apply in_flat_map. exists b. split; [assumption |].
    apply in_map_iff. exists c. auto.
Qed.

(** C3, as amended: for every target and every box the first search
    returns one tuple [(a, b, c, d)].  Either no triple of the box has a
    residual below 20 and the tuple is the initial [(0, 0, 0, 0)]; or
    [d = q - (8a + 15b + 24c)], [|d| < 20], the triple minimizes the
    residual over the box, and it is the first such triple in loop order:
    every earlier triple has a strictly larger residual. *)
Theorem best_fit_first_minimum (As Bs Cs : list Z) (q : Z) :
  let '(a, b, c, d) := snd (QPatternAnalysis.best_search As Bs Cs q) in
  ((a, b, c, d) = (0, 0, 0, 0) /\
   forall t, In t (QPatternAnalysis.triples As Bs Cs) ->
             20 <= QPatternAnalysis.residual q t)
  \/
  (d = q - (8 * a + 15 * b + 24 * c) /\ Z.abs d < 20 /\
   (In a As /\ In b Bs /\ In c Cs) /\
   (forall t, In t (QPatternAnalysis.triples As Bs Cs) ->
              Z.abs d <= QPatternAnalysis.residual q t) /\
   exists before after,
     QPatternAnalysis.triples As Bs Cs = before ++ (a, b, c) :: after /\
     forall t, In t before -> Z.abs d < QPatternAnalysis.residual q t).
Proof.
  pose proof (best_search_scanned q As Bs Cs) as H.
  destruct (QPatternAnalysis.best_search As Bs Cs q)
    as [[e |] [[[a b] c] d]]; cbn [snd]; unfold QPatternAnalysis.scanned in H.
  - right. destruct H as (Hd & He & Hlt & before & after & Hl & Hb & Ha).
    subst e. cbn [QPatternAnalysis.combination] in Hd.
    split; [lia |]. split; [assumption |]. split.
    { apply In_triples. rewrite Hl. apply in_or_app. right. left. reflexivity. }
    split.
    + intros t Ht. rewrite Hl in Ht.
      apply in_app_or in Ht as [Ht | [<- | Ht]].
      * apply Z.lt_le_incl, Hb, Ht.
      * unfold QPatternAnalysis.residual. cbn [QPatternAnalysis.combination].
        rewrite Hd. lia.
      * apply Ha, Ht.
    + exists before, after. split; assumption.
  - left. exact H.
Qed.

(** C3, as stated, fails: for the target 0 the search returns
    (-30, 0, 10), although (0, 0, 0) is in the box with the same residual 0
    and a smaller [|a| + |b| + |c|]. *)
Lemma best_fit_not_occam :
  QPatternAnalysis.best_coeffs 0 = (-30, 0, 10, 0) /\
  In (0, 0, 0)
     (QPatternAnalysis.triples (range (-30) 31) (range (-20) 21)
                               (range (-10) 11)) /\
  QPatternAnalysis.residual 0 (0, 0, 0) = 0 /\
  Z.abs 0 + Z.abs 0 + Z.abs 0 < Z.abs (-30) + Z.abs 0 + Z.abs 10.
Proof.
  split; [vm_compute; reflexivity |].
  split; [apply In_triples; rewrite !In_range; lia |].
  split; [reflexivity | lia].
Qed.

(** The search reproduces, name by name, the coefficients that
    definitive_a5_model_fixed.py records in [coeffs], each with offset 0. *)
Lemma best_coeffs_recorded :
  map (fun nq : string * Z => QPatternAnalysis.best_coeffs (snd nq))
      QPatternAnalysis.q_values
  = map (fun e : string * (Z * Z * Z) =>
           let '(a, b, c) := snd e in (a, b, c, 0))
        DefinitiveA5.coeffs.
Proof.
  vm_compute. reflexivity.
Qed.

Local Close Scope Z_scope.

(** ** Sorting on a real key *)

Section SortBy.

Context {A : Type} (key : A -> R).

Lemma insert_by_perm (x : A) (l : list A) :
  Permutation (insert_by key x l) (x :: l).
Proof.
  induction l as [| y t IH]; cbn; [reflexivity |].
  destruct (Rle_dec (key x) (key y)); [reflexivity |].
  rewrite IH. apply perm_swap.
Qed.

Lemma sort_by_perm (l : list A) : Permutation (sort_by key l) l.
Proof.
  induction l as [| x t IH]; cbn; [reflexivity |].
  rewrite insert_by_perm. constructor. exact IH.
Qed.

Lemma insert_by_sorted (x : A) (l : list A) :
  StronglySorted (le_key key) l -> StronglySorted (le_key key) (insert_by key x l).
Proof.
  induction l as [| y t IH]; intros Hs; cbn.
  - constructor; constructor.
  - inversion Hs as [| ? ? Ht Hy]; subst.
    destruct (Rle_dec (key x) (key y)) as [Hle | Hgt].
    + constructor; [exact Hs |]. constructor; [exact Hle |].
      apply Forall_forall. intros z Hz.
      rewrite Forall_forall in Hy. specialize (Hy z Hz).
      unfold le_key in *. lra.
    + constructor; [apply IH, Ht |].
      apply Forall_forall. intros z Hz.
      apply (Permutation_in _ (insert_by_perm x t)) in Hz.
      destruct Hz as [<- | Hz].
      * unfold le_key. lra.
      * rewrite Forall_forall in Hy. apply Hy, Hz.
Qed.

Lemma sort_by_sorted (l : list A) : StronglySorted (le_key key) (sort_by key l).
Proof.
  induction l as [| x t IH]; cbn; [constructor |].
  apply insert_by_sorted, IH.
Qed.

Lemma In_firstn (k : nat) (l : list A) (x : A) :
  In x (firstn k l) -> In x l.
Proof.
  revert k. induction l as [| y t IH]; intros k Hx.
  - rewrite firstn_nil in Hx. exact Hx.
  - destruct k as [| k]; cbn in Hx; [contradiction |].
    destruct Hx as [-> | Hx]; [left; reflexivity | right; eapply IH, Hx].
Qed.

Lemma firstn_sorted (k : nat) (l : list A) :
  StronglySorted (le_key key) l -> StronglySorted (le_key key) (firstn k l).
Proof.
  intros Hs. revert k. induction Hs as [| x t Ht IH Hx]; intros k.
  - rewrite firstn_nil. constructor.
  - destruct k as [| k]; cbn; [constructor |].
    constructor; [apply IH |].
    rewrite Forall_forall in *. intros z Hz.
    eapply Hx, In_firstn, Hz.
Qed.

End SortBy.

(** ** The predicted states *)

Lemma in_window_iff (q : Z) (mass : R) :
  DefinitiveA5.in_window q mass = true <->
  (-300 < q < 300)%Z /\ 1e-10 < mass < 1e10.
Proof.
  unfold DefinitiveA5.in_window.
  rewrite !andb_true_iff, !Z.ltb_lt.
  destruct (Rlt_dec 1e-10 mass); destruct (Rlt_dec mass 1e10);
    split; intros H; try tauto; destruct H as [_ H]; discriminate.
Qed.

(** ** The loaders *)

Lemma mapM_ok {A B : Type} (f : A -> result B) (g : A -> B) (l : list A) :
  (forall x, In x l -> f x = Ok (g x)) -> mapM f l = Ok (map g l).
Proof.
  induction l as [| x t IH]; intros H; cbn; [reflexivity |].
  rewrite (H x) by (left; reflexivity). cbn.
  rewrite IH by (intros y Hy; apply H; right; exact Hy). reflexivity.
Qed.

Lemma mapM_raise {A B : Type} (f : A -> result B) (l : list A) (x : A)
  (e : PyExc) :
  In x l -> f x = Raise e -> exists e', mapM f l = Raise e'.
Proof.
  induction l as [| y t IH]; intros Hin Hx; [contradiction |].
  cbn. destruct (f y) as [b |e0] eqn:Hy; cbn; [| eauto].
  destruct Hin as [-> | Hin]; [congruence |].
  destruct (IH Hin Hx) as [e' ->]. cbn. eauto.
Qed.

Lemma In_where_mass_positive (db : database) (m : R) (r : row) :
  In (m, r) (where_mass_positive db) <->
  In r db /\ mass_gev r = Some m /\ 0 < m.
Proof.
  induction db as [| r0 t IH]; cbn; [tauto |].
  destruct (mass_gev r0) as [m0 |] eqn:Hm0.
  - destruct (Rlt_dec 0 m0) as [Hpos | Hneg]; cbn; rewrite IH; split.
    + intros [H | H]; [inversion H; subst; auto | tauto].
    + intros ([<- | Hin] & Hm & Hp); [left; congruence | right; auto].
    + tauto.
    + intros ([<- | Hin] & Hm & Hp); [| auto].
      exfalso. rewrite Hm0 in Hm. inversion Hm; subst. contradiction.
  - rewrite IH. split; [tauto |].
    intros ([<- | Hin] & Hm & Hp); [congruence | auto].
Qed.

Lemma In_order_by_mass (rows : list (R * row)) (mr : R * row) :
  In mr (order_by_mass rows) <-> In mr rows.
Proof.
  unfold order_by_mass. split; apply Permutation_in.
  - apply sort_by_perm.
  - apply Permutation_sym, sort_by_perm.
Qed.

Lemma selected_mass_positive (db : database) (mr : R * row) :
  In mr (order_by_mass (where_mass_positive db)) -> 0 < fst mr.
Proof.
  rewrite In_order_by_mass. destruct mr as [m r].
  rewrite In_where_mass_positive. cbn. tauto.
Qed.


(** *** Names of the table *)

Lemma dict_item_known (nm : string) (k : Z) :
  dict_get exact_q nm = Some k -> dict_item exact_q nm = Ok k.
Proof.
  unfold dict_item. intros ->. reflexivity.
Qed.

Lemma dict_item_unknown (nm : string) :
  dict_get exact_q nm = None -> dict_item exact_q nm = Raise KeyError.
Proof.
  unfold dict_item. intros ->. reflexivity.
Qed.

Lemma q_pattern_load_row_known (mr : R * row) (k : Z) :
  dict_get exact_q (name (snd mr)) = Some k ->
  QPatternAnalysis.load_row mr = Ok (QPatternAnalysis.entry_of k mr).
Proof.
  destruct mr as [mass r]. cbn. intros H.
  rewrite (dict_item_known _ _ H). reflexivity.
Qed.

(** * Further properties of the scripts *)

(** ** Rounding *)

Lemma py_round_error (x : R) : Rabs (x - IZR (py_round x)) <= 1 / 2.
Proof.
  unfold py_round. destruct (base_Int_part x) as [Hlo Hhi].
  destruct (Rlt_dec (x - IZR (Int_part x)) (1 / 2)) as [H1 | H1].
  - apply Rabs_le. lra.
  - assert (H2 : Rabs (x - IZR (Int_part x + 1)) <= 1 / 2)
      by (rewrite plus_IZR; apply Rabs_le; lra).
    destruct (Rlt_dec (1 / 2) (x - IZR (Int_part x))) as [H3 | H3];
      [exact H2 |].
    destruct (Z.even (Int_part x)); [apply Rabs_le; lra | exact H2].
Qed.

Lemma py_round_bounds (x : R) :
  IZR (py_round x) - 1 / 2 <= x <= IZR (py_round x) + 1 / 2.
Proof.
  pose proof (py_round_error x) as H. unfold Rabs in H.
  destruct (Rcase_abs (x - IZR (py_round x))); lra.
Qed.


(** ** Powers of [phi] *)

Lemma Rpower_exponent (x : R) :
  0 < x -> Rpower phi (ln x / ln phi) = x.
Proof.
  intros Hx. unfold Rpower.
  replace (ln x / ln phi * ln phi) with (ln x)
    by (field; pose proof ln_phi_pos; lra).
  apply exp_ln, Hx.
Qed.

Lemma Rpower_phi_pos (n : R) : 0 < Rpower phi n.
Proof.
  unfold Rpower. apply exp_pos.
Qed.

(** ** Monotonicity of the code *)



(** ** Order of the loaded entries *)

Lemma StronglySorted_map_in {A B : Type} (R1 : A -> A -> Prop)
  (R2 : B -> B -> Prop) (f : A -> B) (l : list A) :
  (forall x y, In x l -> In y l -> R1 x y -> R2 (f x) (f y)) ->
  StronglySorted R1 l -> StronglySorted R2 (map f l).
Proof.
  intros Hf Hs. induction Hs as [| x t Ht IH Hx]; cbn; [constructor |].
  constructor.
  - apply IH. intros a b Ha Hb. apply Hf; right; assumption.
  - rewrite Forall_forall in *. intros y Hy.
    apply in_map_iff in Hy as (z & <- & Hz).
    apply Hf; [left; reflexivity | right; exact Hz | apply Hx, Hz].
Qed.



(** ** The reference mass *)

Lemma find_none_not_in {A : Type} (f : A -> bool) (l : list A) :
  (forall x, In x l -> f x = false) -> find f l = None.
Proof.
  induction l as [| x t IH]; intros H; cbn; [reflexivity |].
  rewrite (H x) by (left; reflexivity).
  apply IH. intros y Hy. apply H. right. exact Hy.
Qed.

(** X3: when the table has no row named ['electron'], every loader stops
    with [TypeError] at [fetchone()[0]], whatever the other rows are, even
    the two loaders that never use the electron mass. *)
Theorem missing_electron_raises (db : database) :
  (forall r, In r db -> name r <> "electron") ->
  QuantumNumberAnalysis.analyze_quantum_numbers db = Raise TypeError /\
  ModelBuilderClean.load_particle_data db = Raise TypeError /\
  A5CasimirRatio.load_data_with_exact_q db = Raise TypeError /\
  QPatternAnalysis.load_data db = Raise TypeError /\
  DefinitiveA5.load_data db = Raise TypeError.
Proof.
  intros Hno.
  assert (Hsel : select_electron_mass db = Raise TypeError).
  { unfold select_electron_mass. rewrite find_none_not_in; [reflexivity |].
    intros r Hr. apply String.eqb_neq, Hno, Hr. }
  unfold QuantumNumberAnalysis.analyze_quantum_numbers,
    ModelBuilderClean.load_particle_data,
    A5CasimirRatio.load_data_with_exact_q,
    QPatternAnalysis.load_data, DefinitiveA5.load_data.
  rewrite Hsel. cbn. repeat split.
Qed.

Lemma missing_electron_raises_witness :
  QPatternAnalysis.load_data [muon_row] = Raise TypeError.
Proof.
  apply (missing_electron_raises [muon_row]).
  intros r [<- | []]. discriminate.
Defined.

Lemma mapM_all_raise {A B : Type} (f : A -> result B) (l : list A)
  (e : PyExc) :
  l <> [] -> (forall x, In x l -> f x = Raise e) -> mapM f l = Raise e.
Proof.
  destruct l as [| x t]; intros Hne H; [congruence |].
  cbn. rewrite (H x) by (left; reflexivity). reflexivity.
Qed.

Lemma order_by_mass_nonempty (rows : list (R * row)) :
  rows <> [] -> order_by_mass rows <> [].
Proof.
  intros Hne Hnil.
  assert (Hlen : List.length (order_by_mass rows) = List.length rows)
    by (apply Permutation_length, sort_by_perm).
  rewrite Hnil in Hlen. destruct rows; [congruence | discriminate].
Qed.

Lemma exponent_bad_reference (mass : R) (v : option R) :
  0 < mass ->
  (me <- as_float v ;; exponent mass me) =
  match v with
  | None => Raise TypeError
  | Some m =>
      if Req_EM_T m 0 then Raise ZeroDivisionError
      else if Rlt_dec m 0 then Raise ValueError
      else Ok (ln (mass / m) / ln phi)
  end.
Proof.
  intros Hm. destruct v as [m |]; cbn; [| reflexivity].
  destruct (Req_EM_T m 0) as [-> | Hne].
  - unfold exponent, py_div.
    destruct (Req_EM_T 0 0); [reflexivity | congruence].
  - destruct (Rlt_dec m 0) as [Hneg | Hpos].
    + unfold exponent, py_div.
      destruct (Req_EM_T m 0); [contradiction |]. cbn. unfold py_log.
      destruct (Rlt_dec 0 (mass / m)) as [Habs | _]; [| reflexivity].
      exfalso. assert (Hinv : / m < 0) by (apply Rinv_lt_0_compat, Hneg).
      unfold Rdiv in Habs. nra.
    + apply exponent_pos; lra.
Qed.

(** X4: the electron mass is used unchecked.  When some row has a positive
    mass, a [NULL] electron mass makes the three quantizing loaders raise
    [TypeError], a zero one [ZeroDivisionError] and a negative one
    [ValueError]; none of them is caught. *)
Theorem bad_reference_raises (db : database) (v : option R) :
  select_electron_mass db = Ok v ->
  where_mass_positive db <> [] ->
  forall err,
    match v with
    | None => err = TypeError
    | Some m => (m = 0 /\ err = ZeroDivisionError) \/
                (m < 0 /\ err = ValueError)
    end ->
    QuantumNumberAnalysis.analyze_quantum_numbers db = Raise err /\
    ModelBuilderClean.load_particle_data db = Raise err /\
    A5CasimirRatio.load_data_with_exact_q db = Raise err.
Proof.
  intros Hsel Hne err Herr.
  assert (Hexp : forall mass, 0 < mass ->
            (me <- as_float v ;; exponent mass me) = Raise err).
  { intros mass Hm. rewrite exponent_bad_reference by assumption.
    destruct v as [m |]; [| congruence].
    destruct Herr as [[-> ->] | [Hneg ->]].
    - destruct (Req_EM_T 0 0); [reflexivity | congruence].
    - destruct (Req_EM_T m 0); [lra |].
      destruct (Rlt_dec m 0); [reflexivity | contradiction]. }
  assert (Hrows : order_by_mass (where_mass_positive db) <> [])
    by (apply order_by_mass_nonempty, Hne).
  unfold QuantumNumberAnalysis.analyze_quantum_numbers,
    ModelBuilderClean.load_particle_data,
    A5CasimirRatio.load_data_with_exact_q.
  rewrite Hsel. cbn. split; [| split].
  - apply mapM_all_raise; [exact Hrows |].
    intros [mass r] Hin. apply selected_mass_positive in Hin. cbn in Hin.
    specialize (Hexp mass Hin). unfold quantum_number.
    destruct v as [m |]; cbn in *;
      [rewrite Hexp; reflexivity | subst err; reflexivity].
  - rewrite (mapM_all_raise _ _ err); [reflexivity | exact Hrows |].
    intros [mass r] Hin. apply selected_mass_positive in Hin. cbn in Hin.
    specialize (Hexp mass Hin). unfold quantum_number_float.
    destruct v as [m |]; cbn in *;
      [rewrite Hexp; reflexivity | subst err; reflexivity].
  - rewrite (mapM_all_raise _ _ err); [reflexivity | exact Hrows |].
    intros [mass r] Hin. apply selected_mass_positive in Hin. cbn in Hin.
    specialize (Hexp mass Hin). unfold A5CasimirRatio.load_row.
    destruct v as [m |]; cbn in *;
      [rewrite Hexp; reflexivity | subst err; reflexivity].
Qed.

Lemma zero_electron_rows :
  where_mass_positive [zero_electron_row; muon_row]
  = [(0.1056583745, muon_row)].
Proof.
  cbn.
  destruct (Rlt_dec 0 0.0) as [H | _]; [exfalso; lra |].
  destruct (Rlt_dec 0 0.1056583745) as [_ | H]; [reflexivity | exfalso; lra].
Qed.

Lemma bad_reference_raises_witness :
  ModelBuilderClean.load_particle_data [zero_electron_row; muon_row]
  = Raise ZeroDivisionError.
Proof.
  assert (Hne : where_mass_positive [zero_electron_row; muon_row] <> [])
    by (rewrite zero_electron_rows; discriminate).
  assert (Herr : (0.0 = 0 /\ ZeroDivisionError = ZeroDivisionError) \/
                 (0.0 < 0 /\ ZeroDivisionError = ValueError))
    by (left; split; [lra | reflexivity]).
  exact (proj1 (proj2 (bad_reference_raises [zero_electron_row; muon_row]
                         (Some 0.0) eq_refl Hne ZeroDivisionError Herr))).
Defined.

(** ** Closeness to integers and to the quarter grid *)

(** X5: every entry of the list [differences] of [check_integer_property]
    lies between 0 and 1/2, whatever the assignments and the fitted
    parameters. *)
Theorem integer_differences_bounded (assignments : list A5CasimirRatio.assignment)
  (a b : R) :
  Forall (fun d => 0 <= d <= 1 / 2)
         (A5CasimirRatio.integer_differences assignments a b).
Proof.
  unfold A5CasimirRatio.integer_differences.
  apply Forall_forall. intros d Hd.
  apply in_map_iff in Hd as (assign & <- & _).
  split; [apply Rabs_pos | apply py_round_error].
Qed.

Lemma quantize_quarter_error (n : R) : Rabs (quantize_quarter n - n) <= 1 / 8.
Proof.
  unfold quantize_quarter.
  pose proof (py_round_bounds (n * 4)) as H.
  apply Rabs_le. lra.
Qed.

Lemma phi_eighth : 1 < Rpower phi (1 / 8) < 1.0621.
Proof.
  pose proof phi_bounds as [Hlo Hhi].
  assert (Hphi : 0 < phi) by lra.
  set (t := Rpower phi (1 / 8)).
  assert (Ht : 0 < t) by apply Rpower_phi_pos.
  assert (Ht8 : t ^ 8 = phi).
  { rewrite <- Rpower_pow by exact Ht. unfold t.
    rewrite Rpower_mult.
    replace (1 / 8 * INR 8) with 1 by (rewrite INR_IZR_INZ; cbn; lra).
    apply Rpower_1, Hphi. }
  split.
  - unfold t. apply Rle_lt_trans with (Rpower phi 0).
    + right. symmetry. apply Rpower_O, Hphi.
    + apply Rpower_lt; lra.
  - destruct (Rlt_le_dec t 1.0621) as [H | H]; [exact H | exfalso].
    assert (H8 : 1.0621 ^ 8 <= t ^ 8) by (apply pow_incr; lra).
    assert (Hc : 1.6181 ^ 1 < 1.0621 ^ 8).
    { replace 1.6181 with (IZR 16181 / IZR 10000) by lra.
      replace 1.0621 with (IZR 10621 / IZR 10000) by lra.
      apply pow_frac_lt; [lia | lia | vm_compute; reflexivity]. }
    rewrite pow_1 in Hc. lra.
Qed.

Lemma Rpower_phi_small (d : R) :
  Rabs d <= 1 / 8 -> Rabs (Rpower phi d - 1) < 0.0621.
Proof.
  intros Hd. pose proof phi_gt_1 as Hphi.
  pose proof phi_eighth as [H1 H2].
  assert (Hd' : - (1 / 8) <= d <= 1 / 8).
  { unfold Rabs in Hd. destruct (Rcase_abs d); lra. }
  assert (Hup : Rpower phi d <= Rpower phi (1 / 8))
    by (apply Rle_Rpower; lra).
  assert (Hdn : Rpower phi (- (1 / 8)) <= Rpower phi d)
    by (apply Rle_Rpower; lra).
  rewrite Rpower_Ropp in Hdn.
  assert (Hinv : / 1.0621 < / Rpower phi (1 / 8))
    by (apply Rinv_lt_contravar; [nra | lra]).
  apply Rabs_def1; lra.
Qed.

(** X6: for positive masses the rounded exponent of n_value_analysis.py
    is within 1/8 of the exact one, the predicted mass is the true mass
    times [phi] to that difference, and the percentage error printed is
    therefore always below 6.21, whatever the mass. *)
Theorem n_value_error_bound (m_e mass : R) (nm : string) :
  0 < m_e -> 0 < mass ->
  exists e,
    NValueAnalysis.n_value m_e (nm, mass) = Ok e /\
    Rabs (NValueAnalysis.e_n_rounded e - NValueAnalysis.e_n e) <= 1 / 8 /\
    NValueAnalysis.e_mass_pred e
    = mass * Rpower phi (NValueAnalysis.e_n_rounded e - NValueAnalysis.e_n e) /\
    0 <= NValueAnalysis.e_error e < 6.21.
Proof.
  intros He Hm. unfold NValueAnalysis.n_value, py_div.
  destruct (Req_EM_T m_e 0) as [E | _]; [lra |].
  destruct (Req_EM_T mass 0) as [E | _]; [lra |].
  cbn. eexists. split; [reflexivity |]. cbn.
  set (n := ln (mass / m_e) / ln phi).
  pose proof (quantize_quarter_error n) as Hq.
  assert (Hmass : m_e * Rpower phi (quantize_quarter n)
                  = mass * Rpower phi (quantize_quarter n - n)).
  { unfold Rminus. rewrite Rpower_plus, Rpower_Ropp.
    unfold n. rewrite Rpower_exponent by (apply Rdiv_lt_0_compat; assumption).
    pose proof (Rpower_phi_pos (quantize_quarter (ln (mass / m_e) / ln phi))).
    field. lra. }
  split; [exact Hq |]. split; [exact Hmass |].
  rewrite Hmass.
  replace (mass * Rpower phi (quantize_quarter n - n) - mass)
    with (mass * (Rpower phi (quantize_quarter n - n) - 1)) by ring.
  rewrite Rabs_mult, (Rabs_right mass) by lra.
  replace (mass * Rabs (Rpower phi (quantize_quarter n - n) - 1) / mass)
    with (Rabs (Rpower phi (quantize_quarter n - n) - 1)) by (field; lra).
  pose proof (Rpower_phi_small _ Hq).
  pose proof (Rabs_pos (Rpower phi (quantize_quarter n - n) - 1)).
  lra.
Qed.

Lemma n_value_error_bound_witness :
  exists e,
    NValueAnalysis.n_value 0.0005109989461 ("t", 172.76) = Ok e /\
    0 <= NValueAnalysis.e_error e < 6.21.
Proof.
  assert (H1 : 0 < 0.0005109989461) by lra.
  assert (H2 : 0 < 172.76) by lra.
  destruct (n_value_error_bound 0.0005109989461 172.76 "t" H1 H2)
    as (e & He & _ & _ & Hb).
  exists e. split; assumption.
Defined.

(** ** The divisor check of n_value_analysis.py *)

Lemma mapM_Forall {A B : Type} (f : A -> result B) (P : B -> Prop)
  (l : list A) :
  (forall x, In x l -> exists y, f x = Ok y /\ P y) ->
  exists ys, mapM f l = Ok ys /\ Forall P ys.
Proof.
  induction l as [| x t IH]; intros H; cbn.
  - exists []. split; [reflexivity | constructor].
  - destruct (H x (or_introl eq_refl)) as (y & Hy & Py).
    destruct IH as (ys & Hys & Pys);
      [intros z Hz; apply H; right; exact Hz |].
    rewrite Hy, Hys. cbn. exists (y :: ys).
    split; [reflexivity | constructor; assumption].
Qed.

Lemma grid_diffs_no_error (l : list R) :
  Forall (fun v => exists k : Z, v = IZR k / 4) l ->
  Forall (fun err => err = 0)
         (NValueAnalysis.divisor_errors 0.25
            (NValueAnalysis.successive_diffs l)).
Proof.
  induction 1 as [| x t [k ->] Ht IH]; cbn; [constructor |].
  destruct t as [| y t']; cbn; [constructor |].
  inversion Ht as [| ? ? [j ->] _]; subst.
  constructor; [| exact IH].
  replace ((IZR j / 4 - IZR k / 4) / 0.25) with (IZR (j - k))
    by (rewrite minus_IZR; lra).
  rewrite py_round_IZR, minus_IZR.
  replace (IZR j / 4 - IZR k / 4 - (IZR j - IZR k) * 0.25) with 0 by lra.
  apply Rabs_R0.
Qed.

(** X7: for any table of positive masses, the check at lines 65-72 always
    reports that the divisor 0.25 works: every difference between
    neighbouring rounded exponents is a multiple of 0.25 with error
    exactly 0, because the exponents were rounded to that grid. *)
Theorem quarter_divisor_always_works (table : list (string * R)) (m_e : R) :
  dict_get table "e" = Some m_e -> 0 < m_e ->
  (forall item, In item table -> 0 < snd item) ->
  exists es,
    NValueAnalysis.n_values_of table = Ok es /\
    Forall (fun err => err = 0)
           (NValueAnalysis.divisor_errors 0.25 (NValueAnalysis.n_diffs es)).
Proof.
  intros Htab He Hpos.
  destruct (mapM_Forall
              (fun item : string * R =>
                 m <- dict_item table "e" ;; NValueAnalysis.n_value m item)
              (fun e => exists k : Z, NValueAnalysis.e_n_rounded e = IZR k / 4)
              (filter (fun item : string * R =>
                         negb (String.eqb (fst item) "e")) table))
    as (es & Hes & Hgrid).
  { intros [nm mass] Hin. apply filter_In in Hin as [Hin _].
    specialize (Hpos _ Hin). cbn in Hpos.
    unfold dict_item. rewrite Htab. cbn. unfold py_div.
    destruct (Req_EM_T m_e 0) as [E | _]; [lra |].
    destruct (Req_EM_T mass 0) as [E | _]; [lra |].
    cbn. eexists. split; [reflexivity |]. cbn.
    unfold quantize_quarter. eexists. reflexivity. }
  exists es. split; [exact Hes |].
  unfold NValueAnalysis.n_diffs. apply grid_diffs_no_error.
  apply Forall_forall. intros v Hv.
  apply in_map_iff in Hv as ([nm v'] & <- & Hin).
  unfold NValueAnalysis.sorted_n in Hin.
  apply (Permutation_in _ (sort_by_perm _ _)) in Hin.
  apply in_map_iff in Hin as (e & Heq & He_in).
  rewrite Forall_forall in Hgrid. specialize (Hgrid e He_in).
  inversion Heq; subst. exact Hgrid.
Qed.

Lemma quarter_divisor_always_works_witness :
  exists es,
    NValueAnalysis.n_values = Ok es /\
    Forall (fun err => err = 0)
           (NValueAnalysis.divisor_errors 0.25 (NValueAnalysis.n_diffs es)).
Proof.
  assert (Hpos : 0 < 0.0005109989461) by lra.
  apply (quarter_divisor_always_works NValueAnalysis.masses
           0.0005109989461 eq_refl Hpos).
  intros item Hin. cbn in Hin.
  repeat (destruct Hin as [<- | Hin]; [cbn; lra |]).
  contradiction.
Defined.

(** ** The reports of quantum_number_analysis.py *)

Local Open Scope Z_scope.

Lemma find_3a_4b_in_none (As Bs : list Z) (q : Z) :
  QuantumNumberAnalysis.find_3a_4b_in As Bs q = None <->
  forall a b, In a As -> In b Bs -> 3 * a + 4 * b <> q.
Proof.
  induction As as [| a0 t IH]; cbn [QuantumNumberAnalysis.find_3a_4b_in].
  - split; [intros _ a b [] | reflexivity].
  - destruct (find (fun b => 3 * a0 + 4 * b =? q) Bs) as [b0 |] eqn:Hf.
    + split; [discriminate |]. intros H. exfalso.
      apply find_some in Hf as [Hb Heq]. apply Z.eqb_eq in Heq.
      exact (H a0 b0 (or_introl eq_refl) Hb Heq).
    + rewrite IH. split.
      * intros H a b [<- | Ha] Hb; [| apply H; assumption].
        apply (find_none _ _ Hf) in Hb. apply Z.eqb_neq, Hb.
      * intros H a b Ha Hb. apply H; [right |]; assumption.
Qed.

Lemma find_3a_4b_in_some (As Bs : list Z) (q a b : Z) :
  QuantumNumberAnalysis.find_3a_4b_in As Bs q = Some (a, b) ->
  3 * a + 4 * b = q /\ In b Bs /\
  exists before after,
    As = before ++ a :: after /\
    forall a' b', In a' before -> In b' Bs -> 3 * a' + 4 * b' <> q.
Proof.
  induction As as [| a0 t IH]; cbn [QuantumNumberAnalysis.find_3a_4b_in];
    [discriminate |].
  destruct (find (fun b => 3 * a0 + 4 * b =? q) Bs) as [b0 |] eqn:Hf.
  - intros H. inversion H; subst.
    apply find_some in Hf as [Hb Heq]. apply Z.eqb_eq in Heq.
    split; [exact Heq |]. split; [exact Hb |].
    exists [], t. split; [reflexivity | intros ? ? []].
  - intros H. destruct (IH H) as (Heq & Hb & before & after & -> & Hfirst).
    split; [exact Heq |]. split; [exact Hb |].
    exists (a0 :: before), after. split; [reflexivity |].
    intros a' b' [<- | Ha'] Hb'; [| apply Hfirst; assumption].
    apply (find_none _ _ Hf) in Hb'. apply Z.eqb_neq, Hb'.
Qed.

(** X8: the search for [q = 3a + 4b] returns a pair only if it solves the
    equation, the pair with the first [a] in loop order that has any
    solution; it returns nothing exactly when the box holds no solution.
    With the ranges of the source a line is printed for every code from
    -64 to 64, and none for 65 or for any code beyond 70 in size, such as
    the neutrino codes. *)
Theorem find_3a_4b_correct (As Bs : list Z) (q : Z) :
  match QuantumNumberAnalysis.find_3a_4b_in As Bs q with
  | Some (a, b) =>
      3 * a + 4 * b = q /\ In b Bs /\
      exists before after,
        As = before ++ a :: after /\
        forall a' b', In a' before -> In b' Bs -> 3 * a' + 4 * b' <> q
  | None => forall a b, In a As -> In b Bs -> 3 * a + 4 * b <> q
  end /\
  (-64 <= q <= 64 -> QuantumNumberAnalysis.find_3a_4b q <> None) /\
  QuantumNumberAnalysis.find_3a_4b 65 = None /\
  (70 < Z.abs q -> QuantumNumberAnalysis.find_3a_4b q = None).
Proof.
  split; [| split; [| split]].
  - destruct (QuantumNumberAnalysis.find_3a_4b_in As Bs q) as [[a b] |] eqn:H.
    + apply find_3a_4b_in_some, H.
    + apply find_3a_4b_in_none, H.
  - intros Hq.
    assert (Hall : forallb
                     (fun x => match QuantumNumberAnalysis.find_3a_4b x with
                               | Some _ => true
                               | None => false
                               end)
                     (range (-64) 65) = true) by (vm_compute; reflexivity).
    rewrite forallb_forall in Hall.
    specialize (Hall q). rewrite In_range in Hall.
    destruct (QuantumNumberAnalysis.find_3a_4b q);
      [discriminate | specialize (Hall ltac:(lia)); discriminate].
  - vm_compute. reflexivity.
  - intros Hq. apply find_3a_4b_in_none.
    intros a b Ha Hb. apply In_range in Ha, Hb. lia.
Qed.

Lemma count_divisible_bounds (d : Z) (all_q : list Z) :
  0 <= QuantumNumberAnalysis.count_divisible d all_q
  <= Z.of_nat (List.length all_q).
Proof.
  unfold QuantumNumberAnalysis.count_divisible. split; [lia |].
  apply Nat2Z.inj_le. induction all_q as [| x t IH]; cbn; [lia |].
  destruct (x mod d =? 0); cbn; lia.
Qed.

Local Close Scope Z_scope.

(** X9: the divisibility report divides by the number of codes.  On an
    empty list it raises [ZeroDivisionError] at the first divisor (this
    happens after a table without positive masses has loaded normally);
    otherwise it yields one row per divisor with a percentage between 0
    and 100. *)
Theorem divisibility_report_behaviour :
  QuantumNumberAnalysis.divisibility_report [] = Raise ZeroDivisionError /\
  QuantumNumberAnalysis.analyze_quantum_numbers [zero_electron_row] = Ok [] /\
  forall all_q, all_q <> [] ->
    exists rows,
      QuantumNumberAnalysis.divisibility_report all_q = Ok rows /\
      map (fun r => fst (fst r)) rows = QuantumNumberAnalysis.divisors /\
      Forall (fun r => 0 <= snd r <= 100) rows.
Proof.
  split; [| split].
  - unfold QuantumNumberAnalysis.divisibility_report. cbn. unfold py_div.
    destruct (Req_EM_T 0 0); [reflexivity | congruence].
  - unfold QuantumNumberAnalysis.analyze_quantum_numbers. cbn.
    destruct (Rlt_dec 0 0.0) as [H | _]; [exfalso; lra | reflexivity].
  - intros all_q Hne.
    assert (Hlen : 0 < INR (List.length all_q)).
    { apply lt_0_INR. destruct all_q; [congruence | cbn; lia]. }
    set (row_of := fun d : Z =>
           (d, QuantumNumberAnalysis.count_divisible d all_q,
            IZR (QuantumNumberAnalysis.count_divisible d all_q)
            / INR (List.length all_q) * 100)).
    exists (map row_of QuantumNumberAnalysis.divisors).
    split; [| split].
    + apply mapM_ok. intros d _. unfold py_div.
      destruct (Req_EM_T (INR (List.length all_q)) 0); [lra | reflexivity].
    + rewrite map_map. cbn. reflexivity.
    + apply Forall_forall. intros r Hr.
      apply in_map_iff in Hr as (d & <- & _). cbn.
      pose proof (count_divisible_bounds d all_q) as [H0 H1].
      apply IZR_le in H0, H1. rewrite <- INR_IZR_INZ in H1.
      split.
      * apply Rmult_le_pos; [| lra].
        apply Rmult_le_pos; [exact H0 |].
        left. apply Rinv_0_lt_compat, Hlen.
      * apply (Rmult_le_reg_r (INR (List.length all_q) / 100));
          [lra |].
        replace (IZR (QuantumNumberAnalysis.count_divisible d all_q)
                 / INR (List.length all_q) * 100
                 * (INR (List.length all_q) / 100))
          with (IZR (QuantumNumberAnalysis.count_divisible d all_q))
          by (field; lra).
        lra.
Qed.

(** *** Gaps between the sorted codes *)

Local Open Scope Z_scope.

Lemma insert_Z_In (x y : Z) (l : list Z) :
  In y (insert_Z x l) <-> y = x \/ In y l.
Proof.
  induction l as [| z t IH]; cbn.
  - intuition.
  - destruct (x <=? z); cbn; [intuition |].
    rewrite IH. intuition.
Qed.

Lemma insert_Z_sorted (x : Z) (l : list Z) :
  StronglySorted Z.le l -> StronglySorted Z.le (insert_Z x l).
Proof.
  induction 1 as [| z t Ht IH Hz]; cbn.
  - constructor; constructor.
  - destruct (Z.leb_spec x z) as [Hle | Hgt].
    + constructor; [constructor; assumption |].
      constructor; [exact Hle |].
      rewrite Forall_forall in *. intros y Hy. specialize (Hz y Hy). lia.
    + constructor; [exact IH |].
      rewrite Forall_forall in *. intros y Hy.
      apply insert_Z_In in Hy as [-> | Hy]; [lia | apply Hz, Hy].
Qed.

Lemma sorted_Z_sorted (l : list Z) : StronglySorted Z.le (sorted_Z l).
Proof.
  induction l as [| x t IH]; cbn; [constructor | apply insert_Z_sorted, IH].
Qed.

Lemma sorted_Z_In (l : list Z) (y : Z) : In y (sorted_Z l) <-> In y l.
Proof.
  induction l as [| x t IH]; cbn; [reflexivity |].
  rewrite insert_Z_In, IH. intuition.
Qed.

(** On a sorted list every integer between two members is a member or
    belongs to a printed gap. *)
Lemma gaps_cover (l : list Z) :
  StronglySorted Z.le l ->
  forall lo hi x, In lo l -> In hi l -> lo <= x <= hi ->
    In x l \/
    exists g, In g (QuantumNumberAnalysis.gaps l) /\ In x (snd g).
Proof.
  induction 1 as [| x0 t Ht IH Hx0]; intros lo hi x Hlo Hhi Hx;
    [contradiction |].
  rewrite Forall_forall in Hx0.
  assert (Hmin : x0 <= lo) by (destruct Hlo as [<- | Hlo]; [lia | auto]).
  destruct (Z.eq_dec x x0) as [-> | Hne]; [left; left; reflexivity |].
  destruct t as [| y t'].
  - destruct Hlo as [<- | []], Hhi as [<- | []]. lia.
  - assert (Hy : x0 <= y) by (apply Hx0; left; reflexivity).
    destruct (Z_lt_ge_dec x y) as [Hlt | Hge].
    + right. exists (x0, y, range (x0 + 1) y). split.
      * cbn [QuantumNumberAnalysis.gaps].
        destruct (Z.gtb_spec (y - x0) 1) as [_ | Hsmall];
          [left; reflexivity | lia].
      * cbn. apply In_range. lia.
    + assert (Hhi' : In hi (y :: t')).
      { destruct Hhi as [<- | Hhi]; [lia | exact Hhi]. }
      destruct (IH y hi x (or_introl eq_refl) Hhi' ltac:(lia))
        as [Hin | (g & Hg & Hxg)].
      * left. right. exact Hin.
      * right. exists g. split; [| exact Hxg].
        cbn [QuantumNumberAnalysis.gaps]. apply in_or_app. right. exact Hg.
Qed.

(** On a sorted list a printed gap lies strictly between two members and
    holds no member. *)
Lemma gaps_disjoint (l : list Z) :
  StronglySorted Z.le l ->
  forall lo hi missing x,
    In (lo, hi, missing) (QuantumNumberAnalysis.gaps l) -> In x missing ->
    In lo l /\ In hi l /\ lo < x < hi /\ ~ In x l.
Proof.
  induction 1 as [| x0 t Ht IH Hx0]; intros lo hi missing x Hg Hx;
    [contradiction |].
  rewrite Forall_forall in Hx0.
  destruct t as [| y t']; [contradiction |].
  cbn [QuantumNumberAnalysis.gaps] in Hg.
  apply in_app_or in Hg as [Hg | Hg].
  - destruct (y - x0 >? 1); [| contradiction].
    destruct Hg as [Hg | []]. inversion Hg; subst.
    apply In_range in Hx.
    split; [left; reflexivity |]. split; [right; left; reflexivity |].
    split; [lia |].
    intros [-> | Hin]; [lia |].
    inversion Ht as [| ? ? _ Hy]; subst. rewrite Forall_forall in Hy.
    destruct Hin as [-> | Hin]; [lia | specialize (Hy x Hin); lia].
  - destruct (IH lo hi missing x Hg Hx) as (Hlo & Hhi & Hbetween & Hnot).
    split; [right; exact Hlo |]. split; [right; exact Hhi |].
    split; [exact Hbetween |].
    intros [-> | Hin]; [| contradiction].
    specialize (Hx0 lo Hlo). lia.
Qed.

(** X10: in [predict_new_particles] of quantum_number_analysis.py the
    printed gaps complement the sorted codes: every integer between two
    codes is either a code or listed as missing in some gap, and a number
    listed as missing lies strictly between two codes and is never itself
    a code. *)
Theorem printed_gaps_complement (particles : list QuantumNumberAnalysis.particle) :
  let codes := map QuantumNumberAnalysis.p_q particles in
  (forall lo hi x, In lo codes -> In hi codes -> lo <= x <= hi ->
     In x codes \/
     exists g, In g (QuantumNumberAnalysis.printed_gaps particles) /\
               In x (snd g)) /\
  (forall lo hi missing x,
     In (lo, hi, missing) (QuantumNumberAnalysis.printed_gaps particles) ->
     In x missing ->
     In lo codes /\ In hi codes /\ lo < x < hi /\ ~ In x codes).
Proof.
  intros codes. unfold QuantumNumberAnalysis.printed_gaps,
    QuantumNumberAnalysis.all_q_of. fold codes.
  pose proof (sorted_Z_sorted codes) as Hs. split.
  - intros lo hi x Hlo Hhi Hx.
    rewrite <- sorted_Z_In in Hlo, Hhi.
    destruct (gaps_cover _ Hs lo hi x Hlo Hhi Hx) as [Hin | Hg].
    + left. apply sorted_Z_In, Hin.
    + right. exact Hg.
  - intros lo hi missing x Hg Hx.
    destruct (gaps_disjoint _ Hs lo hi missing x Hg Hx)
      as (Hlo & Hhi & Hb & Hnot).
    rewrite sorted_Z_In in Hlo, Hhi, Hnot. auto.
Qed.

Local Close Scope Z_scope.

(** ** The assignments of model_builder_clean.py *)

Lemma py_mod_bounds (x y : R) : 0 < y -> 0 <= py_mod x y < y.
Proof.
  intros Hy. unfold py_mod.
  destruct (base_Int_part (x / y)) as [Hlo Hhi].
  assert (Hx : x = x / y * y) by (field; lra).
  split.
  - assert (H : y * IZR (Int_part (x / y)) <= x / y * y) by nra. lra.
  - assert (H : x / y * y < y * (IZR (Int_part (x / y)) + 1)) by nra. lra.
Qed.

Lemma py_int_bounds (v : R) (k : Z) :
  0 <= v < IZR k -> (0 <= py_int v < k)%Z.
Proof.
  intros [H0 Hk]. unfold py_int.
  destruct (Rle_dec 0 v) as [_ | H]; [| contradiction].
  destruct (base_Int_part v) as [Hlo Hhi]. split.
  - assert (Hgt : (-1 < Int_part v)%Z) by (apply lt_IZR; lra). lia.
  - apply lt_IZR. lra.
Qed.

Lemma py_int_mod (q : R) (k : Z) :
  (0 < k)%Z -> (0 <= py_int (py_mod q (IZR k)) < k)%Z.
Proof.
  intros Hk. apply py_int_bounds, py_mod_bounds, IZR_lt, Hk.
Qed.

Lemma assign_one_valid (p : ModelBuilderClean.particle) :
  In (ModelBuilderClean.a_dim (ModelBuilderClean.assign_one p),
      ModelBuilderClean.a_weights (ModelBuilderClean.assign_one p))
     ModelBuilderClean.possible_reps /\
  In (ModelBuilderClean.a_w (ModelBuilderClean.assign_one p))
     (ModelBuilderClean.a_weights (ModelBuilderClean.assign_one p)).
Proof.
  unfold ModelBuilderClean.assign_one.
  destruct (String.eqb (ModelBuilderClean.p_name p) "electron") eqn:He;
    [cbn; tauto |].
  destruct (contains "neutrino" (ModelBuilderClean.p_name p));
    [cbn; tauto |].
  destruct (String.eqb (ModelBuilderClean.p_category p) "quark").
  { cbn. split; [tauto |].
    pose proof (py_int_mod (ModelBuilderClean.p_q p) 3 ltac:(lia)) as H.
    assert (Hc : py_int (py_mod (ModelBuilderClean.p_q p) 3) = 0%Z \/
                 py_int (py_mod (ModelBuilderClean.p_q p) 3) = 1%Z \/
                 py_int (py_mod (ModelBuilderClean.p_q p) 3) = 2%Z) by lia.
    destruct Hc as [-> | [-> | ->]]; cbn; tauto. }
  destruct (String.eqb (ModelBuilderClean.p_category p) "lepton" && negb false).
  { cbn. split; [tauto |].
    pose proof (py_int_mod (ModelBuilderClean.p_q p) 4 ltac:(lia)) as H.
    assert (Hc : py_int (py_mod (ModelBuilderClean.p_q p) 4) = 0%Z \/
                 py_int (py_mod (ModelBuilderClean.p_q p) 4) = 1%Z \/
                 py_int (py_mod (ModelBuilderClean.p_q p) 4) = 2%Z \/
                 py_int (py_mod (ModelBuilderClean.p_q p) 4) = 3%Z) by lia.
    destruct Hc as [-> | [-> | [-> | ->]]]; cbn; tauto. }
  cbn. split; [tauto |].
  pose proof (py_int_mod (ModelBuilderClean.p_q p) 5 ltac:(lia)) as H.
  assert (Hc : py_int (py_mod (ModelBuilderClean.p_q p) 5) = 0%Z \/
               py_int (py_mod (ModelBuilderClean.p_q p) 5) = 1%Z \/
               py_int (py_mod (ModelBuilderClean.p_q p) 5) = 2%Z \/
               py_int (py_mod (ModelBuilderClean.p_q p) 5) = 3%Z \/
               py_int (py_mod (ModelBuilderClean.p_q p) 5) = 4%Z) by lia.
  destruct Hc as [-> | [-> | [-> | [-> | ->]]]]; cbn; tauto.
Qed.

(** X11: [assign_a5_representations] always assigns one of the four
    representations of [possible_reps] together with one of that
    representation's own weights, whatever the code of the particle. *)
Theorem assigned_weights_valid (particles : list ModelBuilderClean.particle) :
  Forall
    (fun a =>
       In (ModelBuilderClean.a_dim a, ModelBuilderClean.a_weights a)
          ModelBuilderClean.possible_reps /\
       In (ModelBuilderClean.a_w a) (ModelBuilderClean.a_weights a))
    (ModelBuilderClean.assign_a5_representations particles).
Proof.
  unfold ModelBuilderClean.assign_a5_representations.
  apply Forall_forall. intros a Ha.
  apply in_map_iff in Ha as (p & <- & _). apply assign_one_valid.
Qed.

Section TryAssignments.

Variables alpha beta gamma n_actual : R.

Lemma try_pair_keeps (l : list (Z * Z)) (st : ModelBuilderClean.best_state)
  (s : Z * Z) :
  ModelBuilderClean.best_so_far alpha beta gamma n_actual l st ->
  ModelBuilderClean.best_so_far alpha beta gamma n_actual (l ++ [s])
    (ModelBuilderClean.try_pair alpha beta gamma n_actual st s).
Proof.
  destruct st as [[[e |] dim] w]; destruct s as [d' w'];
    unfold ModelBuilderClean.try_pair, ModelBuilderClean.try_state,
      ModelBuilderClean.best_so_far; cbn [fst snd].
  - intros (Hin & He & Hmin).
    destruct (Rlt_dec (Rabs (alpha * IZR d' + beta * IZR w' + gamma - n_actual))
                e) as [Hlt | Hge].
    + split; [apply in_or_app; right; left; reflexivity |].
      split; [reflexivity |].
      intros s Hs. apply in_app_or in Hs as [Hs | [<- | []]].
      * specialize (Hmin s Hs). lra.
      * unfold ModelBuilderClean.state_error. cbn [fst snd]. lra.
    + split; [apply in_or_app; left; exact Hin |].
      split; [exact He |].
      intros s Hs. apply in_app_or in Hs as [Hs | [<- | []]].
      * apply Hmin, Hs.
      * unfold ModelBuilderClean.state_error. cbn [fst snd]. lra.
  - intros (-> & _ & _). cbn [app].
    split; [left; reflexivity |]. split; [reflexivity |].
    intros s [<- | []]. unfold ModelBuilderClean.state_error. cbn [fst snd]. lra.
Qed.

Lemma try_pairs_keep (l2 l1 : list (Z * Z))
  (st : ModelBuilderClean.best_state) :
  ModelBuilderClean.best_so_far alpha beta gamma n_actual l1 st ->
  ModelBuilderClean.best_so_far alpha beta gamma n_actual (l1 ++ l2)
    (fold_left (ModelBuilderClean.try_pair alpha beta gamma n_actual) l2 st).
Proof.
  revert l1 st. induction l2 as [| s l2 IH]; intros l1 st H.
  - rewrite app_nil_r. exact H.
  - cbn [fold_left].
    replace (l1 ++ s :: l2) with ((l1 ++ [s]) ++ l2)
      by (rewrite <- app_assoc; reflexivity).
    apply IH, try_pair_keeps, H.
Qed.

Lemma best_assignment_in_scan (reps : list (Z * list Z)) :
  ModelBuilderClean.best_assignment_in reps alpha beta gamma n_actual
  = fold_left (ModelBuilderClean.try_pair alpha beta gamma n_actual)
              (ModelBuilderClean.states_of reps) (None, 1%Z, 0%Z).
Proof.
  unfold ModelBuilderClean.best_assignment_in, ModelBuilderClean.states_of.
  rewrite fold_left_flat_map. generalize (@None R, 1%Z, 0%Z).
  induction reps as [| rep reps IH]; intros st; cbn [fold_left];
    [reflexivity |].
  rewrite <- IH. f_equal. rewrite fold_left_map. reflexivity.
Qed.

Lemma best_assignment_optimal (reps : list (Z * list Z)) :
  ModelBuilderClean.states_of reps <> [] ->
  exists e dim w,
    ModelBuilderClean.best_assignment_in reps alpha beta gamma n_actual
    = (Some e, dim, w) /\
    In (dim, w) (ModelBuilderClean.states_of reps) /\
    e = ModelBuilderClean.state_error alpha beta gamma n_actual (dim, w) /\
    forall s, In s (ModelBuilderClean.states_of reps) ->
              e <= ModelBuilderClean.state_error alpha beta gamma n_actual s.
Proof.
  intros Hne. rewrite best_assignment_in_scan.
  pose proof (try_pairs_keep (ModelBuilderClean.states_of reps) []
                (None, 1%Z, 0%Z)) as H.
  cbn [app] in H. specialize (H (conj eq_refl (conj eq_refl eq_refl))).
  destruct (fold_left _ _ _) as [[[e |] dim] w].
  - exists e, dim, w. split; [reflexivity | exact H].
  - destruct H as (Hnil & _). contradiction.
Qed.

End TryAssignments.

Lemma possible_states_nonempty :
  ModelBuilderClean.states_of ModelBuilderClean.possible_reps <> [].
Proof.
  discriminate.
Qed.

(** X12: for every particle and all parameters,
    [try_different_assignments] reports one of the thirteen [(dim, w)]
    pairs of [possible_reps], a finite error equal to
    [|alpha*dim + beta*w + gamma - n|] for that pair, and no other pair has
    a smaller error. *)
Theorem try_different_assignments_optimal
  (particles : list ModelBuilderClean.particle) (alpha beta gamma : R) :
  Forall
    (fun b =>
       exists e,
         ModelBuilderClean.b_error b = Some e /\
         In (ModelBuilderClean.b_dim b, ModelBuilderClean.b_w b)
            (ModelBuilderClean.states_of ModelBuilderClean.possible_reps) /\
         e = ModelBuilderClean.state_error alpha beta gamma
               (ModelBuilderClean.b_n_actual b)
               (ModelBuilderClean.b_dim b, ModelBuilderClean.b_w b) /\
         forall s,
           In s (ModelBuilderClean.states_of ModelBuilderClean.possible_reps) ->
           e <= ModelBuilderClean.state_error alpha beta gamma
                  (ModelBuilderClean.b_n_actual b) s)
    (ModelBuilderClean.try_different_assignments particles alpha beta gamma).
Proof.
  unfold ModelBuilderClean.try_different_assignments.
  apply Forall_forall. intros b Hb.
  apply in_map_iff in Hb as (p & <- & _).
  destruct (best_assignment_optimal alpha beta gamma
              (ModelBuilderClean.p_n p) ModelBuilderClean.possible_reps
              possible_states_nonempty) as (e & dim & w & -> & H).
  cbn. exists e. split; [reflexivity | exact H].
Qed.

Lemma In_states_of (reps : list (Z * list Z)) (dim w : Z) (ws : list Z) :
  In (dim, ws) reps -> In w ws -> In (dim, w) (ModelBuilderClean.states_of reps).
Proof.
  intros Hrep Hw. unfold ModelBuilderClean.states_of.
  apply in_flat_map. exists (dim, ws). split; [exact Hrep |].
  apply in_map_iff. exists w. split; [reflexivity | exact Hw].
Qed.

(** X13: with the same parameters, the search of
    [try_different_assignments] is never worse than the rule of
    [assign_a5_representations]: particle by particle, its error is at most
    the error of the pair the rule assigns. *)
Theorem search_not_worse_than_rule
  (particles : list ModelBuilderClean.particle) (alpha beta gamma : R) :
  Forall2
    (fun a b =>
       ModelBuilderClean.a_name a = ModelBuilderClean.b_name b /\
       exists e,
         ModelBuilderClean.b_error b = Some e /\
         e <= Rabs (alpha * IZR (ModelBuilderClean.a_dim a)
                    + beta * IZR (ModelBuilderClean.a_w a) + gamma
                    - ModelBuilderClean.a_n a))
    (ModelBuilderClean.assign_a5_representations particles)
    (ModelBuilderClean.try_different_assignments particles alpha beta gamma).
Proof.
  unfold ModelBuilderClean.assign_a5_representations,
    ModelBuilderClean.try_different_assignments.
  induction particles as [| p t IH]; cbn [map]; constructor; [| exact IH].
  destruct (best_assignment_optimal alpha beta gamma
              (ModelBuilderClean.p_n p) ModelBuilderClean.possible_reps
              possible_states_nonempty) as (e & dim & w & -> & _ & _ & Hmin).
  destruct (assign_one_valid p) as [Hrep Hw].
  pose proof (In_states_of _ _ _ _ Hrep Hw) as Hin.
  specialize (Hmin _ Hin).
  split.
  - unfold ModelBuilderClean.assign_one.
    destruct (String.eqb _ _); [reflexivity |].
    destruct (contains _ _); [reflexivity |].
    destruct (String.eqb _ _); [reflexivity |].
    destruct (_ && _); reflexivity.
  - exists e. split; [reflexivity |].
    assert (Hn : ModelBuilderClean.a_n (ModelBuilderClean.assign_one p)
                 = ModelBuilderClean.p_n p).
    { unfold ModelBuilderClean.assign_one.
      destruct (String.eqb _ _); [reflexivity |].
      destruct (contains _ _); [reflexivity |].
      destruct (String.eqb _ _); [reflexivity |].
      destruct (_ && _); reflexivity. }
    rewrite Hn. exact Hmin.
Qed.

(** ** The assignments of a5_casimir_ratio.py *)

(** X14: the four special cases of [casimir_normalized] agree with its
    fallback: the function is [dim ** 2 - 1] for every integer. *)
Theorem casimir_normalized_formula (dim : Z) :
  A5CasimirRatio.casimir_normalized dim = (dim ^ 2 - 1)%Z.
Proof.
  unfold A5CasimirRatio.casimir_normalized.
  destruct (Z.eqb_spec dim 1) as [-> | _]; [reflexivity |].
  destruct (Z.eqb_spec dim 3) as [-> | _]; [reflexivity |].
  destruct (Z.eqb_spec dim 4) as [-> | _]; [reflexivity |].
  destruct (Z.eqb_spec dim 5) as [-> | _]; reflexivity.
Qed.

Lemma dict_get_In {V : Type} (d : list (string * V)) (k : string) (v : V) :
  dict_get d k = Some v -> In (k, v) d.
Proof.
  induction d as [| [k' v'] t IH]; cbn; [discriminate |].
  destruct (String.eqb_spec k k') as [-> | _].
  - intros H. inversion H. left. reflexivity.
  - intros H. right. apply IH, H.
Qed.

Lemma In_assign_group (extra : string -> bool) (weights : list (string * Z))
  (C dim : Z) (particles : list A5CasimirRatio.particle)
  (a : A5CasimirRatio.assignment) :
  In a (A5CasimirRatio.assign_group extra weights C dim particles) ->
  exists p,
    In p particles /\
    A5CasimirRatio.a_name a = A5CasimirRatio.p_name p /\
    A5CasimirRatio.a_q a = A5CasimirRatio.p_q p /\
    A5CasimirRatio.a_C a = C /\ A5CasimirRatio.a_dim a = dim /\
    In (A5CasimirRatio.p_name p, A5CasimirRatio.a_w a) weights.
Proof.
  unfold A5CasimirRatio.assign_group. intros Ha.
  apply in_flat_map in Ha as (p & Hp & Ha). exists p.
  destruct (extra _); [| contradiction].
  destruct (dict_get weights (A5CasimirRatio.p_name p)) as [w |] eqn:Hw;
    [| contradiction].
  destruct Ha as [<- | []]. cbn.
  repeat split; try assumption. apply dict_get_In, Hw.
Qed.

Lemma assignment_possible (particles : list A5CasimirRatio.particle)
  (a : A5CasimirRatio.assignment) :
  In a (A5CasimirRatio.assignments_of particles) ->
  In (A5CasimirRatio.a_dim a, A5CasimirRatio.a_C a, A5CasimirRatio.a_w a)
     A5CasimirRatio.possibilities /\
  exists p,
    In p particles /\
    A5CasimirRatio.a_name a = A5CasimirRatio.p_name p /\
    A5CasimirRatio.a_q a = A5CasimirRatio.p_q p.
Proof.
  unfold A5CasimirRatio.assignments_of. intros Ha.
  repeat (apply in_app_or in Ha as [Ha | Ha]).
  - apply in_flat_map in Ha as (p & Hp & Ha).
    destruct (contains _ _); [| contradiction].
    destruct Ha as [<- | []]. cbn. split; [tauto | eauto].
  - apply in_flat_map in Ha as (p & Hp & Ha).
    destruct (String.eqb _ _); [| contradiction].
    destruct Ha as [<- | []]. cbn. split; [tauto | eauto].
  - apply In_assign_group in Ha as (p & Hp & Hn & Hq & -> & -> & Hw).
    split; [| eauto]. cbn in Hw.
    repeat (destruct Hw as [Hw | Hw];
            [inversion Hw; subst; cbn; tauto |]).
    contradiction.
  - apply In_assign_group in Ha as (p & Hp & Hn & Hq & -> & -> & Hw).
    split; [| eauto]. cbn in Hw.
    repeat (destruct Hw as [Hw | Hw];
            [inversion Hw; subst; cbn; tauto |]).
    contradiction.
  - apply In_assign_group in Ha as (p & Hp & Hn & Hq & -> & -> & Hw).
    split; [| eauto]. cbn in Hw.
    repeat (destruct Hw as [Hw | Hw];
            [inversion Hw; subst; cbn; tauto |]).
    contradiction.
Qed.

Lemma assignments_of_cons (p : A5CasimirRatio.particle)
  (t : list A5CasimirRatio.particle) :
  List.length (A5CasimirRatio.assignments_of (p :: t))
  = (List.length (A5CasimirRatio.assignments_of [p])
     + List.length (A5CasimirRatio.assignments_of t))%nat.
Proof.
  unfold A5CasimirRatio.assignments_of, A5CasimirRatio.assign_group.
  cbn [flat_map]. rewrite !length_app. cbn [List.length]. lia.
Qed.

Lemma assignments_of_one (p : A5CasimirRatio.particle) :
  (List.length (A5CasimirRatio.assignments_of [p]) <= 1)%nat.
Proof.
  unfold A5CasimirRatio.assignments_of, A5CasimirRatio.assign_group.
  cbn [flat_map]. rewrite !length_app.
  generalize (A5CasimirRatio.p_name p) as nm. intros nm.
  unfold A5CasimirRatio.quark_weights, A5CasimirRatio.lepton_weights,
    A5CasimirRatio.boson_weights, dict_get.
  repeat match goal with
         | |- context [String.eqb nm ?k] =>
             destruct (String.eqb_spec nm k) as [-> | ?];
             [vm_compute; lia |]
         end.
  destruct (contains "neutrino" nm); destruct (contains "quark" nm);
    cbn; lia.
Qed.

(** X15: every assignment that [find_best_assignments] builds for the fit
    is one of the thirteen listed [possibilities], carries the Casimir
    value of its dimension, and copies name and code from a loaded
    particle; no particle is assigned twice, and particles outside the
    five groups (such as one named ['Higgs']) are left out without
    notice. *)
Theorem assignments_well_formed (particles : list A5CasimirRatio.particle) :
  Forall
    (fun a =>
       In (A5CasimirRatio.a_dim a, A5CasimirRatio.a_C a, A5CasimirRatio.a_w a)
          A5CasimirRatio.possibilities /\
       A5CasimirRatio.a_C a
       = A5CasimirRatio.casimir_normalized (A5CasimirRatio.a_dim a) /\
       exists p,
         In p particles /\
         A5CasimirRatio.a_name a = A5CasimirRatio.p_name p /\
         A5CasimirRatio.a_q a = A5CasimirRatio.p_q p)
    (A5CasimirRatio.assignments_of particles) /\
  (List.length (A5CasimirRatio.assignments_of particles)
   <= List.length particles)%nat /\
  (forall p, A5CasimirRatio.p_name p = "Higgs" ->
             A5CasimirRatio.assignments_of [p] = []).
Proof.
  split; [| split].
  - apply Forall_forall. intros a Ha.
    destruct (assignment_possible particles a Ha) as [Hposs Hp].
    split; [exact Hposs |]. split; [| exact Hp].
    cbn in Hposs.
    repeat (destruct Hposs as [Hposs | Hposs];
            [inversion Hposs; reflexivity |]).
    contradiction.
  - induction particles as [| p t IH]; [cbn; lia |].
    rewrite assignments_of_cons. pose proof (assignments_of_one p).
    cbn [List.length]. lia.
  - intros p Hp. unfold A5CasimirRatio.assignments_of,
      A5CasimirRatio.assign_group. cbn [flat_map]. rewrite Hp.
    reflexivity.
Qed.

(** ** Order of the predictions *)

Lemma Rpower_phi_le_inv (x y : R) :
  Rpower phi x <= Rpower phi y -> x <= y.
Proof.
  intros H. destruct (Rle_lt_dec x y) as [Hle | Hgt]; [exact Hle |].
  exfalso. pose proof (Rpower_lt phi y x phi_gt_1 Hgt). lra.
Qed.

Lemma scaled_Rpower_le_inv (m_e x y : R) :
  0 < m_e -> m_e * Rpower phi x <= m_e * Rpower phi y -> x <= y.
Proof.
  intros He H. apply Rpower_phi_le_inv.
  apply (Rmult_le_reg_l m_e); assumption.
Qed.

Lemma In_candidate_of_full (cs : list (string * (Z * Z * Z))) (m_e : R)
  (a b c : Z) (x : DefinitiveA5.candidate) :
  In x (DefinitiveA5.candidate_of cs m_e a b c) ->
  DefinitiveA5.c_a x = a /\ DefinitiveA5.c_b x = b /\
  DefinitiveA5.c_c x = c /\
  DefinitiveA5.c_q x = (8 * a + 15 * b + 24 * c)%Z /\
  DefinitiveA5.c_n x = IZR (DefinitiveA5.c_q x) / 4 /\
  DefinitiveA5.c_mass x = m_e * Rpower phi (DefinitiveA5.c_n x) /\
  DefinitiveA5.known_triple cs a b c = false.
Proof.
  unfold DefinitiveA5.candidate_of.
  destruct (DefinitiveA5.known_triple cs a b c); [intros [] |].
  cbn [negb]. destruct (DefinitiveA5.in_window _ _); [| intros []].
  intros [<- | []]. cbn. repeat split.
Qed.

Lemma In_new_predictions (cs : list (string * (Z * Z * Z))) (m_e : R)
  (x : DefinitiveA5.candidate) :
  In x (DefinitiveA5.new_predictions cs m_e) ->
  exists a b c,
    In a (range (-35) (-25)) /\ In b (range (-20) 20) /\
    In c (range 5 15) /\
    In x (DefinitiveA5.candidate_of cs m_e a b c).
Proof.
  unfold DefinitiveA5.new_predictions. intros Hx.
  apply (Permutation_in _ (sort_by_perm _ _)) in Hx.
  apply in_flat_map in Hx as (a & Ha & Hx).
  apply in_flat_map in Hx as (b & Hb & Hx).
  apply in_flat_map in Hx as (c & Hc & Hx).
  exists a, b, c. auto.
Qed.

(** X16: with a positive electron mass the rows printed by
    [predict_new_particles] of definitive_a5_model_fixed.py are ascending
    in the code [q] as well as in mass; each row is a triple of the three
    coefficient ranges with [q = 8a + 15b + 24c] and [n = q/4], and none of
    them is a triple already recorded in [coeffs]. *)
Theorem new_predictions_sound (cs : list (string * (Z * Z * Z))) (m_e : R) :
  0 < m_e ->
  let rows := DefinitiveA5.predict_new_particles cs m_e in
  StronglySorted
    (fun x y => (DefinitiveA5.c_q x <= DefinitiveA5.c_q y)%Z) rows /\
  Forall
    (fun x =>
       (-35 <= DefinitiveA5.c_a x < -25)%Z /\
       (-20 <= DefinitiveA5.c_b x < 20)%Z /\
       (5 <= DefinitiveA5.c_c x < 15)%Z /\
       DefinitiveA5.c_q x
       = (8 * DefinitiveA5.c_a x + 15 * DefinitiveA5.c_b x
          + 24 * DefinitiveA5.c_c x)%Z /\
       DefinitiveA5.c_n x = IZR (DefinitiveA5.c_q x) / 4 /\
       DefinitiveA5.known_triple cs (DefinitiveA5.c_a x)
         (DefinitiveA5.c_b x) (DefinitiveA5.c_c x) = false)
    rows.
Proof.
  intros He rows. unfold rows, DefinitiveA5.predict_new_particles. split.
  - rewrite <- (map_id (firstn 10 (DefinitiveA5.new_predictions cs m_e))).
    apply (StronglySorted_map_in (le_key DefinitiveA5.c_mass));
      [| apply firstn_sorted, sort_by_sorted].
    intros x y Hx Hy Hle. unfold le_key in Hle.
    apply In_firstn in Hx, Hy.
    apply In_new_predictions in Hx as (a & b & c & _ & _ & _ & Hx).
    apply In_new_predictions in Hy as (a' & b' & c' & _ & _ & _ & Hy).
    apply In_candidate_of_full in Hx as (_ & _ & _ & _ & Hnx & Hmx & _).
    apply In_candidate_of_full in Hy as (_ & _ & _ & _ & Hny & Hmy & _).
    rewrite Hmx, Hmy in Hle.
    apply scaled_Rpower_le_inv in Hle; [| exact He].
    rewrite Hnx, Hny in Hle. apply le_IZR. lra.
  - apply Forall_forall. intros x Hx. apply In_firstn in Hx.
    apply In_new_predictions in Hx as (a & b & c & Ha & Hb & Hc & Hx).
    apply In_candidate_of_full in Hx as (-> & -> & -> & Hq & Hn & _ & Hk).
    apply In_range in Ha, Hb, Hc.
    repeat split; try lia; assumption.
Qed.

Lemma new_predictions_sound_witness :
  StronglySorted
    (fun x y => (DefinitiveA5.c_q x <= DefinitiveA5.c_q y)%Z)
    (DefinitiveA5.predict_new_particles DefinitiveA5.coeffs 0.0005109989461).
Proof.
  assert (Hpos : 0 < 0.0005109989461) by lra.
  exact (proj1 (new_predictions_sound DefinitiveA5.coeffs
                  0.0005109989461 Hpos)).
Defined.

(** ** The best fit is exact on a wide range *)

Local Open Scope Z_scope.

Lemma reachable_triple (q : Z) :
  QPatternAnalysis.reachable q = true ->
  exists t,
    In t (QPatternAnalysis.triples (range (-30) 31) (range (-20) 21)
                                   (range (-10) 11)) /\
    QPatternAnalysis.combination t = q.
Proof.
  unfold QPatternAnalysis.reachable. intros H.
  apply existsb_exists in H as (b & Hb & H).
  apply existsb_exists in H as (c & Hc & H).
  apply andb_true_iff in H as [H Hhi]. apply andb_true_iff in H as [Hmod Hlo].
  apply Z.eqb_eq in Hmod. apply Z.leb_le in Hlo, Hhi.
  exists ((q - b * 15 - c * 24) / 8, b, c). split.
  - apply In_triples. rewrite In_range. repeat split; try assumption; lia.
  - cbn [QPatternAnalysis.combination].
    pose proof (Z.div_mod (q - b * 15 - c * 24) 8 ltac:(lia)). lia.
Qed.

Lemma reachable_in_range (q : Z) :
  -682 <= q <= 682 -> QPatternAnalysis.reachable q = true.
Proof.
  intros Hq.
  assert (Hall : forallb QPatternAnalysis.reachable (range (-682) 683) = true)
    by (vm_compute; reflexivity).
  rewrite forallb_forall in Hall. apply Hall, In_range. lia.
Qed.

(** X18: the row printed by the first search always shows either
    [q_calc = q] with error 0, or the untouched coefficients
    [(0, 0, 0, 0)] with [q_calc = 0] and error [|q|]; and for every target
    from -682 to 682 the search finds an exact combination, so the offset
    [d] is 0 and the fit succeeds whatever the target. *)
Theorem best_fit_row_exact (q : Z) :
  (let '(a, b, c, d, q_calc, error) := QPatternAnalysis.best_fit_row q in
   (q_calc = q /\ error = 0 /\ d = q - (8 * a + 15 * b + 24 * c)) \/
   ((a, b, c, d) = (0, 0, 0, 0) /\ q_calc = 0 /\ error = Z.abs q)) /\
  (-682 <= q <= 682 ->
   exists a b c,
     QPatternAnalysis.best_coeffs q = (a, b, c, 0) /\
     8 * a + 15 * b + 24 * c = q /\
     QPatternAnalysis.best_fit_row q = (a, b, c, 0, q, 0)).
Proof.
  pose proof (best_search_scanned q (range (-30) 31) (range (-20) 21)
                (range (-10) 11)) as H.
  unfold QPatternAnalysis.best_fit_row, QPatternAnalysis.best_coeffs.
  destruct (QPatternAnalysis.best_search (range (-30) 31) (range (-20) 21)
              (range (-10) 11) q) as [[e |] [[[a b] c] d]];
    cbn [snd]; unfold QPatternAnalysis.scanned in H.
  - destruct H as (Hd & He & Hlt & before & after & Hl & Hb & Ha).
    cbn [QPatternAnalysis.combination] in Hd. split.
    + left. repeat split; lia.
    + intros Hq.
      destruct (reachable_triple q (reachable_in_range q Hq)) as (t & Ht & Hc).
      assert (Hres : QPatternAnalysis.residual q t = 0)
        by (unfold QPatternAnalysis.residual; rewrite Hc; lia).
      assert (Hmin : e <= QPatternAnalysis.residual q t).
      { rewrite Hl in Ht. apply in_app_or in Ht as [Ht | [<- | Ht]].
        - apply Z.lt_le_incl, Hb, Ht.
        - unfold QPatternAnalysis.residual.
          cbn [QPatternAnalysis.combination]. lia.
        - apply Ha, Ht. }
      assert (Hd0 : d = 0) by lia. rewrite Hd0 in *. clear Hd0.
      exists a, b, c. split; [reflexivity |]. split; [lia |].
      repeat f_equal; lia.
  - destruct H as (Hcs & Hnone). inversion Hcs; subst. split.
    + right. repeat split; f_equal; lia.
    + intros Hq.
      destruct (reachable_triple q (reachable_in_range q Hq)) as (t & Ht & Hc).
      specialize (Hnone t Ht). unfold QPatternAnalysis.residual in Hnone.
      rewrite Hc in Hnone. lia.
Qed.

Local Close Scope Z_scope.

(** ** A missing spin *)

Lemma mapM_first_raise {A B : Type} (f : A -> result B) (l : list A)
  (e : PyExc) :
  (forall x, In x l -> f x = Raise e \/ exists y, f x = Ok y) ->
  (exists x, In x l /\ f x = Raise e) ->
  mapM f l = Raise e.
Proof.
  induction l as [| x t IH]; intros Hall (x0 & Hin & Hx0); [contradiction |].
  cbn. destruct (Hall x (or_introl eq_refl)) as [Hr | (y & Hy)];
    [rewrite Hr; reflexivity |].
  rewrite Hy. cbn. rewrite IH; [reflexivity | |].
  - intros z Hz. apply Hall. right. exact Hz.
  - destruct Hin as [<- | Hin]; [congruence | eauto].
Qed.

(** X19: a [NULL] in the column [spin_half] is read as spin 0 by
    model_builder_clean.py and a5_casimir_ratio.py, but
    definitive_a5_model_fixed.py multiplies it unguarded: when every row
    of positive mass has a name of the table and one of them has a [NULL]
    spin, its [load_data] raises [TypeError], while [load_data] of
    q_pattern_analysis.py loads the same table. *)
Theorem null_spin_raises (db : database) (m_e : option R) :
  select_electron_mass db = Ok m_e ->
  (forall mr, In mr (where_mass_positive db) ->
              dict_get exact_q (name (snd mr)) <> None) ->
  (exists mr, In mr (where_mass_positive db) /\ spin_half (snd mr) = None) ->
  DefinitiveA5.load_data db = Raise TypeError /\
  (exists ps, QPatternAnalysis.load_data db = Ok (ps, m_e)) /\
  ModelBuilderClean.spin_of None = 0 /\
  A5CasimirRatio.spin_of None = 0.
Proof.
  intros Hsel Hknown (mr0 & Hin0 & Hnull).
  split; [| split; [| split; reflexivity]].
  - unfold DefinitiveA5.load_data. rewrite Hsel. cbn.
    rewrite (mapM_first_raise _ _ TypeError); [reflexivity | |].
    + intros [mass r] Hin. specialize (Hknown _ Hin). cbn [snd] in Hknown.
      unfold DefinitiveA5.load_row, dict_item.
      destruct (dict_get exact_q (name r)) as [k |]; [| congruence]. cbn.
      destruct (spin_half r) as [s |]; cbn; [right; eauto | left; reflexivity].
    + exists mr0. split; [exact Hin0 |].
      destruct mr0 as [mass r]. specialize (Hknown _ Hin0).
      cbn [snd] in Hknown, Hnull.
      unfold DefinitiveA5.load_row, dict_item.
      destruct (dict_get exact_q (name r)) as [k |]; [| congruence]. cbn.
      rewrite Hnull. reflexivity.
  - unfold QPatternAnalysis.load_data. rewrite Hsel. cbn.
    rewrite (mapM_ok _ (fun mr => QPatternAnalysis.entry_of
                                    (table_code (name (snd mr))) mr)).
    + cbn. eauto.
    + intros mr Hin. apply q_pattern_load_row_known.
      unfold table_code. specialize (Hknown mr Hin).
      destruct (dict_get exact_q (name (snd mr))); [reflexivity | congruence].
Qed.

Lemma electron_spinless_rows :
  where_mass_positive [electron_row; spinless_muon_row]
  = [(0.0005109989461, electron_row); (0.1056583745, spinless_muon_row)].
Proof.
  cbn.
  destruct (Rlt_dec 0 0.0005109989461) as [_ | H]; [| exfalso; lra].
  destruct (Rlt_dec 0 0.1056583745) as [_ | H]; [| exfalso; lra].
  reflexivity.
Qed.

Lemma null_spin_raises_witness :
  DefinitiveA5.load_data [electron_row; spinless_muon_row] = Raise TypeError.
Proof.
  apply (null_spin_raises [electron_row; spinless_muon_row]
           (Some 0.0005109989461) eq_refl).
  - rewrite electron_spinless_rows.
    intros mr [<- | [<- | []]]; discriminate.
  - rewrite electron_spinless_rows.
    exists (0.1056583745, spinless_muon_row).
    split; [right; left; reflexivity | reflexivity].
Defined.

(** * The program on doubles *)

Section DoubleFacts.

Import PrimFloat FloatOps SpecFloat FloatAxioms.
Local Open Scope float_scope.

(** *** Classes of binary64 values *)

Lemma SFcompare_refl (f : spec_float) :
  f <> S754_nan -> SFcompare f f = Some Eq.
Proof.
  destruct f as [s | s | | s m e]; intros H; try congruence.
  - reflexivity.
  - destruct s; reflexivity.
  - cbn. rewrite Z.compare_refl.
    change (Pos.compare_cont Eq m m) with (Pos.compare m m).
    rewrite Pos.compare_refl. destruct s; reflexivity.
Qed.

Lemma is_nan_false (x : float) :
  is_nan x = false <-> Prim2SF x <> S754_nan.
Proof.
  unfold is_nan. rewrite eqb_spec. unfold SFeqb. split.
  - intros H Hx. rewrite Hx in H. discriminate.
  - intros H. rewrite SFcompare_refl by exact H. reflexivity.
Qed.

Lemma is_zero_true (x : float) :
  is_zero x = true <-> exists s, Prim2SF x = S754_zero s.
Proof.
  unfold is_zero. rewrite eqb_spec.
  change (Prim2SF zero) with (S754_zero false).
  destruct (Prim2SF x) as [s | s | | s m e]; cbn; split;
    try (intros H; discriminate H); try (intros [s' H]; discriminate H);
    eauto; destruct s; discriminate.
Qed.

Lemma is_infinity_true (x : float) :
  is_infinity x = true <-> exists s, Prim2SF x = S754_infinity s.
Proof.
  unfold is_infinity. rewrite eqb_spec, abs_spec.
  change (Prim2SF infinity) with (S754_infinity false).
  destruct (Prim2SF x) as [s | s | | s m e]; cbn; split;
    try (intros H; discriminate H); try (intros [s' H]; discriminate H);
    eauto.
Qed.

(** A finite double that is not a zero has a sign, a mantissa and an
    exponent. *)
Lemma finite_nonzero (x : float) :
  is_finite x = true -> is_zero x = false ->
  exists s m e, Prim2SF x = S754_finite s m e.
Proof.
  unfold is_finite. intros Hf Hz.
  apply negb_true_iff, orb_false_iff in Hf as [Hn Hi].
  apply is_nan_false in Hn.
  destruct (Prim2SF x) as [s | s | | s m e] eqn:Hx.
  - assert (is_zero x = true) by (apply is_zero_true; eauto). congruence.
  - assert (is_infinity x = true) by (apply is_infinity_true; eauto).
    congruence.
  - congruence.
  - eauto.
Qed.

Lemma is_finite_not_nan_inf (x : float) :
  is_finite x = true -> is_nan x || is_infinity x = false.
Proof.
  unfold is_finite. intros H. apply negb_true_iff in H. exact H.
Qed.

(** A double above zero is not a NaN and not below or equal to zero. *)
Lemma positive_double (x : float) :
  (0 <? x) = true -> is_nan x = false /\ (x <=? 0) = false.
Proof.
  rewrite ltb_spec, leb_spec. intros H. split.
  - apply is_nan_false. intros Hx. rewrite Hx in H. discriminate.
  - revert H. change (Prim2SF 0) with (S754_zero false).
    destruct (Prim2SF x) as [s | s | | s m e]; cbn; try discriminate;
      destruct s; cbn; auto.
Qed.

Lemma zero_double (x : float) :
  is_zero x = true -> is_nan x = false /\ (x <=? 0) = true.
Proof.
  intros H. apply is_zero_true in H as [s Hx]. split.
  - apply is_nan_false. congruence.
  - rewrite leb_spec, Hx. reflexivity.
Qed.

End DoubleFacts.

Section DoubleSigns.

Import PrimFloat FloatOps SpecFloat FloatAxioms.
Local Open Scope float_scope.

Lemma shr_1_nonneg (r : shr_record) :
  (0 <= shr_m r)%Z -> (0 <= shr_m (shr_1 r))%Z.
Proof.
  destruct r as [m r s]. cbn [shr_m].
  destruct m as [| [p | p |] | p]; cbn; lia.
Qed.

Lemma iter_shr_1_nonneg (p : positive) (r : shr_record) :
  (0 <= shr_m r)%Z -> (0 <= shr_m (iter_pos shr_1 p r))%Z.
Proof.
  revert r. induction p as [p IH | p IH |]; intros r Hr; cbn [iter_pos].
  - apply IH, IH, shr_1_nonneg, Hr.
  - apply IH, IH, Hr.
  - apply shr_1_nonneg, Hr.
Qed.

Lemma shr_fexp_nonneg (m e : Z) (l : location) :
  (0 <= m)%Z -> (0 <= shr_m (fst (shr_fexp prec emax m e l)))%Z.
Proof.
  intros Hm. unfold shr_fexp, shr.
  assert (H0 : (0 <= shr_m (shr_record_of_loc m l))%Z)
    by (destruct l as [| []]; exact Hm).
  destruct (fexp prec emax (Zdigits2 m + e) - e)%Z; cbn [fst];
    [exact H0 | apply iter_shr_1_nonneg, H0 | exact H0].
Qed.

Lemma round_nearest_even_nonneg (m : Z) (l : location) :
  (0 <= m)%Z -> (0 <= round_nearest_even m l)%Z.
Proof.
  intros Hm. destruct l as [| []]; cbn; try lia.
  destruct (Z.even m); lia.
Qed.

(** Rounding a non-negative mantissa gives a zero, a finite value or an
    infinity of the given sign, never a NaN. *)
Lemma binary_round_aux_sign (s : bool) (m e : Z) (l : location) :
  (0 <= m)%Z ->
  binary_round_aux prec emax s m e l = S754_zero s \/
  binary_round_aux prec emax s m e l = S754_infinity s \/
  exists m' e', binary_round_aux prec emax s m e l = S754_finite s m' e'.
Proof.
  intros Hm. unfold binary_round_aux.
  pose proof (shr_fexp_nonneg m e l Hm) as H1.
  destruct (shr_fexp prec emax m e l) as [mrs' e'] eqn:E1. cbn [fst] in H1.
  pose proof (shr_fexp_nonneg _ e' loc_Exact
                (round_nearest_even_nonneg _ (loc_of_shr_record mrs') H1))
    as H2.
  destruct (shr_fexp prec emax _ e' loc_Exact) as [mrs'' e''] eqn:E2.
  cbn [fst] in H2.
  destruct (shr_m mrs'') as [| p | p]; [auto | | lia].
  destruct (e'' <=? emax - prec)%Z; eauto.
Qed.

Lemma SFdiv_finite_sign (s1 s2 : bool) (m1 m2 : positive) (e1 e2 : Z) :
  let q := SF64div (S754_finite s1 m1 e1) (S754_finite s2 m2 e2) in
  q = S754_zero (xorb s1 s2) \/ q = S754_infinity (xorb s1 s2) \/
  exists m e, q = S754_finite (xorb s1 s2) m e.
Proof.
  unfold SF64div, SFdiv.
  destruct (SFdiv_core_binary prec emax (Zpos m1) e1 (Zpos m2) e2)
    as [[mz ez] lz] eqn:E.
  apply binary_round_aux_sign.
  unfold SFdiv_core_binary in E.
  set (e' := Z.min _ _) in E. set (sh := (e1 - e2 - e')%Z) in E.
  set (m' := match sh with Zpos _ => Z.shiftl (Zpos m1) sh | Z0 => Zpos m1
                         | Zneg _ => 0%Z end) in E.
  assert (Hm' : (0 <= m')%Z).
  { unfold m'. destruct sh; try lia. apply Z.shiftl_nonneg. lia. }
  pose proof (Z.div_pos m' (Zpos m2) Hm' eq_refl) as Hq.
  unfold Z.div in Hq.
  destruct (Z.div_eucl m' (Zpos m2)) as [q r]. cbn [fst] in Hq.
  injection E as <- _ _. exact Hq.
Qed.

(** A positive finite double. *)
Lemma positive_finite (x : float) :
  (0 <? x) = true -> is_infinity x = false ->
  exists m e, Prim2SF x = S754_finite false m e.
Proof.
  intros Hpos Hinf. rewrite ltb_spec in Hpos.
  change (Prim2SF 0) with (S754_zero false) in Hpos.
  destruct (Prim2SF x) as [s | s | | s m e] eqn:Hx; try discriminate.
  - assert (is_infinity x = true) by (apply is_infinity_true; eauto).
    congruence.
  - destruct s; [discriminate | eauto].
Qed.

(** The quotient of two positive finite doubles is a zero (underflow),
    the infinity (overflow), or a positive finite double. *)
Lemma double_div_positive (a b : float) :
  (0 <? a) = true -> is_infinity a = false ->
  (0 <? b) = true -> is_infinity b = false ->
  is_zero (a / b) = true \/ a / b = infinity \/
  ((0 <? a / b) = true /\ is_infinity (a / b) = false).
Proof.
  intros Ha Hai Hb Hbi.
  destruct (positive_finite a Ha Hai) as (ma & ea & Hpa).
  destruct (positive_finite b Hb Hbi) as (mb & eb & Hpb).
  pose proof (SFdiv_finite_sign false false ma mb ea eb) as H.
  cbv zeta in H. rewrite <- Hpa, <- Hpb, <- div_spec in H.
  cbn [xorb] in H. destruct H as [H | [H | (m & e & H)]].
  - left. apply is_zero_true. eauto.
  - right. left. apply Prim2SF_inj. rewrite H. reflexivity.
  - right. right. split.
    + rewrite ltb_spec, H. reflexivity.
    + destruct (is_infinity (a / b)) eqn:Hi; [| reflexivity].
      apply is_infinity_true in Hi as [s Hs]. congruence.
Qed.


End DoubleSigns.

Section DoubleDivision.

Import PrimFloat FloatOps SpecFloat FloatAxioms.
Local Open Scope float_scope.

(** *** Exact quotients *)

Lemma SFdiv_core_self (m : positive) (e : Z) :
  SFdiv_core_binary prec emax (Zpos m) e (Zpos m) e
  = (9007199254740992%Z, (-53)%Z, loc_Exact).
Proof.
  unfold SFdiv_core_binary.
  replace (Zdigits2 (Zpos m) + e - (Zdigits2 (Zpos m) + e))%Z with 0%Z by lia.
  replace (e - e)%Z with 0%Z by lia.
  change (Z.min (fexp prec emax 0) 0) with (-53)%Z.
  change (0 - -53)%Z with 53%Z. cbv zeta iota.
  rewrite Z.shiftl_mul_pow2 by lia.
  assert (Hq : (Zpos m * 2 ^ 53 / Zpos m = 2 ^ 53)%Z)
    by (rewrite Z.mul_comm; apply Z.div_mul; lia).
  assert (Hr : ((Zpos m * 2 ^ 53) mod Zpos m = 0)%Z)
    by (rewrite Z.mul_comm; apply Z.mod_mul; lia).
  unfold Z.div, Z.modulo in Hq, Hr.
  destruct (Z.div_eucl (Zpos m * 2 ^ 53) (Zpos m)) as [q r].
  subst q r. unfold new_location.
  destruct (Z.even (Zpos m)); reflexivity.
Qed.

(** A finite double that is not zero, divided by itself, is 1. *)
Lemma double_div_self (x : float) :
  is_finite x = true -> is_zero x = false -> x / x = 1.
Proof.
  intros Hf Hz. destruct (finite_nonzero x Hf Hz) as (s & m & e & Hx).
  apply Prim2SF_inj. rewrite div_spec, Hx.
  unfold SF64div, SFdiv. rewrite SFdiv_core_self.
  destruct s; vm_compute; reflexivity.
Qed.

Lemma SFdiv_core_shift (m1 m2 e1 e2 j : Z) :
  SFdiv_core_binary prec emax m1 (e1 + j) m2 (e2 + j)
  = SFdiv_core_binary prec emax m1 e1 m2 e2.
Proof.
  unfold SFdiv_core_binary.
  replace (Zdigits2 m1 + (e1 + j) - (Zdigits2 m2 + (e2 + j)))%Z
    with (Zdigits2 m1 + e1 - (Zdigits2 m2 + e2))%Z by lia.
  replace (e1 + j - (e2 + j))%Z with (e1 - e2)%Z by lia.
  reflexivity.
Qed.

(** Two doubles and the same two with their binary exponents shifted by
    the same amount (both multiplied by the same power of two, exactly)
    have the same quotient. *)
Lemma double_div_shift (a b a' b' : float) (s1 s2 : bool)
  (m1 m2 : positive) (e1 e2 j : Z) :
  Prim2SF a = S754_finite s1 m1 e1 ->
  Prim2SF b = S754_finite s2 m2 e2 ->
  Prim2SF a' = S754_finite s1 m1 (e1 + j) ->
  Prim2SF b' = S754_finite s2 m2 (e2 + j) ->
  a' / b' = a / b.
Proof.
  intros Ha Hb Ha' Hb'. apply Prim2SF_inj.
  rewrite !div_spec, Ha, Hb, Ha', Hb'.
  unfold SF64div, SFdiv. rewrite SFdiv_core_shift. reflexivity.
Qed.

End DoubleDivision.

Section DoubleDoubling.

Import FloatClass PrimFloat FloatOps SpecFloat FloatAxioms.
Local Open Scope float_scope.

Lemma SFmul_two (s : bool) (m : positive) (e : Z) :
  digits2_pos m = 53%positive -> (-1074 <= e)%Z ->
  SF64mul (S754_finite false 4503599627370496 (-51)) (S754_finite s m e)
  = if (e + 1 <=? 971)%Z then S754_finite s m (e + 1) else S754_infinity s.
Proof.
  intros Hd Hlo. unfold SF64mul, SFmul.
  change (xorb false s) with s.
  change (4503599627370496 * m)%positive
    with (Pos.iter xO m 52).
  unfold binary_round_aux, shr_fexp.
  assert (Hdig : Zdigits2 (Zpos (Pos.iter xO m 52)) = 105%Z).
  { cbn [Pos.iter Zdigits2 digits2_pos]. rewrite Hd. reflexivity. }
  rewrite Hdig.
  assert (Hf : (fexp prec emax (105 + (-51 + e)) - (-51 + e) = 52)%Z).
  { unfold fexp, SpecFloat.emin, prec, emax. lia. }
  rewrite Hf. cbn [shr shr_record_of_loc].
  cbn [iter_pos Pos.iter shr_1 orb].
  cbn [shr_m loc_of_shr_record round_nearest_even].
  assert (Hf2 : (fexp prec emax (Zdigits2 (Zpos m) + (-51 + e + 52))
                 - (-51 + e + 52) = 0)%Z).
  { cbn [Zdigits2]. rewrite Hd. unfold fexp, SpecFloat.emin, prec, emax. lia. }
  rewrite Hf2. cbn [shr shr_record_of_loc shr_m].
  replace (-51 + e + 52)%Z with (e + 1)%Z by lia.
  reflexivity.
Qed.

Lemma is_normal_spec (x : float) :
  Double.is_normal x = true ->
  exists s m e,
    Prim2SF x = S754_finite s m e /\ digits2_pos m = 53%positive /\
    (-1074 <= e)%Z.
Proof.
  unfold Double.is_normal. rewrite classify_spec.
  pose proof (Prim2SF_valid x) as Hv.
  unfold SF64classify, SFclassify.
  destruct (Prim2SF x) as [s | s | | s m e];
    try discriminate; try (destruct s; discriminate).
  assert (Hd : forall b : bool,
             (if b then true else false) = true -> b = true)
    by (intros []; auto).
  intros H.
  assert (Hdig : (Zpos (digits2_pos m) =? prec)%Z = true).
  { destruct s; destruct (Zpos (digits2_pos m) =? prec)%Z;
      try reflexivity; discriminate. }
  apply Z.eqb_eq in Hdig. unfold prec in Hdig.
  assert (Hm : digits2_pos m = 53%positive) by congruence.
  exists s, m, e. split; [reflexivity |]. split; [exact Hm |].
  cbn [valid_binary] in Hv. unfold bounded, canonical_mantissa in Hv.
  apply andb_true_iff in Hv as [Hc _]. apply Z.eqb_eq in Hc.
  rewrite Hm in Hc. unfold fexp, SpecFloat.emin, prec, emax in Hc. lia.
Qed.

(** Doubling a normal double, short of overflow, adds one to its
    exponent and leaves the mantissa as it is. *)
Lemma double_mul_two (x : float) (s : bool) (m : positive) (e : Z) :
  Prim2SF x = S754_finite s m e -> digits2_pos m = 53%positive ->
  (-1074 <= e)%Z -> is_infinity (2 * x) = false ->
  Prim2SF (2 * x) = S754_finite s m (e + 1).
Proof.
  intros Hx Hd He Hinf. pose proof (mul_spec 2 x) as H.
  rewrite Hx in H.
  change (Prim2SF 2) with (S754_finite false 4503599627370496 (-51)) in H.
  rewrite (SFmul_two s m e Hd He) in H.
  destruct (e + 1 <=? 971)%Z; [exact H |].
  assert (is_infinity (2 * x) = true) by (apply is_infinity_true; eauto).
  congruence.
Qed.

(** Doubling two normal doubles, short of overflow, leaves their quotient
    as it is. *)
Lemma double_div_doubled (a b : float) :
  Double.is_normal a = true -> Double.is_normal b = true ->
  is_infinity (2 * a) = false -> is_infinity (2 * b) = false ->
  (2 * a) / (2 * b) = a / b /\
  is_zero (2 * b) = false /\ is_zero b = false.
Proof.
  intros Ha Hb Hia Hib.
  destruct (is_normal_spec a Ha) as (sa & ma & ea & Hpa & Hda & Hea).
  destruct (is_normal_spec b Hb) as (sb & mb & eb & Hpb & Hdb & Heb).
  pose proof (double_mul_two a sa ma ea Hpa Hda Hea Hia) as Hpa2.
  pose proof (double_mul_two b sb mb eb Hpb Hdb Heb Hib) as Hpb2.
  split; [exact (double_div_shift a b _ _ _ _ _ _ _ _ 1 Hpa Hpb Hpa2 Hpb2) |].
  split.
  - destruct (is_zero (2 * b)) eqn:Hz; [| reflexivity].
    apply is_zero_true in Hz as [s Hs]. congruence.
  - destruct (is_zero b) eqn:Hz; [| reflexivity].
    apply is_zero_true in Hz as [s Hs]. congruence.
Qed.

End DoubleDoubling.

Section DoubleQuantizer.

Import PrimFloat FloatOps SpecFloat FloatAxioms.
Local Open Scope float_scope.

Variable libm_log : float -> float.

Lemma double_div_nonzero (x y : float) :
  is_zero y = false -> Double.py_div x y = Ok (x / y).
Proof.
  unfold Double.py_div. intros ->. reflexivity.
Qed.

Lemma double_div_zero (x y : float) :
  is_zero y = true -> Double.py_div x y = Raise ZeroDivisionError.
Proof.
  unfold Double.py_div. intros ->. reflexivity.
Qed.

Lemma double_log_finite (x : float) :
  (0 <? x) = true -> is_infinity x = false ->
  is_finite (libm_log x) = true ->
  Double.py_log libm_log x = Ok (libm_log x).
Proof.
  intros Hpos Hinf Hfin. unfold Double.py_log.
  destruct (positive_double x Hpos) as [-> ->]. rewrite Hinf.
  cbv zeta. rewrite (is_finite_not_nan_inf _ Hfin). reflexivity.
Qed.

Lemma double_log_phi :
  is_finite (libm_log Double.phi) = true ->
  Double.py_log libm_log Double.phi = Ok (libm_log Double.phi).
Proof.
  intros Hfin. apply double_log_finite; [reflexivity | reflexivity | exact Hfin].
Qed.

Lemma double_log_zero (x : float) :
  is_zero x = true -> Double.py_log libm_log x = Raise ValueError.
Proof.
  intros Hz. unfold Double.py_log.
  destruct (zero_double x Hz) as [-> ->]. reflexivity.
Qed.

Lemma double_log_infinity :
  Double.py_log libm_log infinity = Ok infinity.
Proof. reflexivity. Qed.

(** [round] of four times an infinity. *)
Lemma double_round_infinity (x : float) (s : bool) :
  Prim2SF x = S754_infinity s ->
  Double.py_round (x * 4) = Raise OverflowError /\
  Double.py_round (4 * x) = Raise OverflowError.
Proof.
  intros Hx. unfold Double.py_round. rewrite !mul_spec, Hx.
  change (Prim2SF 4) with (S754_finite false 4503599627370496 (-50)).
  split; reflexivity.
Qed.

(** [round] of four times a zero. *)
Lemma double_round_zero (x : float) (s : bool) :
  Prim2SF x = S754_zero s ->
  Double.py_round (x * 4) = Ok 0%Z /\ Double.py_round (4 * x) = Ok 0%Z.
Proof.
  intros Hx. unfold Double.py_round. rewrite !mul_spec, Hx.
  change (Prim2SF 4) with (S754_finite false 4503599627370496 (-50)).
  split; reflexivity.
Qed.

(** The raw exponent when the quotient is positive and finite and the C
    library returns finite logarithms. *)
Lemma double_exponent_finite (mass reference : float) :
  is_finite (libm_log Double.phi) = true ->
  is_zero (libm_log Double.phi) = false ->
  is_zero reference = false ->
  (0 <? mass / reference) = true ->
  is_infinity (mass / reference) = false ->
  is_finite (libm_log (mass / reference)) = true ->
  Double.exponent libm_log mass reference
  = Ok (libm_log (mass / reference) / libm_log Double.phi).
Proof.
  intros Hphi Hphi0 Href Hpos Hinf Hfin. unfold Double.exponent.
  rewrite (double_div_nonzero _ _ Href). cbn [bind].
  rewrite (double_log_finite _ Hpos Hinf Hfin). cbn [bind].
  rewrite (double_log_phi Hphi). cbn [bind].
  apply double_div_nonzero, Hphi0.
Qed.

(** The quotient underflows to a zero: [math.log] raises. *)
Lemma double_exponent_underflow (mass reference : float) :
  is_zero reference = false ->
  is_zero (mass / reference) = true ->
  Double.exponent libm_log mass reference = Raise ValueError.
Proof.
  intros Href Hz. unfold Double.exponent.
  rewrite (double_div_nonzero _ _ Href). cbn [bind].
  rewrite (double_log_zero _ Hz). reflexivity.
Qed.

(** The quotient overflows: the exponent is an infinity. *)
Lemma double_exponent_overflow (mass reference : float) :
  is_finite (libm_log Double.phi) = true ->
  is_zero (libm_log Double.phi) = false ->
  is_zero reference = false ->
  mass / reference = infinity ->
  exists n s, Double.exponent libm_log mass reference = Ok n /\
              Prim2SF n = S754_infinity s.
Proof.
  intros Hphi Hphi0 Href Hinf. unfold Double.exponent.
  rewrite (double_div_nonzero _ _ Href). cbn [bind]. rewrite Hinf.
  rewrite double_log_infinity. cbn [bind].
  rewrite (double_log_phi Hphi). cbn [bind].
  rewrite (double_div_nonzero _ _ Hphi0).
  destruct (finite_nonzero _ Hphi Hphi0) as (s & m & e & Hd).
  exists (infinity / libm_log Double.phi), (xorb false s).
  split; [reflexivity |].
  rewrite div_spec, Hd. reflexivity.
Qed.

(** The quotient is 1 and [log(1)] is 0: the exponent is a zero. *)
Lemma double_exponent_one (mass reference : float) :
  is_finite (libm_log Double.phi) = true ->
  is_zero (libm_log Double.phi) = false ->
  is_zero reference = false ->
  mass / reference = 1 -> libm_log 1 = 0 ->
  exists n s, Double.exponent libm_log mass reference = Ok n /\
              Prim2SF n = S754_zero s.
Proof.
  intros Hphi Hphi0 Href Hone Hlog. unfold Double.exponent.
  rewrite (double_div_nonzero _ _ Href). cbn [bind]. rewrite Hone.
  assert (H1 : Double.py_log libm_log 1 = Ok 0).
  { rewrite <- Hlog. apply double_log_finite; try reflexivity.
    rewrite Hlog. reflexivity. }
  rewrite H1. cbn [bind].
  rewrite (double_log_phi Hphi). cbn [bind].
  rewrite (double_div_nonzero _ _ Hphi0).
  destruct (finite_nonzero _ Hphi Hphi0) as (s & m & e & Hd).
  exists (0 / libm_log Double.phi), (xorb false s).
  split; [reflexivity |].
  rewrite div_spec, Hd. reflexivity.
Qed.

End DoubleQuantizer.

Section DoubleCodes.

Import PrimFloat FloatOps SpecFloat FloatAxioms.
Local Open Scope float_scope.

Lemma all_codes_spec (P : Z -> bool) (n : nat) (k : Z) :
  Double.all_codes P n k = true ->
  forall j, (k <= j < k + Z.of_nat n)%Z -> P j = true.
Proof.
  revert k. induction n as [| n IH]; intros k H j Hj; [lia |].
  cbn [Double.all_codes] in H. apply andb_true_iff in H as [Hk Hrest].
  destruct (Z.eq_dec j k) as [-> | Hne]; [exact Hk |].
  apply (IH (k + 1)%Z Hrest). lia.
Qed.

(** Every code that a ratio of two doubles can give lies within
    [-8192, 8192] (the exponent of the largest ratio is below 1500); on
    that range the scalings by 4 are exact. *)
Lemma quarter_exact_codes (k : Z) :
  (-8192 <= k <= 8192)%Z -> Double.quarter_exact k = true.
Proof.
  intros Hk.
  assert (Hall : Double.all_codes Double.quarter_exact
                   (Z.to_nat 16385) (-8192) = true)
    by (vm_compute; reflexivity).
  apply (all_codes_spec _ _ _ Hall). rewrite Z2Nat.id; lia.
Qed.

Lemma quarter_codes (k : Z) :
  (-8192 <= k <= 8192)%Z ->
  4 * Double.quarter k = Double.int_to_float k /\
  Double.quarter k * 4 = Double.int_to_float k /\
  Double.py_round (4 * Double.quarter k) = Ok k.
Proof.
  intros Hk. pose proof (quarter_exact_codes k Hk) as H.
  unfold Double.quarter_exact in H.
  apply andb_true_iff in H as [H H3]. apply andb_true_iff in H as [H1 H2].
  apply Leibniz.eqb_spec in H1. apply Leibniz.eqb_spec in H2.
  split; [exact H1 |]. split; [exact H2 |].
  destruct (Double.py_round (4 * Double.quarter k)) as [k' | e];
    [| discriminate].
  apply Z.eqb_eq in H3. congruence.
Qed.

End DoubleCodes.

Section DoubleOrder.

Import PrimFloat FloatOps SpecFloat FloatAxioms.
Local Open Scope float_scope.

(** *** The order of binary64 values *)

Lemma SFleb_trans (a b c : spec_float) :
  SFleb a b = true -> SFleb b c = true -> SFleb a c = true.
Proof.
  unfold SFleb.
  destruct a as [sa | sa | | sa ma ea], b as [sb | sb | | sb mb eb],
           c as [sc | sc | | sc mc ec];
    cbn; try discriminate; try reflexivity;
    try (destruct sa); try (destruct sb); try (destruct sc);
    cbn; try discriminate; try reflexivity;
    change (Pos.compare_cont Eq) with Pos.compare;
    destruct (Z.compare_spec ea eb), (Z.compare_spec eb ec),
             (Z.compare_spec ea ec);
    cbn; try discriminate; try reflexivity; try lia;
    subst;
    destruct (Pos.compare_spec ma mb), (Pos.compare_spec mb mc),
             (Pos.compare_spec ma mc);
    cbn; try discriminate; try reflexivity; try lia.
Qed.

Lemma SFltb_false_leb (a b : spec_float) :
  a <> S754_nan -> b <> S754_nan ->
  SFltb b a = false -> SFleb a b = true.
Proof.
  unfold SFltb, SFleb.
  destruct a as [sa | sa | | sa ma ea], b as [sb | sb | | sb mb eb];
    cbn; try congruence; intros _ _;
    try (destruct sa); try (destruct sb);
    cbn; try discriminate; try reflexivity;
    change (Pos.compare_cont Eq) with Pos.compare;
    rewrite (Z.compare_antisym ea eb);
    destruct (Z.compare_spec ea eb);
    cbn; try discriminate; try reflexivity;
    rewrite (Pos.compare_antisym ma mb);
    destruct (Pos.compare_spec ma mb);
    cbn; try discriminate; try reflexivity.
Qed.

Lemma SFltb_leb (a b : spec_float) :
  SFltb a b = true -> SFleb a b = true.
Proof.
  unfold SFltb, SFleb.
  destruct (SFcompare a b) as [[| |] |]; try discriminate; reflexivity.
Qed.

Lemma double_leb_trans (a b c : float) :
  (a <=? b) = true -> (b <=? c) = true -> (a <=? c) = true.
Proof.
  rewrite !leb_spec. apply SFleb_trans.
Qed.

Lemma double_ltb_false_leb (a b : float) :
  is_nan a = false -> is_nan b = false ->
  (b <? a) = false -> (a <=? b) = true.
Proof.
  rewrite !is_nan_false, ltb_spec, leb_spec. apply SFltb_false_leb.
Qed.

Lemma double_ltb_leb (a b : float) :
  (a <? b) = true -> (a <=? b) = true.
Proof.
  rewrite ltb_spec, leb_spec. apply SFltb_leb.
Qed.


End DoubleOrder.

(** *** Sorting on a binary64 key *)

Section DoubleSortBy.

Import PrimFloat FloatOps SpecFloat FloatAxioms.
Local Open Scope float_scope.

Context {A : Type} (key : A -> float).

Lemma double_insert_by_perm (x : A) (l : list A) :
  Permutation (Double.insert_by key x l) (x :: l).
Proof.
  induction l as [| y t IH]; cbn; [reflexivity |].
  destruct (key y <? key x); [| reflexivity].
  rewrite IH. apply perm_swap.
Qed.

Lemma double_sort_by_perm (l : list A) : Permutation (Double.sort_by key l) l.
Proof.
  induction l as [| x t IH]; cbn; [reflexivity |].
  rewrite double_insert_by_perm. constructor. exact IH.
Qed.

Lemma double_insert_by_sorted (x : A) (l : list A) :
  is_nan (key x) = false ->
  Forall (fun y => is_nan (key y) = false) l ->
  StronglySorted (Double.le_key key) l ->
  StronglySorted (Double.le_key key) (Double.insert_by key x l).
Proof.
  intros Hx. induction l as [| y t IH]; intros Hnan Hs; cbn.
  - constructor; constructor.
  - inversion Hs as [| ? ? Ht Hy]; subst.
    inversion Hnan as [| ? ? Hny Hnt]; subst.
    destruct (key y <? key x) eqn:Hlt.
    + constructor; [apply IH; assumption |].
      apply Forall_forall. intros z Hz.
      apply (Permutation_in _ (double_insert_by_perm x t)) in Hz.
      destruct Hz as [<- | Hz].
      * apply double_ltb_leb, Hlt.
      * rewrite Forall_forall in Hy. apply Hy, Hz.
    + assert (Hle : Double.le_key key x y)
        by (apply double_ltb_false_leb; assumption).
      constructor; [exact Hs |]. constructor; [exact Hle |].
      apply Forall_forall. intros z Hz.
      rewrite Forall_forall in Hy. specialize (Hy z Hz).
      unfold Double.le_key in *. eapply double_leb_trans; eassumption.
Qed.

(** Without a NaN among the keys the sorted list is ascending. *)
Lemma double_sort_by_sorted (l : list A) :
  Forall (fun y => is_nan (key y) = false) l ->
  StronglySorted (Double.le_key key) (Double.sort_by key l).
Proof.
  induction l as [| x t IH]; intros Hnan; cbn; [constructor |].
  inversion Hnan as [| ? ? Hx Ht]; subst.
  apply double_insert_by_sorted; [exact Hx | | apply IH, Ht].
  apply Forall_forall. intros z Hz.
  apply (Permutation_in _ (double_sort_by_perm t)) in Hz.
  rewrite Forall_forall in Ht. apply Ht, Hz.
Qed.

End DoubleSortBy.



(** *** Loops that can raise *)

Lemma mapM_ok_inv {A B : Type} (f : A -> result B) (l : list A)
  (ys : list B) :
  mapM f l = Ok ys -> Forall2 (fun x y => f x = Ok y) l ys.
Proof.
  revert ys. induction l as [| x t IH]; intros ys H; cbn in H.
  - injection H as <-. constructor.
  - destruct (f x) as [y | e] eqn:Hy; cbn in H; [| discriminate].
    destruct (mapM f t) as [ys' | e] eqn:Ht; cbn in H; [| discriminate].
    injection H as <-. constructor; [exact Hy | apply IH; reflexivity].
Qed.

Lemma mapM_raise_inv {A B : Type} (f : A -> result B) (l : list A)
  (e : PyExc) :
  mapM f l = Raise e -> exists x, In x l /\ f x = Raise e.
Proof.
  induction l as [| x t IH]; intros H; cbn in H; [discriminate |].
  destruct (f x) as [y | e'] eqn:Hy; cbn in H.
  - destruct (mapM f t) as [ys' | e''] eqn:Ht; cbn in H; [discriminate |].
    injection H as ->. destruct (IH eq_refl) as (z & Hz & Hfz).
    exists z. split; [right; exact Hz | exact Hfz].
  - injection H as ->. exists x. split; [left; reflexivity | exact Hy].
Qed.

Lemma mapM_all_ok {A B : Type} (f : A -> result B) (l : list A) :
  (forall x, In x l -> exists y, f x = Ok y) ->
  exists ys, mapM f l = Ok ys.
Proof.
  intros H. destruct (mapM f l) as [ys | e] eqn:Hm; [eauto |].
  apply mapM_raise_inv in Hm as (x & Hx & Hfx).
  destruct (H x Hx) as [y Hy]. congruence.
Qed.

Lemma Forall2_In_l {A B : Type} (P : A -> B -> Prop) (l : list A)
  (l' : list B) (x : A) :
  Forall2 P l l' -> In x l -> exists y, In y l' /\ P x y.
Proof.
  induction 1 as [| a b t t' Hab Ht IH]; intros Hin; [contradiction |].
  destruct Hin as [-> | Hin]; [exists b; split; [left; reflexivity | exact Hab] |].
  destruct (IH Hin) as (y & Hy & Pxy). exists y. split; [right |]; assumption.
Qed.

Lemma Forall2_In_r {A B : Type} (P : A -> B -> Prop) (l : list A)
  (l' : list B) (y : B) :
  Forall2 P l l' -> In y l' -> exists x, In x l /\ P x y.
Proof.
  induction 1 as [| a b t t' Hab Ht IH]; intros Hin; [contradiction |].
  destruct Hin as [-> | Hin]; [exists a; split; [left; reflexivity | exact Hab] |].
  destruct (IH Hin) as (x & Hx & Pxy). exists x. split; [right |]; assumption.
Qed.

(** ** The quantizer on doubles *)

Section DoubleQuantizerClaims.

Import FloatClass PrimFloat FloatOps SpecFloat FloatAxioms.
Local Open Scope float_scope.

(** Both loop bodies once the raw exponent is known. *)
Lemma double_quantum_number_code (libm_log : float -> float)
  (mass reference n : float) (k : Z) :
  Double.exponent libm_log mass reference = Ok n ->
  Double.py_round (n * 4) = Ok k -> (-8192 <= k <= 8192)%Z ->
  Double.quantum_number libm_log mass reference = Ok (Double.quarter k, k) /\
  Double.quantum_number_float libm_log mass reference
  = Ok (Double.quarter k, Double.int_to_float k).
Proof.
  intros Hn Hk Hrange.
  destruct (quarter_codes k Hrange) as (H1 & H2 & H3).
  unfold Double.quantum_number, Double.quantum_number_float.
  rewrite Hn. cbn [bind]. rewrite Hk. cbn [bind]. cbv zeta.
  rewrite H3, H2. split; reflexivity.
Qed.

Lemma double_quantum_number_raise (libm_log : float -> float)
  (mass reference n : float) (e : PyExc) :
  Double.exponent libm_log mass reference = Ok n ->
  Double.py_round (n * 4) = Raise e ->
  Double.quantum_number libm_log mass reference = Raise e /\
  Double.quantum_number_float libm_log mass reference = Raise e.
Proof.
  intros Hn Hk.
  unfold Double.quantum_number, Double.quantum_number_float.
  rewrite Hn. cbn [bind]. rewrite Hk. split; reflexivity.
Qed.

(** An overflowing quotient: [round] meets an infinity. *)
Lemma double_quantum_number_overflow (libm_log : float -> float)
  (mass reference : float) :
  is_finite (libm_log Double.phi) = true ->
  is_zero (libm_log Double.phi) = false ->
  is_zero reference = false ->
  mass / reference = infinity ->
  Double.quantum_number libm_log mass reference = Raise OverflowError /\
  Double.quantum_number_float libm_log mass reference = Raise OverflowError.
Proof.
  intros Hphi Hphi0 Href Hinf.
  destruct (double_exponent_overflow libm_log mass reference
              Hphi Hphi0 Href Hinf) as (n & s & Hn & Hs).
  apply (double_quantum_number_raise _ _ _ n); [exact Hn |].
  apply (double_round_infinity n s Hs).
Qed.

Lemma positive_nonzero_double (x : float) :
  (0 <? x) = true -> is_zero x = false.
Proof.
  intros H. destruct (is_zero x) eqn:Hz; [| reflexivity].
  destruct (zero_double x Hz) as [_ Hle].
  destruct (positive_double x H) as [_ Hgt]. congruence.
Qed.

(** C1, as amended: on doubles, with a C library whose [log(phi)] is
    finite and not zero.  The quotient of a positive finite mass by a
    positive finite reference is a zero (underflow), the infinity
    (overflow) or a positive finite double.  In the last case, when its
    logarithm is finite, the quantizer returns the raw exponent
    [log(mass/reference) / log(phi)], the integer code
    [k = round(4 * n_raw)] and the quantized exponent [k/4], four times
    which is the code again (for every code a quotient of doubles can
    give).  When the mass is the reference the quotient is 1, the exponent
    a zero and the code 0.  A quotient that underflows to zero raises
    [ValueError], one that overflows raises [OverflowError], and a zero
    reference raises [ZeroDivisionError]. *)
Theorem quantizer_on_doubles (libm_log : float -> float)
  (mass reference : float) :
  is_finite (libm_log Double.phi) = true ->
  is_zero (libm_log Double.phi) = false ->
  let ratio := mass / reference in
  let n_raw := libm_log ratio / libm_log Double.phi in
  ((0 <? mass) = true -> is_infinity mass = false ->
   (0 <? reference) = true -> is_infinity reference = false ->
   is_zero reference = false /\
   (is_zero ratio = true \/ ratio = infinity \/
    ((0 <? ratio) = true /\ is_infinity ratio = false))) /\
  (is_zero reference = false ->
   (0 <? ratio) = true -> is_infinity ratio = false ->
   is_finite (libm_log ratio) = true ->
   Double.exponent libm_log mass reference = Ok n_raw /\
   (forall k, Double.py_round (n_raw * 4) = Ok k ->
      (-8192 <= k <= 8192)%Z ->
      Double.quantum_number libm_log mass reference
      = Ok (Double.quarter k, k) /\
      Double.quantum_number_float libm_log mass reference
      = Ok (Double.quarter k, Double.int_to_float k)) /\
   (forall e, Double.py_round (n_raw * 4) = Raise e ->
      Double.quantum_number libm_log mass reference = Raise e /\
      Double.quantum_number_float libm_log mass reference = Raise e)) /\
  (mass = reference ->
   is_finite reference = true -> is_zero reference = false ->
   libm_log 1 = 0 ->
   ratio = 1 /\
   (exists n, Double.exponent libm_log mass reference = Ok n /\
              is_zero n = true) /\
   Double.quantum_number libm_log mass reference = Ok (0, 0%Z) /\
   Double.quantum_number_float libm_log mass reference = Ok (0, 0)) /\
  (is_zero reference = false -> is_zero ratio = true ->
   Double.exponent libm_log mass reference = Raise ValueError /\
   Double.quantum_number libm_log mass reference = Raise ValueError /\
   Double.quantum_number_float libm_log mass reference = Raise ValueError) /\
  (is_zero reference = false -> ratio = infinity ->
   Double.quantum_number libm_log mass reference = Raise OverflowError /\
   Double.quantum_number_float libm_log mass reference = Raise OverflowError) /\
  (is_zero reference = true ->
   Double.exponent libm_log mass reference = Raise ZeroDivisionError /\
   Double.quantum_number libm_log mass reference = Raise ZeroDivisionError /\
   Double.quantum_number_float libm_log mass reference
   = Raise ZeroDivisionError).
Proof.
  intros Hphi Hphi0 ratio n_raw.
  split; [| split; [| split; [| split; [| split]]]].
  - intros Hm Hmi Hr Hri.
    split; [apply positive_nonzero_double, Hr |].
    apply double_div_positive; assumption.
  - intros Href Hpos Hinf Hfin.
    pose proof (double_exponent_finite libm_log mass reference
                  Hphi Hphi0 Href Hpos Hinf Hfin) as Hexp.
    split; [exact Hexp |]. split.
    + intros k Hk Hrange.
      apply (double_quantum_number_code _ _ _ n_raw); assumption.
    + intros e He.
      apply (double_quantum_number_raise _ _ _ n_raw); assumption.
  - intros Hsame Hfin Href Hlog.
    assert (Hone : ratio = 1)
      by (unfold ratio; rewrite Hsame; apply double_div_self; assumption).
    split; [exact Hone |].
    destruct (double_exponent_one libm_log mass reference
                Hphi Hphi0 Href Hone Hlog) as (n & s & Hn & Hs).
    split.
    { exists n. split; [exact Hn |]. apply is_zero_true. eauto. }
    destruct (double_round_zero n s Hs) as [Hk _].
    assert (Hrange : (-8192 <= 0 <= 8192)%Z) by lia.
    exact (double_quantum_number_code _ _ _ n 0%Z Hn Hk Hrange).
  - intros Href Hz.
    pose proof (double_exponent_underflow libm_log mass reference Href Hz)
      as Hexp.
    split; [exact Hexp |].
    unfold Double.quantum_number, Double.quantum_number_float.
    rewrite Hexp. split; reflexivity.
  - intros Href Hinf.
    apply double_quantum_number_overflow; assumption.
  - intros Href.
    assert (Hexp : Double.exponent libm_log mass reference
                   = Raise ZeroDivisionError).
    { unfold Double.exponent. rewrite (double_div_zero _ _ Href).
      reflexivity. }
    split; [exact Hexp |].
    unfold Double.quantum_number, Double.quantum_number_float.
    rewrite Hexp. split; reflexivity.
Qed.

Lemma quantizer_on_doubles_witness :
  Double.exponent Double.libm_log_sample 0.1056583745 0.0005109989461
  = Ok 11.079525649464776 /\
  Double.quantum_number Double.libm_log_sample 0.1056583745 0.0005109989461
  = Ok (11, 44%Z) /\
  Double.quantum_number Double.libm_log_sample
    0.0005109989461 0.0005109989461
  = Ok (0, 0%Z).
Proof.
  assert (Hphi : is_finite (Double.libm_log_sample Double.phi) = true)
    by reflexivity.
  assert (Hphi0 : is_zero (Double.libm_log_sample Double.phi) = false)
    by reflexivity.
  destruct (quantizer_on_doubles Double.libm_log_sample
              0.1056583745 0.0005109989461 Hphi Hphi0)
    as (_ & Hmuon & _).
  destruct (quantizer_on_doubles Double.libm_log_sample
              0.0005109989461 0.0005109989461 Hphi Hphi0)
    as (_ & _ & Helectron & _).
  destruct Hmuon as (Hexp & Hcode & _); try reflexivity.
  destruct (Hcode 44%Z) as [Hq _]; [reflexivity | lia |].
  destruct Helectron as (_ & _ & Hq0 & _); try reflexivity.
  split; [exact Hexp |]. split; [exact Hq | exact Hq0].
Defined.

(** C1, as stated, fails on doubles: for the positive mass 5e-324 and the
    positive reference 2 the quotient underflows to zero and the quantizer
    raises [ValueError], whatever the C library; for the positive mass
    1e308 and the electron mass the quotient overflows and the quantizer
    raises [OverflowError]. *)
Lemma quantizer_raises_on_positive_masses :
  ((0 <? 5e-324) = true /\ (0 <? 2) = true /\
   forall libm_log : float -> float,
     Double.exponent libm_log 5e-324 2 = Raise ValueError /\
     Double.quantum_number libm_log 5e-324 2 = Raise ValueError) /\
  ((0 <? 1e308) = true /\ (0 <? 0.0005109989461) = true /\
   forall libm_log : float -> float,
     is_finite (libm_log Double.phi) = true ->
     is_zero (libm_log Double.phi) = false ->
     Double.quantum_number libm_log 1e308 0.0005109989461
     = Raise OverflowError).
Proof.
  split.
  - split; [reflexivity |]. split; [reflexivity |].
    intros libm_log. split; reflexivity.
  - split; [reflexivity |]. split; [reflexivity |].
    intros libm_log Hphi Hphi0.
    apply double_quantum_number_overflow; try assumption; reflexivity.
Qed.

(** With the sample logarithms the mass 21.49173836632 has the raw
    exponent 22.125: four times it is the double 88.5, a tie that [round]
    sends to the even code 88. *)
Example quantizer_tie_to_even :
  Double.exponent Double.libm_log_sample 21.49173836632 0.0005109989461
  = Ok 22.125 /\
  Double.quantum_number Double.libm_log_sample 21.49173836632 0.0005109989461
  = Ok (22, 88%Z).
Proof. split; reflexivity. Qed.

(** The quantizer sees its two arguments only through their quotient. *)
Lemma double_exponent_ratio (libm_log : float -> float)
  (mass reference mass' reference' : float) :
  is_zero reference' = is_zero reference ->
  mass' / reference' = mass / reference ->
  Double.exponent libm_log mass' reference'
  = Double.exponent libm_log mass reference.
Proof.
  intros Hz Hr. unfold Double.exponent, Double.py_div.
  rewrite Hz, Hr. reflexivity.
Qed.

(** C6, as amended: on doubles the quantizer depends on its arguments
    through the rounded quotient only: rescaling mass and reference by [k]
    leaves the raw exponent and the quantized results unchanged whenever
    [(k*mass) / (k*reference)] is the double [mass / reference] and
    [k * reference] is zero only if [reference] is.  This is the case for
    [k = 2] on normal doubles whose doubles do not overflow and, more
    generally, whenever multiplying by [k] only shifts the binary
    exponents of both by the same amount. *)
Theorem quantizer_scaling_on_doubles (libm_log : float -> float)
  (mass reference k : float) :
  let same :=
    Double.exponent libm_log (k * mass) (k * reference)
    = Double.exponent libm_log mass reference /\
    Double.quantum_number libm_log (k * mass) (k * reference)
    = Double.quantum_number libm_log mass reference /\
    Double.quantum_number_float libm_log (k * mass) (k * reference)
    = Double.quantum_number_float libm_log mass reference in
  (is_zero (k * reference) = is_zero reference ->
   (k * mass) / (k * reference) = mass / reference -> same) /\
  (k = 2 ->
   Double.is_normal mass = true -> Double.is_normal reference = true ->
   is_infinity (k * mass) = false -> is_infinity (k * reference) = false ->
   same) /\
  (forall s1 s2 m1 m2 e1 e2 j,
     Prim2SF mass = S754_finite s1 m1 e1 ->
     Prim2SF reference = S754_finite s2 m2 e2 ->
     Prim2SF (k * mass) = S754_finite s1 m1 (e1 + j) ->
     Prim2SF (k * reference) = S754_finite s2 m2 (e2 + j) ->
     same).
Proof.
  intros same.
  assert (Hsame : is_zero (k * reference) = is_zero reference ->
                  (k * mass) / (k * reference) = mass / reference -> same).
  { intros Hz Hr.
    pose proof (double_exponent_ratio libm_log mass reference
                  (k * mass) (k * reference) Hz Hr) as Hexp.
    unfold same, Double.quantum_number, Double.quantum_number_float.
    rewrite Hexp. repeat split; reflexivity. }
  split; [exact Hsame |]. split.
  - intros -> Hm Hr Him Hir.
    destruct (double_div_doubled mass reference Hm Hr Him Hir)
      as (Hq & Hz2 & Hz).
    apply Hsame; [congruence | exact Hq].
  - intros s1 s2 m1 m2 e1 e2 j Hm Hr Hkm Hkr.
    apply Hsame.
    + destruct (is_zero (k * reference)) eqn:Hz2.
      { apply is_zero_true in Hz2 as [s Hs]. congruence. }
      destruct (is_zero reference) eqn:Hz; [| reflexivity].
      apply is_zero_true in Hz as [s Hs]. congruence.
    + exact (double_div_shift mass reference _ _ _ _ _ _ _ _ j
               Hm Hr Hkm Hkr).
Qed.

Lemma quantizer_scaling_on_doubles_witness :
  Double.quantum_number Double.libm_log_sample
    (2 * 0.1056583745) (2 * 0.0005109989461)
  = Double.quantum_number Double.libm_log_sample
      0.1056583745 0.0005109989461.
Proof.
  destruct (quantizer_scaling_on_doubles Double.libm_log_sample
              0.1056583745 0.0005109989461 2) as (_ & Htwo & _).
  destruct (Htwo eq_refl eq_refl eq_refl eq_refl eq_refl) as (_ & H & _).
  exact H.
Defined.

(** What a returned exponent says about the C library. *)
Lemma double_exponent_ok_inv (libm_log : float -> float)
  (mass reference n : float) :
  Double.exponent libm_log mass reference = Ok n ->
  is_zero reference = false /\
  is_finite (libm_log Double.phi) = true /\
  is_zero (libm_log Double.phi) = false.
Proof.
  unfold Double.exponent, Double.py_div.
  destruct (is_zero reference); [discriminate |]. cbn [bind].
  destruct (Double.py_log libm_log (mass / reference)) as [num | e];
    [| discriminate].
  cbn [bind].
  change (Double.py_log libm_log Double.phi)
    with (if is_nan (libm_log Double.phi) || is_infinity (libm_log Double.phi)
          then @Raise float ValueError else Ok (libm_log Double.phi)).
  unfold is_finite.
  destruct (is_nan (libm_log Double.phi) || is_infinity (libm_log Double.phi));
    [discriminate |].
  cbn [bind].
  destruct (is_zero (libm_log Double.phi)); [discriminate |].
  intros _. repeat split.
Qed.

(** C6, as stated, fails on doubles.  With mass 1e308, reference 1 and
    [k = 10] the scaled mass is an infinity: whenever the quantizer
    returns a value for the pair, it raises [OverflowError] for the scaled
    pair (and with the sample logarithms it does return one).  With
    [k = 3] and the mass 0.0006902990561726356 against the electron the
    scaled quotient is another double, and with the sample logarithms the
    code changes from 3 to 2. *)
Lemma quantizer_not_scale_invariant :
  (forall (libm_log : float -> float) (v : float * Z),
     Double.quantum_number libm_log 1e308 1 = Ok v ->
     Double.quantum_number libm_log (10 * 1e308) (10 * 1)
     = Raise OverflowError) /\
  Double.quantum_number Double.libm_log_sample 1e308 1
  = Ok (1473.75, 5895%Z) /\
  (3 * 0.0006902990561726356) / (3 * 0.0005109989461)
  <> 0.0006902990561726356 / 0.0005109989461 /\
  Double.quantum_number Double.libm_log_sample
    0.0006902990561726356 0.0005109989461
  = Ok (0.75, 3%Z) /\
  Double.quantum_number Double.libm_log_sample
    (3 * 0.0006902990561726356) (3 * 0.0005109989461)
  = Ok (0.5, 2%Z).
Proof.
  split; [| split; [| split; [| split]]]; try reflexivity.
  - intros libm_log v Hv.
    assert (Hexp : exists n, Double.exponent libm_log 1e308 1 = Ok n).
    { unfold Double.quantum_number in Hv.
      destruct (Double.exponent libm_log 1e308 1) as [n | e];
        [eauto | discriminate]. }
    destruct Hexp as [n Hn].
    apply double_exponent_ok_inv in Hn as (_ & Hphi & Hphi0).
    apply double_quantum_number_overflow; try assumption; reflexivity.
  - intros H. apply Leibniz.eqb_spec in H. discriminate H.
Qed.

End DoubleQuantizerClaims.

(** ** The loaders on doubles *)

Section DoubleLoaders.

Import PrimFloat FloatOps SpecFloat FloatAxioms.
Local Open Scope float_scope.

Lemma double_In_where_mass_positive (db : Double.database) (m : float)
  (r : Double.row) :
  In (m, r) (Double.where_mass_positive db) <->
  In r db /\ Double.mass_gev r = Some m /\ (0 <? m) = true.
Proof.
  induction db as [| r0 t IH]; cbn.
  - tauto.
  - destruct (Double.mass_gev r0) as [m0 |] eqn:Hm0.
    + destruct (0 <? m0) eqn:Hpos; cbn; rewrite IH; split.
      * intros [H | H]; [injection H as <- <-; auto | tauto].
      * intros ([<- | H] & Hm & Hp); [left; congruence | right; tauto].
      * tauto.
      * intros ([<- | H] & Hm & Hp); [congruence | tauto].
    + rewrite IH. split; [tauto |].
      intros ([<- | H] & Hm & Hp); [congruence | tauto].
Qed.

Lemma double_In_order_by_mass (rows : list (float * Double.row))
  (mr : float * Double.row) :
  In mr (Double.order_by_mass rows) <-> In mr rows.
Proof.
  unfold Double.order_by_mass. split; intros H.
  - apply (Permutation_in _ (double_sort_by_perm fst rows)), H.
  - apply (Permutation_in _ (Permutation_sym (double_sort_by_perm fst rows))), H.
Qed.

Lemma double_where_mass_positive_app (db1 db2 : Double.database) :
  Double.where_mass_positive (db1 ++ db2)
  = Double.where_mass_positive db1 ++ Double.where_mass_positive db2.
Proof.
  induction db1 as [| r t IH]; cbn; [reflexivity |].
  destruct (Double.mass_gev r) as [m |]; [| exact IH].
  destruct (0 <? m); [cbn; rewrite IH; reflexivity | exact IH].
Qed.

(** A row that fails [mass_gev > 0] is not selected. *)
Lemma double_where_mass_positive_skip (db1 db2 : Double.database)
  (r : Double.row) :
  Double.positive_mass r = false ->
  Double.where_mass_positive (db1 ++ r :: db2)
  = Double.where_mass_positive (db1 ++ db2).
Proof.
  intros Hr. rewrite !double_where_mass_positive_app. f_equal.
  cbn. unfold Double.positive_mass in Hr.
  destruct (Double.mass_gev r) as [m |]; [| reflexivity].
  rewrite Hr. reflexivity.
Qed.

Lemma double_select_electron_mass_skip (db1 db2 : Double.database)
  (r : Double.row) :
  Double.name r <> "electron" ->
  Double.select_electron_mass (db1 ++ r :: db2)
  = Double.select_electron_mass (db1 ++ db2).
Proof.
  intros Hr. unfold Double.select_electron_mass.
  induction db1 as [| r0 t IH]; cbn.
  - destruct (String.eqb_spec (Double.name r) "electron");
      [contradiction | reflexivity].
  - destruct (String.eqb (Double.name r0) "electron"); [reflexivity | exact IH].
Qed.

(** The rows that the sorted selection holds are never NaN. *)
Lemma double_selected_not_nan (db : Double.database) :
  Forall (fun mr : float * Double.row => is_nan (fst mr) = false)
         (Double.where_mass_positive db).
Proof.
  apply Forall_forall. intros [m r] H.
  apply double_In_where_mass_positive in H as (_ & _ & Hpos).
  apply (positive_double m Hpos).
Qed.

Lemma double_order_by_mass_sorted (db : Double.database) :
  StronglySorted (Double.le_key fst)
    (Double.order_by_mass (Double.where_mass_positive db)).
Proof.
  apply double_sort_by_sorted, double_selected_not_nan.
Qed.

(** What an entry of [load_particle_data] holds. *)
Lemma double_load_row_ok (libm_log : float -> float) (m_e : option float)
  (mr : float * Double.row) (p : Double.ModelBuilderClean.particle) :
  Double.ModelBuilderClean.load_row libm_log m_e mr = Ok p ->
  exists me,
    m_e = Some me /\
    Double.ModelBuilderClean.p_name p = Double.name (snd mr) /\
    Double.ModelBuilderClean.p_mass p = fst mr /\
    Double.quantum_number_float libm_log (fst mr) me
    = Ok (Double.ModelBuilderClean.p_n p, Double.ModelBuilderClean.p_q p).
Proof.
  destruct mr as [m r], m_e as [me |];
    unfold Double.ModelBuilderClean.load_row;
    cbn [Double.as_float bind fst snd]; [| discriminate].
  destruct (Double.quantum_number_float libm_log m me) as [[n q] | e] eqn:Hq;
    cbn [bind fst snd]; [| discriminate].
  intros H. injection H as <-. exists me. rewrite Hq.
  repeat split; reflexivity.
Qed.

(** What an entry of [analyze_quantum_numbers] holds. *)
Lemma double_analyze_row_ok (libm_log : float -> float) (m_e : option float)
  (mr : float * Double.row) (p : Double.QuantumNumberAnalysis.particle) :
  Double.QuantumNumberAnalysis.load_row libm_log m_e mr = Ok p ->
  exists me,
    m_e = Some me /\
    Double.QuantumNumberAnalysis.p_name p = Double.name (snd mr) /\
    Double.QuantumNumberAnalysis.p_mass p = fst mr /\
    Double.QuantumNumberAnalysis.p_category p = Double.category (snd mr) /\
    Double.quantum_number libm_log (fst mr) me
    = Ok (Double.QuantumNumberAnalysis.p_n p,
          Double.QuantumNumberAnalysis.p_q p).
Proof.
  destruct mr as [m r], m_e as [me |];
    unfold Double.QuantumNumberAnalysis.load_row;
    cbn [Double.as_float bind fst snd]; [| discriminate].
  destruct (Double.quantum_number libm_log m me) as [[n q] | e] eqn:Hq;
    cbn [bind fst snd]; [| discriminate].
  intros H. injection H as <-. exists me. rewrite Hq.
  repeat split; reflexivity.
Qed.

(** The report after the loading loop. *)
Lemma double_report_cases (ps : list Double.QuantumNumberAnalysis.particle) :
  (Double.QuantumNumberAnalysis.report ps = Ok tt /\
   ps <> [] /\
   forall p, In p ps -> Double.QuantumNumberAnalysis.p_category p <> None) \/
  (Double.QuantumNumberAnalysis.report ps = Raise TypeError /\
   exists p, In p ps /\ Double.QuantumNumberAnalysis.p_category p = None) \/
  (Double.QuantumNumberAnalysis.report ps = Raise ZeroDivisionError /\
   ps = []).
Proof.
  unfold Double.QuantumNumberAnalysis.report.
  destruct (mapM (fun p => match Double.QuantumNumberAnalysis.p_category p with
                           | Some _ => Ok tt
                           | None => Raise TypeError
                           end) ps) as [us | e] eqn:Hm; cbn [bind].
  - apply mapM_ok_inv in Hm.
    destruct ps as [| p0 t]; [right; right; auto |].
    left. split; [reflexivity |]. split; [discriminate |].
    intros p Hp. destruct (Forall2_In_l _ _ _ _ Hm Hp) as (u & _ & Hu).
    destruct (Double.QuantumNumberAnalysis.p_category p);
      [discriminate | discriminate].
  - apply mapM_raise_inv in Hm as (p & Hp & Hraise).
    destruct (Double.QuantumNumberAnalysis.p_category p) eqn:Hc;
      [discriminate |].
    injection Hraise as <-. right. left. split; [reflexivity | eauto].
Qed.

(** The categories of the entries are those of the selected rows. *)
Lemma double_analyze_categories (libm_log : float -> float)
  (m_e : option float) (rows : list (float * Double.row))
  (ps : list Double.QuantumNumberAnalysis.particle) :
  Forall2 (fun mr p =>
             Double.QuantumNumberAnalysis.load_row libm_log m_e mr = Ok p)
          rows ps ->
  (ps = [] <-> rows = []) /\
  ((exists p, In p ps /\ Double.QuantumNumberAnalysis.p_category p = None)
   <-> exists mr, In mr rows /\ Double.category (snd mr) = None).
Proof.
  intros Hall. split.
  - destruct Hall; split; intros Hnil; try reflexivity; discriminate.
  - split.
    + intros (p & Hp & Hc).
      destruct (Forall2_In_r _ _ _ _ Hall Hp) as (mr & Hmr & Hrow).
      apply double_analyze_row_ok in Hrow as (_ & _ & _ & _ & Hcat & _).
      exists mr. split; [exact Hmr | congruence].
    + intros (mr & Hmr & Hc).
      destruct (Forall2_In_l _ _ _ _ Hall Hmr) as (p & Hp & Hrow).
      apply double_analyze_row_ok in Hrow as (_ & _ & _ & _ & Hcat & _).
      exists p. split; [exact Hp | congruence].
Qed.

(** C4, as amended: on doubles, a row whose mass is [NULL] or fails
    [mass_gev > 0] is left out by the selection before any arithmetic; if
    it is not the electron's row, the two loaders behave on the table as
    if the row were not there, so it gives neither an error nor an entry.
    [load_particle_data] returns exactly when the electron row exists and
    every selected row is quantized, with one entry per selected row in
    ascending order of mass; [analyze_quantum_numbers] moreover needs a
    selected row and no [NULL] category for its report.  Every exception
    is a raw one, of the electron lookup, of a selected row or of the
    report: [TypeError] for a missing electron row or a [NULL] electron
    mass, [ZeroDivisionError] for a zero electron mass, [ValueError] when
    the quotient underflows to zero and [OverflowError] when it
    overflows. *)
Theorem nonpositive_rows_left_out (libm_log : float -> float)
  (db : Double.database) :
  let rows := Double.order_by_mass (Double.where_mass_positive db) in
  (forall m r,
     In (m, r) rows <->
     In r db /\ Double.mass_gev r = Some m /\ (0 <? m) = true) /\
  StronglySorted (Double.le_key fst) rows /\
  (forall db1 db2 r,
     db = db1 ++ r :: db2 ->
     Double.positive_mass r = false -> Double.name r <> "electron" ->
     Double.ModelBuilderClean.load_particle_data libm_log db
     = Double.ModelBuilderClean.load_particle_data libm_log (db1 ++ db2) /\
     Double.QuantumNumberAnalysis.analyze_quantum_numbers libm_log db
     = Double.QuantumNumberAnalysis.analyze_quantum_numbers libm_log
         (db1 ++ db2)) /\
  (forall m_e,
     Double.select_electron_mass db = Ok m_e ->
     ((forall mr, In mr rows ->
         exists p, Double.ModelBuilderClean.load_row libm_log m_e mr = Ok p) ->
      exists ps,
        Double.ModelBuilderClean.load_particle_data libm_log db
        = Ok (ps, m_e) /\
        Forall2 (fun mr p =>
                   Double.ModelBuilderClean.load_row libm_log m_e mr = Ok p)
                rows ps) /\
     ((forall mr, In mr rows ->
         exists p,
           Double.QuantumNumberAnalysis.load_row libm_log m_e mr = Ok p) ->
      rows <> [] ->
      (forall mr, In mr rows -> Double.category (snd mr) <> None) ->
      exists ps,
        Double.QuantumNumberAnalysis.analyze_quantum_numbers libm_log db
        = Ok ps /\
        Forall2 (fun mr p =>
                   Double.QuantumNumberAnalysis.load_row libm_log m_e mr
                   = Ok p)
                rows ps)) /\
  (forall ps m_e,
     Double.ModelBuilderClean.load_particle_data libm_log db
     = Ok (ps, m_e) ->
     Double.select_electron_mass db = Ok m_e /\
     Forall2 (fun mr p =>
                Double.ModelBuilderClean.load_row libm_log m_e mr = Ok p)
             rows ps) /\
  (forall ps,
     Double.QuantumNumberAnalysis.analyze_quantum_numbers libm_log db
     = Ok ps ->
     rows <> [] /\
     (forall mr, In mr rows -> Double.category (snd mr) <> None) /\
     exists m_e,
       Double.select_electron_mass db = Ok m_e /\
       Forall2 (fun mr p =>
                  Double.QuantumNumberAnalysis.load_row libm_log m_e mr
                  = Ok p)
               rows ps) /\
  (forall m_e mr,
     (forall p,
        Double.ModelBuilderClean.load_row libm_log m_e mr = Ok p ->
        exists me,
          m_e = Some me /\
          Double.ModelBuilderClean.p_name p = Double.name (snd mr) /\
          Double.ModelBuilderClean.p_mass p = fst mr /\
          Double.quantum_number_float libm_log (fst mr) me
          = Ok (Double.ModelBuilderClean.p_n p,
                Double.ModelBuilderClean.p_q p)) /\
     (forall p,
        Double.QuantumNumberAnalysis.load_row libm_log m_e mr = Ok p ->
        exists me,
          m_e = Some me /\
          Double.QuantumNumberAnalysis.p_name p = Double.name (snd mr) /\
          Double.QuantumNumberAnalysis.p_mass p = fst mr /\
          Double.QuantumNumberAnalysis.p_category p
          = Double.category (snd mr) /\
          Double.quantum_number libm_log (fst mr) me
          = Ok (Double.QuantumNumberAnalysis.p_n p,
                Double.QuantumNumberAnalysis.p_q p))) /\
  (forall e,
     (Double.ModelBuilderClean.load_particle_data libm_log db = Raise e ->
      Double.select_electron_mass db = Raise e \/
      exists m_e mr,
        Double.select_electron_mass db = Ok m_e /\ In mr rows /\
        Double.ModelBuilderClean.load_row libm_log m_e mr = Raise e) /\
     (Double.QuantumNumberAnalysis.analyze_quantum_numbers libm_log db
      = Raise e ->
      Double.select_electron_mass db = Raise e \/
      (exists m_e mr,
         Double.select_electron_mass db = Ok m_e /\ In mr rows /\
         Double.QuantumNumberAnalysis.load_row libm_log m_e mr = Raise e) \/
      (e = TypeError /\
       exists mr, In mr rows /\ Double.category (snd mr) = None) \/
      (e = ZeroDivisionError /\ rows = []))) /\
  ((forall r, In r db -> Double.name r <> "electron") ->
   Double.ModelBuilderClean.load_particle_data libm_log db
   = Raise TypeError /\
   Double.QuantumNumberAnalysis.analyze_quantum_numbers libm_log db
   = Raise TypeError) /\
  (forall mr,
     Double.ModelBuilderClean.load_row libm_log None mr = Raise TypeError /\
     Double.QuantumNumberAnalysis.load_row libm_log None mr
     = Raise TypeError) /\
  (forall me mr,
     is_zero me = true ->
     Double.ModelBuilderClean.load_row libm_log (Some me) mr
     = Raise ZeroDivisionError /\
     Double.QuantumNumberAnalysis.load_row libm_log (Some me) mr
     = Raise ZeroDivisionError) /\
  (forall me mr,
     is_zero me = false -> is_zero (fst mr / me) = true ->
     Double.ModelBuilderClean.load_row libm_log (Some me) mr
     = Raise ValueError /\
     Double.QuantumNumberAnalysis.load_row libm_log (Some me) mr
     = Raise ValueError) /\
  (forall me mr,
     is_finite (libm_log Double.phi) = true ->
     is_zero (libm_log Double.phi) = false ->
     is_zero me = false -> fst mr / me = infinity ->
     Double.ModelBuilderClean.load_row libm_log (Some me) mr
     = Raise OverflowError /\
     Double.QuantumNumberAnalysis.load_row libm_log (Some me) mr
     = Raise OverflowError).
Proof.
  intros rows.
  split.
  { intros m r. unfold rows. rewrite double_In_order_by_mass.
    apply double_In_where_mass_positive. }
  split; [apply double_order_by_mass_sorted |].
  split.
  { intros db1 db2 r -> Hr Hname.
    unfold Double.ModelBuilderClean.load_particle_data,
      Double.QuantumNumberAnalysis.analyze_quantum_numbers.
    rewrite (double_select_electron_mass_skip db1 db2 r Hname).
    rewrite (double_where_mass_positive_skip db1 db2 r Hr).
    split; reflexivity. }
  split.
  { intros m_e Hsel. split.
    - intros Hall.
      destruct (mapM_all_ok _ _ Hall) as [ps Hps].
      exists ps. split; [| apply mapM_ok_inv, Hps].
      unfold Double.ModelBuilderClean.load_particle_data.
      rewrite Hsel. cbn [bind]. fold rows. rewrite Hps. reflexivity.
    - intros Hall Hne Hcat.
      destruct (mapM_all_ok _ _ Hall) as [ps Hps].
      pose proof (mapM_ok_inv _ _ _ Hps) as Hrows.
      destruct (double_analyze_categories _ _ _ _ Hrows) as [Hnil Hnull].
      exists ps. split; [| exact Hrows].
      unfold Double.QuantumNumberAnalysis.analyze_quantum_numbers.
      rewrite Hsel. cbn [bind]. fold rows. rewrite Hps. cbn [bind].
      destruct (double_report_cases ps)
        as [(Hr & _) | [(_ & Hp) | (_ & Hp)]].
      + rewrite Hr. reflexivity.
      + apply Hnull in Hp as (mr & Hmr & Hc). destruct (Hcat mr Hmr Hc).
      + apply Hnil in Hp. contradiction. }
  split.
  { intros ps m_e.
    unfold Double.ModelBuilderClean.load_particle_data.
    destruct (Double.select_electron_mass db) as [m0 | e];
      cbn [bind]; [| discriminate].
    fold rows.
    destruct (mapM (Double.ModelBuilderClean.load_row libm_log m0) rows)
      as [ps0 | e] eqn:Hm; cbn [bind]; [| discriminate].
    intros H. injection H as <- <-.
    split; [reflexivity | apply mapM_ok_inv, Hm]. }
  split.
  { intros ps.
    unfold Double.QuantumNumberAnalysis.analyze_quantum_numbers.
    destruct (Double.select_electron_mass db) as [m0 | e];
      cbn [bind]; [| discriminate].
    fold rows.
    destruct (mapM (Double.QuantumNumberAnalysis.load_row libm_log m0) rows)
      as [ps0 | e] eqn:Hm; cbn [bind]; [| discriminate].
    pose proof (mapM_ok_inv _ _ _ Hm) as Hrows.
    destruct (double_analyze_categories _ _ _ _ Hrows) as [Hnil Hnull].
    destruct (double_report_cases ps0)
      as [(Hr & Hne & Hcat) | [(Hr & _) | (Hr & _)]];
      rewrite Hr; cbn [bind]; [| discriminate | discriminate].
    intros H. injection H as <-.
    split; [intros Hrnil; apply Hne, Hnil, Hrnil |].
    split; [| exists m0; split; [reflexivity | exact Hrows]].
    intros mr Hmr Hc.
    destruct (proj2 Hnull (ex_intro _ mr (conj Hmr Hc))) as (p & Hp & Hpc).
    exact (Hcat p Hp Hpc). }
  split.
  { intros m_e mr. split; intros p.
    - apply double_load_row_ok.
    - apply double_analyze_row_ok. }
  split.
  { intros e. split.
    - unfold Double.ModelBuilderClean.load_particle_data.
      destruct (Double.select_electron_mass db) as [m_e | e0];
        cbn [bind]; [| intros H; left; injection H as ->; reflexivity].
      fold rows.
      destruct (mapM (Double.ModelBuilderClean.load_row libm_log m_e) rows)
        as [ps | e1] eqn:Hm; cbn [bind]; [discriminate |].
      intros H. injection H as ->. right.
      apply mapM_raise_inv in Hm as (mr & Hin & Hmr).
      exists m_e, mr. auto.
    - unfold Double.QuantumNumberAnalysis.analyze_quantum_numbers.
      destruct (Double.select_electron_mass db) as [m_e | e0];
        cbn [bind]; [| intros H; left; injection H as ->; reflexivity].
      fold rows.
      destruct (mapM (Double.QuantumNumberAnalysis.load_row libm_log m_e)
                  rows) as [ps | e1] eqn:Hm; cbn [bind].
      + pose proof (mapM_ok_inv _ _ _ Hm) as Hrows.
        destruct (double_analyze_categories _ _ _ _ Hrows) as [Hnil Hnull].
        destruct (double_report_cases ps)
          as [(Hr & _) | [(Hr & Hp) | (Hr & Hp)]];
          rewrite Hr; cbn [bind]; [discriminate | |];
          intros H; injection H as <-; right; right.
        * left. split; [reflexivity | apply Hnull, Hp].
        * right. split; [reflexivity | apply Hnil, Hp].
      + intros H. injection H as ->. right. left.
        apply mapM_raise_inv in Hm as (mr & Hin & Hmr).
        exists m_e, mr. auto. }
  split.
  { intros Hnone.
    assert (Hsel : Double.select_electron_mass db = Raise TypeError).
    { unfold Double.select_electron_mass.
      destruct (find (fun r => String.eqb (Double.name r) "electron") db)
        as [r |] eqn:Hfind; [| reflexivity].
      apply find_some in Hfind as [Hin Hname].
      apply String.eqb_eq in Hname. destruct (Hnone r Hin Hname). }
    unfold Double.ModelBuilderClean.load_particle_data,
      Double.QuantumNumberAnalysis.analyze_quantum_numbers.
    rewrite Hsel. split; reflexivity. }
  split; [intros [m r]; split; reflexivity |].
  split.
  { intros me [m r] Hz.
    unfold Double.ModelBuilderClean.load_row,
      Double.QuantumNumberAnalysis.load_row,
      Double.quantum_number_float, Double.quantum_number, Double.exponent.
    cbn [Double.as_float bind].
    rewrite (double_div_zero m me Hz). split; reflexivity. }
  split.
  { intros me [m r] Hme Hz. cbn [fst] in Hz.
    pose proof (double_exponent_underflow libm_log m me Hme Hz) as Hexp.
    unfold Double.ModelBuilderClean.load_row,
      Double.QuantumNumberAnalysis.load_row,
      Double.quantum_number_float, Double.quantum_number.
    cbn [Double.as_float bind]. rewrite Hexp. split; reflexivity. }
  intros me [m r] Hphi Hphi0 Hme Hinf. cbn [fst] in Hinf.
  destruct (double_quantum_number_overflow libm_log m me
              Hphi Hphi0 Hme Hinf) as [Hq Hqf].
  unfold Double.ModelBuilderClean.load_row,
    Double.QuantumNumberAnalysis.load_row.
  cbn [Double.as_float bind]. rewrite Hq, Hqf. split; reflexivity.
Qed.

Lemma nonpositive_rows_left_out_witness :
  Double.ModelBuilderClean.load_particle_data Double.libm_log_sample
    [Double.electron_row; Double.photon_row; Double.muon_row]
  = Double.ModelBuilderClean.load_particle_data Double.libm_log_sample
      [Double.electron_row; Double.muon_row].
Proof.
  destruct (nonpositive_rows_left_out Double.libm_log_sample
              [Double.electron_row; Double.photon_row; Double.muon_row])
    as (_ & _ & Hskip & _).
  destruct (Hskip [Double.electron_row] [Double.muon_row] Double.photon_row)
    as [H _]; [reflexivity | reflexivity | discriminate |].
  exact H.
Defined.

(** C4, as stated, fails: there is no [InvalidMassError] and nothing is
    caught.  A table holding the massless photon is loaded without any
    error, the photon simply being absent from the result; the quantizer
    expression reports a zero mass and a zero reference with the raw
    [ValueError] and [ZeroDivisionError], and a selected row whose mass
    makes the quotient overflow stops the loader with the raw
    [OverflowError]. *)
Lemma zero_mass_not_rejected_on_doubles :
  In Double.photon_row [Double.electron_row; Double.photon_row] /\
  Double.mass_gev Double.photon_row = Some 0 /\
  Double.ModelBuilderClean.load_particle_data Double.libm_log_sample
    [Double.electron_row; Double.photon_row]
  = Ok ([ {| Double.ModelBuilderClean.p_name := "electron";
             Double.ModelBuilderClean.p_mass := 0.0005109989461;
             Double.ModelBuilderClean.p_n := 0;
             Double.ModelBuilderClean.p_q := 0;
             Double.ModelBuilderClean.p_category := Some "lepton";
             Double.ModelBuilderClean.p_spin := 0.5 |} ],
        Some 0.0005109989461) /\
  Double.QuantumNumberAnalysis.analyze_quantum_numbers Double.libm_log_sample
    [Double.electron_row; Double.photon_row]
  = Ok [ {| Double.QuantumNumberAnalysis.p_name := "electron";
            Double.QuantumNumberAnalysis.p_mass := 0.0005109989461;
            Double.QuantumNumberAnalysis.p_n := 0;
            Double.QuantumNumberAnalysis.p_q := 0%Z;
            Double.QuantumNumberAnalysis.p_category := Some "lepton";
            Double.QuantumNumberAnalysis.p_generation := 1%Z |} ] /\
  (forall libm_log : float -> float,
     Double.exponent libm_log 0 0.0005109989461 = Raise ValueError /\
     Double.exponent libm_log 0.1056583745 0 = Raise ZeroDivisionError) /\
  Double.ModelBuilderClean.load_particle_data Double.libm_log_sample
    [Double.electron_row; Double.heavy_muon_row]
  = Raise OverflowError /\
  (forall libm_log : float -> float,
     is_finite (libm_log Double.phi) = true ->
     is_zero (libm_log Double.phi) = false ->
     Double.ModelBuilderClean.load_row libm_log (Some 0.0005109989461)
       (1e308, Double.heavy_muon_row)
     = Raise OverflowError).
Proof.
  split; [right; left; reflexivity |].
  split; [reflexivity |].
  split; [vm_compute; reflexivity |].
  split; [vm_compute; reflexivity |].
  split; [intros libm_log; split; reflexivity |].
  split; [vm_compute; reflexivity |].
  intros libm_log Hphi Hphi0.
  unfold Double.ModelBuilderClean.load_row. cbn [Double.as_float bind].
  destruct (double_quantum_number_overflow libm_log 1e308 0.0005109989461
              Hphi Hphi0) as [_ Hq]; [reflexivity | reflexivity |].
  rewrite Hq. reflexivity.
Qed.

End DoubleLoaders.

(** ** The predicted states on doubles *)



Section DoublePredictions.

Import PrimFloat FloatOps SpecFloat FloatAxioms.
Local Open Scope float_scope.











End DoublePredictions.

Section DoublePredictionClaims.

Import PrimFloat FloatOps SpecFloat FloatAxioms.
Local Open Scope float_scope.




End DoublePredictionClaims.

(** ** The table of exact codes on doubles *)

Section DoubleExactCodes.

Import PrimFloat FloatOps SpecFloat FloatAxioms.
Local Open Scope float_scope.

(** What an entry of [load_data_with_exact_q] holds. *)
Lemma double_casimir_row_ok (libm_log : float -> float)
  (m_e : option float) (mr : float * Double.row)
  (p : Double.A5CasimirRatio.particle) :
  Double.A5CasimirRatio.load_row libm_log m_e mr = Ok p ->
  exists me n k,
    m_e = Some me /\
    Double.exponent libm_log (fst mr) me = Ok n /\
    Double.py_round (4 * n) = Ok k /\
    Double.A5CasimirRatio.p_name p = Double.name (snd mr) /\
    Double.A5CasimirRatio.p_mass p = fst mr /\
    Double.A5CasimirRatio.p_n p = n /\
    Double.A5CasimirRatio.p_q p
    = match dict_get exact_q (Double.name (snd mr)) with
      | Some t => t
      | None => k
      end.
Proof.
  destruct mr as [m r], m_e as [me |];
    unfold Double.A5CasimirRatio.load_row;
    cbn [Double.as_float bind fst snd]; [| discriminate].
  destruct (Double.exponent libm_log m me) as [n | e] eqn:Hn;
    cbn [bind]; [| discriminate].
  destruct (Double.py_round (4 * n)) as [k | e] eqn:Hk;
    cbn [bind]; [| discriminate].
  intros H. injection H as <-. exists me, n, k. cbn. repeat split; auto.
Qed.

(** The default [round(4 * n)] raises for a known name too. *)
Lemma double_casimir_row_round (libm_log : float -> float)
  (me : float) (mr : float * Double.row) (n : float) (e : PyExc) :
  Double.exponent libm_log (fst mr) me = Ok n ->
  Double.py_round (4 * n) = Raise e ->
  Double.A5CasimirRatio.load_row libm_log (Some me) mr = Raise e.
Proof.
  destruct mr as [m r]. cbn [fst]. intros Hn Hk.
  unfold Double.A5CasimirRatio.load_row. cbn [Double.as_float bind].
  rewrite Hn. cbn [bind]. rewrite Hk. reflexivity.
Qed.

Lemma double_casimir_row_overflow (libm_log : float -> float)
  (me : float) (mr : float * Double.row) :
  is_finite (libm_log Double.phi) = true ->
  is_zero (libm_log Double.phi) = false ->
  is_zero me = false -> fst mr / me = infinity ->
  Double.A5CasimirRatio.load_row libm_log (Some me) mr = Raise OverflowError.
Proof.
  intros Hphi Hphi0 Hme Hinf.
  destruct (double_exponent_overflow libm_log (fst mr) me
              Hphi Hphi0 Hme Hinf) as (n & s & Hn & Hs).
  apply (double_casimir_row_round _ _ _ n); [exact Hn |].
  apply (double_round_infinity n s Hs).
Qed.

Lemma double_q_pattern_row_known (mr : float * Double.row) (k : Z) :
  dict_get exact_q (Double.name (snd mr)) = Some k ->
  Double.QPatternAnalysis.load_row mr
  = Ok {| Double.QPatternAnalysis.p_name := Double.name (snd mr);
          Double.QPatternAnalysis.p_mass := fst mr;
          Double.QPatternAnalysis.p_category := Double.category (snd mr);
          Double.QPatternAnalysis.p_q := k;
          Double.QPatternAnalysis.p_n := Double.quarter k |}.
Proof.
  destruct mr as [m r]. cbn [fst snd]. intros H.
  unfold Double.QPatternAnalysis.load_row.
  rewrite (dict_item_known _ _ H). reflexivity.
Qed.

Lemma double_definitive_row_known (mr : float * Double.row) (k : Z)
  (s : float) :
  dict_get exact_q (Double.name (snd mr)) = Some k ->
  Double.spin_half (snd mr) = Some s ->
  Double.DefinitiveA5.load_row mr
  = Ok {| Double.DefinitiveA5.p_name := Double.name (snd mr);
          Double.DefinitiveA5.p_mass := fst mr;
          Double.DefinitiveA5.p_category := Double.category (snd mr);
          Double.DefinitiveA5.p_q := k;
          Double.DefinitiveA5.p_n := Double.quarter k;
          Double.DefinitiveA5.p_charge := Double.charge (snd mr);
          Double.DefinitiveA5.p_spin := s * 0.5;
          Double.DefinitiveA5.p_isospin := 0 |}.
Proof.
  destruct mr as [m r]. cbn [fst snd]. intros H Hs.
  unfold Double.DefinitiveA5.load_row.
  rewrite (dict_item_known _ _ H). cbn [bind]. rewrite Hs. reflexivity.
Qed.

Lemma double_definitive_row_null_spin (mr : float * Double.row) (k : Z) :
  dict_get exact_q (Double.name (snd mr)) = Some k ->
  Double.spin_half (snd mr) = None ->
  Double.DefinitiveA5.load_row mr = Raise TypeError.
Proof.
  destruct mr as [m r]. cbn [fst snd]. intros H Hs.
  unfold Double.DefinitiveA5.load_row.
  rewrite (dict_item_known _ _ H). cbn [bind]. rewrite Hs. reflexivity.
Qed.

Lemma double_rows_unknown (mr : float * Double.row) :
  dict_get exact_q (Double.name (snd mr)) = None ->
  Double.QPatternAnalysis.load_row mr = Raise KeyError /\
  Double.DefinitiveA5.load_row mr = Raise KeyError.
Proof.
  destruct mr as [m r]. cbn [fst snd]. intros H.
  unfold Double.QPatternAnalysis.load_row, Double.DefinitiveA5.load_row.
  rewrite (dict_item_unknown _ H). split; reflexivity.
Qed.

(** C9, as amended: on doubles.  In a5_casimir_ratio.py an entry has the
    table constant as [q] when its name is one of the table and
    [round(4 * n)] otherwise, and its [n] is always the raw exponent of
    the stored mass; the default [round(4 * n)] is evaluated for every
    row, so a stored mass whose exponent cannot be computed or rounded (an
    overflowing quotient) stops the loader for a known name too.  In
    q_pattern_analysis.py and definitive_a5_model_fixed.py [q] is the
    table constant and [n] that constant over 4, whatever the stored
    mass; a name outside the table raises [KeyError], and in
    definitive_a5_model_fixed.py a [NULL] spin raises [TypeError].  With
    an electron row, q_pattern_analysis.load_data returns when every
    selected name is in the table, and definitive_a5_model_fixed.load_data
    when moreover no selected spin is [NULL]; a selected name outside the
    table stops both. *)
Theorem exact_q_table_on_doubles (libm_log : float -> float)
  (db : Double.database) :
  let rows := Double.where_mass_positive db in
  (forall m_e mr p,
     Double.A5CasimirRatio.load_row libm_log m_e mr = Ok p ->
     exists me n k,
       m_e = Some me /\
       Double.exponent libm_log (fst mr) me = Ok n /\
       Double.py_round (4 * n) = Ok k /\
       Double.A5CasimirRatio.p_name p = Double.name (snd mr) /\
       Double.A5CasimirRatio.p_mass p = fst mr /\
       Double.A5CasimirRatio.p_n p = n /\
       Double.A5CasimirRatio.p_q p
       = match dict_get exact_q (Double.name (snd mr)) with
         | Some t => t
         | None => k
         end) /\
  (forall me mr n e,
     Double.exponent libm_log (fst mr) me = Ok n ->
     Double.py_round (4 * n) = Raise e ->
     Double.A5CasimirRatio.load_row libm_log (Some me) mr = Raise e) /\
  (forall me mr e,
     Double.exponent libm_log (fst mr) me = Raise e ->
     Double.A5CasimirRatio.load_row libm_log (Some me) mr = Raise e) /\
  (forall me mr,
     is_finite (libm_log Double.phi) = true ->
     is_zero (libm_log Double.phi) = false ->
     is_zero me = false -> fst mr / me = infinity ->
     Double.A5CasimirRatio.load_row libm_log (Some me) mr
     = Raise OverflowError) /\
  (forall ps m_e,
     Double.A5CasimirRatio.load_data_with_exact_q libm_log db
     = Ok (ps, m_e) ->
     Double.select_electron_mass db = Ok m_e /\
     Forall2 (fun mr p =>
                Double.A5CasimirRatio.load_row libm_log m_e mr = Ok p)
             (Double.order_by_mass rows) ps) /\
  (forall m_e,
     Double.select_electron_mass db = Ok m_e ->
     (forall mr, In mr rows ->
        exists p, Double.A5CasimirRatio.load_row libm_log m_e mr = Ok p) ->
     exists ps,
       Double.A5CasimirRatio.load_data_with_exact_q libm_log db
       = Ok (ps, m_e)) /\
  (forall mr k,
     dict_get exact_q (Double.name (snd mr)) = Some k ->
     Double.QPatternAnalysis.load_row mr
     = Ok {| Double.QPatternAnalysis.p_name := Double.name (snd mr);
             Double.QPatternAnalysis.p_mass := fst mr;
             Double.QPatternAnalysis.p_category := Double.category (snd mr);
             Double.QPatternAnalysis.p_q := k;
             Double.QPatternAnalysis.p_n := Double.quarter k |} /\
     (forall s,
        Double.spin_half (snd mr) = Some s ->
        Double.DefinitiveA5.load_row mr
        = Ok {| Double.DefinitiveA5.p_name := Double.name (snd mr);
                Double.DefinitiveA5.p_mass := fst mr;
                Double.DefinitiveA5.p_category := Double.category (snd mr);
                Double.DefinitiveA5.p_q := k;
                Double.DefinitiveA5.p_n := Double.quarter k;
                Double.DefinitiveA5.p_charge := Double.charge (snd mr);
                Double.DefinitiveA5.p_spin := s * 0.5;
                Double.DefinitiveA5.p_isospin := 0 |}) /\
     (Double.spin_half (snd mr) = None ->
      Double.DefinitiveA5.load_row mr = Raise TypeError)) /\
  (forall mr,
     dict_get exact_q (Double.name (snd mr)) = None ->
     Double.QPatternAnalysis.load_row mr = Raise KeyError /\
     Double.DefinitiveA5.load_row mr = Raise KeyError) /\
  (forall m_e,
     Double.select_electron_mass db = Ok m_e ->
     ((forall mr, In mr rows ->
         dict_get exact_q (Double.name (snd mr)) <> None) ->
      exists ps,
        Double.QPatternAnalysis.load_data db = Ok (ps, m_e) /\
        Forall2 (fun mr p => Double.QPatternAnalysis.load_row mr = Ok p)
                rows ps) /\
     ((forall mr, In mr rows ->
         dict_get exact_q (Double.name (snd mr)) <> None /\
         Double.spin_half (snd mr) <> None) ->
      exists ps,
        Double.DefinitiveA5.load_data db = Ok (ps, m_e) /\
        Forall2 (fun mr p => Double.DefinitiveA5.load_row mr = Ok p)
                rows ps) /\
     ((exists mr, In mr rows /\
         dict_get exact_q (Double.name (snd mr)) = None) ->
      (exists e, Double.QPatternAnalysis.load_data db = Raise e) /\
      (exists e, Double.DefinitiveA5.load_data db = Raise e))).
Proof.
  intros rows.
  split; [apply double_casimir_row_ok |].
  split; [apply double_casimir_row_round |].
  split.
  { intros me [m r] e He. cbn [fst] in He.
    unfold Double.A5CasimirRatio.load_row. cbn [Double.as_float bind].
    rewrite He. reflexivity. }
  split; [apply double_casimir_row_overflow |].
  split.
  { intros ps m_e.
    unfold Double.A5CasimirRatio.load_data_with_exact_q.
    destruct (Double.select_electron_mass db) as [m0 | e];
      cbn [bind]; [| discriminate].
    fold rows.
    destruct (mapM (Double.A5CasimirRatio.load_row libm_log m0)
                (Double.order_by_mass rows)) as [ps0 | e] eqn:Hm;
      cbn [bind]; [| discriminate].
    intros H. injection H as <- <-.
    split; [reflexivity | apply mapM_ok_inv, Hm]. }
  split.
  { intros m_e Hsel Hall.
    unfold Double.A5CasimirRatio.load_data_with_exact_q.
    rewrite Hsel. cbn [bind]. fold rows.
    destruct (mapM_all_ok (Double.A5CasimirRatio.load_row libm_log m_e)
                (Double.order_by_mass rows)) as [ps Hps].
    { intros mr Hin. apply Hall, double_In_order_by_mass, Hin. }
    rewrite Hps. cbn [bind]. eauto. }
  split.
  { intros mr k Hk.
    split; [apply double_q_pattern_row_known, Hk |].
    split; [intros s Hs; apply double_definitive_row_known; assumption |].
    intros Hs. apply (double_definitive_row_null_spin mr k); assumption. }
  split; [apply double_rows_unknown |].
  intros m_e Hsel.
  split.
  { intros Hknown.
    destruct (mapM_all_ok Double.QPatternAnalysis.load_row rows) as [ps Hps].
    { intros mr Hin. specialize (Hknown mr Hin).
      destruct (dict_get exact_q (Double.name (snd mr))) as [k |] eqn:Hk;
        [| congruence].
      rewrite (double_q_pattern_row_known mr k Hk). eauto. }
    exists ps. split; [| apply mapM_ok_inv, Hps].
    unfold Double.QPatternAnalysis.load_data. rewrite Hsel. cbn [bind].
    fold rows. rewrite Hps. reflexivity. }
  split.
  { intros Hknown.
    destruct (mapM_all_ok Double.DefinitiveA5.load_row rows) as [ps Hps].
    { intros mr Hin. destruct (Hknown mr Hin) as [Hname Hspin].
      destruct (dict_get exact_q (Double.name (snd mr))) as [k |] eqn:Hk;
        [| congruence].
      destruct (Double.spin_half (snd mr)) as [s |] eqn:Hs; [| congruence].
      rewrite (double_definitive_row_known mr k s Hk Hs). eauto. }
    exists ps. split; [| apply mapM_ok_inv, Hps].
    unfold Double.DefinitiveA5.load_data. rewrite Hsel. cbn [bind].
    fold rows. rewrite Hps. reflexivity. }
  intros (mr & Hin & Hnone).
  destruct (double_rows_unknown mr Hnone) as [Hq Hd].
  unfold Double.QPatternAnalysis.load_data, Double.DefinitiveA5.load_data.
  rewrite Hsel. cbn [bind]. fold rows. split.
  - destruct (mapM_raise _ _ _ _ Hin Hq) as [e ->]. cbn [bind]. eauto.
  - destruct (mapM_raise _ _ _ _ Hin Hd) as [e ->]. cbn [bind]. eauto.
Qed.

Lemma exact_q_table_on_doubles_witness :
  exists ps,
    Double.DefinitiveA5.load_data [Double.electron_row; Double.muon_row]
    = Ok (ps, Some 0.0005109989461) /\
    map Double.DefinitiveA5.p_q ps = [0; 44]%Z /\
    map Double.DefinitiveA5.p_n ps = [0; 11].
Proof.
  destruct (exact_q_table_on_doubles Double.libm_log_sample
              [Double.electron_row; Double.muon_row])
    as (_ & _ & _ & _ & _ & _ & _ & _ & Hload).
  destruct (Hload (Some 0.0005109989461) eq_refl) as (_ & Hdef & _).
  destruct Hdef as (ps & Hps & _).
  { intros mr [<- | [<- | []]]; split; discriminate. }
  exists ps. split; [exact Hps |].
  vm_compute in Hps. injection Hps as <-. split; reflexivity.
Defined.

(** C9, as stated, fails: with the sample logarithms a5_casimir_ratio.py
    reports the muon with the table code 44 but with the exponent
    11.0795... computed from its mass, which is not 44/4 = 11;
    q_pattern_analysis.py has no fallback, the name ['Higgs'] raising
    [KeyError]; and a5_casimir_ratio.py does depend on the stored mass of
    a known name: a muon row of mass 1e308 stops it with
    [OverflowError]. *)
Lemma casimir_exponent_not_from_table_on_doubles :
  (exists ps p,
     Double.A5CasimirRatio.load_data_with_exact_q Double.libm_log_sample
       [Double.electron_row; Double.muon_row]
     = Ok (ps, Some 0.0005109989461) /\
     In p ps /\
     Double.A5CasimirRatio.p_name p = "muon" /\
     Double.A5CasimirRatio.p_q p = 44%Z /\
     Double.A5CasimirRatio.p_n p = 11.079525649464776 /\
     Double.A5CasimirRatio.p_n p
     <> Double.quarter (Double.A5CasimirRatio.p_q p)) /\
  Double.QPatternAnalysis.load_row (125.25, Double.Higgs_row)
  = Raise KeyError /\
  dict_get exact_q (Double.name Double.heavy_muon_row) = Some 44%Z /\
  Double.A5CasimirRatio.load_data_with_exact_q Double.libm_log_sample
    [Double.electron_row; Double.heavy_muon_row]
  = Raise OverflowError /\
  (forall libm_log : float -> float,
     is_finite (libm_log Double.phi) = true ->
     is_zero (libm_log Double.phi) = false ->
     Double.A5CasimirRatio.load_row libm_log (Some 0.0005109989461)
       (1e308, Double.heavy_muon_row)
     = Raise OverflowError).
Proof.
  split; [| split; [reflexivity | split; [reflexivity | split]]];
    [| | intros libm_log Hphi Hphi0;
         apply double_casimir_row_overflow; try assumption; reflexivity].
  - eexists.
    exists {| Double.A5CasimirRatio.p_name := "muon";
              Double.A5CasimirRatio.p_mass := 0.1056583745;
              Double.A5CasimirRatio.p_n := 11.079525649464776;
              Double.A5CasimirRatio.p_q := 44%Z;
              Double.A5CasimirRatio.p_category := Some "lepton";
              Double.A5CasimirRatio.p_spin := 0.5 |}.
    split; [vm_compute; reflexivity |].
    split; [right; left; reflexivity |].
    split; [reflexivity |]. split; [reflexivity |]. split; [reflexivity |].
    cbn. intros H. apply Leibniz.eqb_spec in H. discriminate H.
  - vm_compute. reflexivity.
Qed.

End DoubleExactCodes.
